(** * OpenADR client (VEN) and EiEvent service: a shallow embedding

    The development follows [openleadr/client.py] (class [OpenADRClient]) and
    [openleadr/service/event_service.py] (class [EventService]).

    Conventions of the embedding.
    - A Python method of the client is a computation in the monad [M]: it
      takes the state (the client object and the world around it), and gives
      back either a returned value or a raised exception, together with the
      state it leaves behind. A raised exception keeps the mutations made
      before the [raise], as in Python.
    - [await] is sequencing: the embedding is sequential, one coroutine at a
      time. A callable that returns a coroutine is collapsed with a plain one.
    - A [datetime.timedelta] is its total number of microseconds, an integer.
    - Dictionaries received from the VTN are records; a key the OpenADR schema
      makes optional (or a top-level key that depends on the message type) is
      an [option] field, and looking it up with [d[k]] raises [KeyError].
    - [logger] calls, [breakpoint()], HTTP posts and the invocation of
      application handlers are recorded, in order, in the world's trace. *)

From Stdlib Require Import ZArith List String Ascii Bool Lia.
Import ListNotations.
Local Open Scope string_scope.
Local Open Scope list_scope.
Local Open Scope Z_scope.

(** ** Python values used by the client *)

(** Exceptions the modelled code can raise. [Exception] stands for an error
    raised by a collaborator outside the client (message parsing, signature
    validation, an application callable). *)
Inductive exn : Type :=
| KeyError (key : string)
| IndexError
| AttributeError (attr : string)
| TypeError (msg : string)
| ValueError (msg : string)
| NameError (name : string)
| UnboundLocalError (name : string)
| Exception (msg : string).

Inductive outcome (A : Type) : Type :=
| Return (a : A)
| Raise (e : exn).
Arguments Return {A} a.
Arguments Raise {A} e.

(** [datetime.timedelta], in microseconds. *)
Definition timedelta : Type := Z.
Definition td_seconds (n : Z) : timedelta := n * 1000000.
Definition td_hours (n : Z) : timedelta := td_seconds (n * 3600).
(** [td.seconds]: the seconds component of the normalised
    (days, seconds, microseconds) triple, between 0 and 86399. *)
Definition td_seconds_attr (td : timedelta) : Z := (td / 1000000) mod 86400.

(** *** objects.py: the object model (fields the client reads or writes) *)

Record SamplingRate : Type := {
  min_period : timedelta;
  max_period : timedelta;
  on_change : bool }.

Record Measurement : Type := {
  item_name : string;
  item_description : string;
  item_units : option string;
  acceptable_units : list string;
  si_scale_code : option string }.

Record Target : Type := { resource_id : string }.

(** Which [Measurement] object a description holds. Python keeps one object
    for each member of [enums.MEASUREMENTS], and [add_report] stores in the
    description the object it was given or found, not a copy: descriptions
    made from the same object share it, and a later write to the object
    shows in all of them. An object is a member of the table, an object the
    application made ([External], under a key of its choice), or the object
    [add_report] itself made for a custom unit ([Created n], when [n]
    identifiers had been drawn). *)
Inductive object_id : Type :=
| EnumMember (name : string)
| External (key : nat)
| Created (n : nat).

Definition object_eqb (a b : object_id) : bool :=
  match a, b with
  | EnumMember x, EnumMember y => String.eqb x y
  | External x, External y => Nat.eqb x y
  | Created x, Created y => Nat.eqb x y
  | _, _ => false
  end.

(** The application's value producer: a zero-argument callable. What it
    returns may depend on when it is called; it may raise. *)
Definition Producer : Type := Z -> outcome Z.

Record ReportDescription : Type := {
  r_id : string;
  reading_type : string;
  report_data_source : Target;
  report_subject : Target;
  report_type : string;
  sampling_rate : SamplingRate;
  measurement : Measurement;        (* what the object holds now *)
  measurement_id : object_id;       (* which object it is *)
  market_context : string;
  callable : Producer }.

Record ReportPayload : Type := { rp_r_id : string; rp_value : Z }.
Record ReportInterval : Type := { dtstart : Z; report_payload : ReportPayload }.

(** [objects.Report] serves both as a report definition (with
    [report_descriptions]) and as an outbound report (with [intervals] and a
    [report_request_id]). *)
Record Report : Type := {
  created_date_time : option Z;
  report_name : string;
  report_specifier_id : string;
  report_descriptions : list ReportDescription;
  report_request_id : option string;
  intervals : list ReportInterval }.

(** *** Payloads received from the VTN *)

Record Response : Type := {
  response_code : Z;
  response_description : option string }.

Record EventDescriptor : Type := { event_id : string }.
Record Event : Type := { event_descriptor : EventDescriptor }.

(** An [oadrReportRequest]: [report_request_id] and a [report_specifier] with
    [report_specifier_id], [granularity] (may be [None]), [specifier_payloads]
    and the optional [report_back_duration] and [report_interval]. The
    specifier itself has no [dtstart] or [duration] key. *)
Record MeasurementSpec : Type := {
  ms_item_description : string;
  ms_item_units : string }.

Record SpecifierPayload : Type := {
  sp_r_id : string;
  sp_reading_type : string;
  sp_measurement : option MeasurementSpec }.

Record Interval : Type := { iv_dtstart : Z; iv_duration : timedelta }.

Record ReportSpecifier : Type := {
  rs_report_specifier_id : string;
  rs_report_back_duration : option timedelta;
  rs_granularity : option timedelta;
  rs_report_interval : option Interval;
  rs_specifier_payloads : list SpecifierPayload }.

Record ReportRequestMsg : Type := {
  rq_report_request_id : string;
  rq_report_specifier : ReportSpecifier }.

Record CancelReport : Type := {
  cr_report_request_ids : list string;
  cr_report_to_follow : bool }.

(** The payload dictionary of a parsed reply. Which keys are present depends
    on the type of the message, so each is optional; [{}] is
    [empty_payload]. *)
Record Payload : Type := {
  p_response : option Response;
  p_ven_id : option string;
  p_requested_oadr_poll_freq : option timedelta;
  p_report_requests : option (list ReportRequestMsg);
  p_request_id : option string;
  p_events : option (list Event);
  p_cancel_report : option CancelReport }.

Definition empty_payload : Payload :=
  {| p_response := None; p_ven_id := None; p_requested_oadr_poll_freq := None;
     p_report_requests := None; p_request_id := None; p_events := None;
     p_cancel_report := None |}.

(** *** The scheduler (apscheduler's AsyncIOScheduler, as far as it is used) *)

(** A cron field: ["*"], a number, or a step expression ["a/b"] / ["*/b"]. *)
Inductive cron_field : Type :=
| CronAny
| CronAt (n : Z)
| CronStep (start : option Z) (step : Z).

Record CronTrigger : Type := {
  second : cron_field;
  minute : cron_field;
  hour : cron_field }.

Inductive job_func : Type :=
| JobPoll                                   (* self._poll *)
| JobUpdateReport (request_id : string).    (* partial(self.update_report, report_request_id=...) *)

Record Job : Type := { func : job_func; trigger : CronTrigger }.

Record AsyncIOScheduler : Type := { jobs : list Job; running : bool }.

(** An entry of [self.report_requests]: the dictionary built at the end of
    [create_report]. *)
Record ReportRequest : Type := {
  rr_report_request_id : string;
  rr_report_specifier_id : string;
  rr_r_ids : list string;
  rr_granularity : option timedelta;
  rr_job : Job }.

(** *** Outbound messages, as handed to [_create_message] *)

Record RegistrationOptions : Type := {
  http_pull_model : bool;
  xml_signature : bool;
  report_only : bool;
  profile_name : string;
  transport_name : string;
  transport_address : option string;
  opt_ven_id : option string }.

(** The defaults of [create_party_registration]'s keyword arguments. *)
Definition default_registration : RegistrationOptions :=
  {| http_pull_model := true; xml_signature := false; report_only := false;
     profile_name := "2.0b"; transport_name := "simpleHttp";
     transport_address := None; opt_ven_id := None |}.

Inductive Message : Type :=
| oadrPoll (ven : option string)
| oadrCreatePartyRegistration (request_id : string) (name : string)
    (options : RegistrationOptions)
| oadrCreatedEvent (ven : option string) (request_id : string)
    (event : string) (modification_number : Z) (opt_type : string)
| oadrRegisterReport (request_id : string) (ven : option string)
    (reports : list Report)
| oadrUpdateReport (reports : list Report).

(** ** The client object and the world *)

Record OpenADRClient : Type := {
  ven_name : string;
  vtn_url : string;
  ven_id : option string;
  poll_frequency : option timedelta;
  debug : bool;
  reports : list Report;
  report_requests : list ReportRequest;
  pending_reports : list Report;          (* asyncio.Queue, oldest first *)
  scheduler : AsyncIOScheduler;
  report_queue_task : bool;               (* whether the worker task was created *)
  (* Attributes the class does not define; the application may set them on
     the instance. [None] is an absent attribute. *)
  on_event : option (Payload -> outcome string);
  _on_report : option (Payload -> outcome unit) }.

(** [OpenADRClient.__init__] (without the signing material). *)
Definition new_client (name url : string) (dbg : bool) : OpenADRClient :=
  {| ven_name := name; vtn_url := url; ven_id := None; poll_frequency := None;
     debug := dbg; reports := []; report_requests := []; pending_reports := [];
     scheduler := {| jobs := []; running := false |};
     report_queue_task := false; on_event := None; _on_report := None |}.

(** What one HTTP exchange ([client_session.post] and [req.read]) gives. *)
Inductive http_outcome : Type :=
| Responded (status : Z) (content : string)
| ClientConnectorError (err : string)
| OtherError (e : exn).

Inductive level : Type := DEBUG | INFO | WARNING | ERROR.

Inductive event : Type :=
| Log (lvl : level) (msg : string)
| Breakpoint
| Post (service : string) (message : Message)
| Called (handler : string).

(** The world: the trace of observable effects, the VTN as a script of HTTP
    outcomes per service (an exhausted script is a server that cannot be
    connected to), the number of identifiers and random numbers drawn so far,
    and the clock. *)
Record World : Type := {
  trace : list event;
  network : string -> list http_outcome;
  ids : nat;
  rolls : nat;
  now : Z }.

Record State : Type := { self : OpenADRClient; world : World }.

(** ** The monad of client methods *)

Definition M (A : Type) : Type := State -> outcome A * State.

Definition ret {A} (a : A) : M A := fun s => (Return a, s).
Definition raise {A} (e : exn) : M A := fun s => (Raise e, s).
Definition bind {A B} (m : M A) (k : A -> M B) : M B :=
  fun s => match m s with
           | (Return a, s') => k a s'
           | (Raise e, s') => (Raise e, s')
           end.

Declare Scope py_scope.
Delimit Scope py_scope with py.
Notation "x <- m ;; k" := (bind m (fun x => k))
  (at level 61, m at next level, right associativity) : py_scope.
Notation "' p <- m ;; k" := (bind m (fun x => let 'p := x in k))
  (at level 61, p pattern, m at next level, right associativity) : py_scope.
Notation "m ;; k" := (bind m (fun _ => k))
  (at level 61, right associativity) : py_scope.
Local Open Scope py_scope.

Definition get_self : M OpenADRClient := fun s => (Return (self s), s).
Definition put_self (c : OpenADRClient) : M unit :=
  fun s => (Return tt, {| self := c; world := world s |}).
Definition get_world : M World := fun s => (Return (world s), s).
Definition put_world (w : World) : M unit :=
  fun s => (Return tt, {| self := self s; world := w |}).

(** [d[k]] on a dictionary whose key [k] may be absent. *)
Definition getitem {A} (key : string) (v : option A) : M A :=
  match v with
  | Some a => ret a
  | None => raise (KeyError key)
  end.

Definition emit (e : event) : M unit :=
  w <- get_world ;;
  put_world {| trace := trace w ++ [e]; network := network w; ids := ids w;
               rolls := rolls w; now := now w |}.

Definition logger (lvl : level) (msg : string) : M unit := emit (Log lvl msg).
(** [breakpoint()]: recorded; execution goes on, as it does when the debugger
    is told to continue or when breakpoints are switched off. *)
Definition breakpoint : M unit := emit Breakpoint.

(** [self.client_session.post(url, data=message)] and [req.read()]: the next
    scripted outcome of the service. *)
Definition post (service : string) (message : Message) : M http_outcome :=
  emit (Post service message) ;;
  w <- get_world ;;
  match network w service with
  | [] => ret (ClientConnectorError "Cannot connect to host")
  | o :: rest =>
      put_world {| trace := trace w;
                   network := fun sv => if String.eqb sv service then rest
                                        else network w sv;
                   ids := ids w; rolls := rolls w; now := now w |} ;;
      ret o
  end.

Definition datetime_now : M Z := w <- get_world ;; ret (now w).

(** The result of an external or application call, inside the monad. *)
Definition call {A} (r : outcome A) : M A :=
  match r with
  | Return a => ret a
  | Raise e => raise e
  end.

(** [obj.attr] on an attribute that may be absent. *)
Definition getattr {A} (attr : string) (v : option A) : M A :=
  match v with
  | Some a => ret a
  | None => raise (AttributeError attr)
  end.

(** A [for] loop whose body updates the loop's local variables. *)
Fixpoint for_each {A L} (xs : list A) (body : L -> A -> M L) (locals : L) : M L :=
  match xs with
  | [] => ret locals
  | x :: rest => locals' <- body locals x ;; for_each rest body locals'
  end.

(** Field updates of the client object. *)
Definition set_ven_id (v : option string) (c : OpenADRClient) : OpenADRClient :=
  {| ven_name := ven_name c; vtn_url := vtn_url c; ven_id := v;
     poll_frequency := poll_frequency c; debug := debug c; reports := reports c;
     report_requests := report_requests c; pending_reports := pending_reports c;
     scheduler := scheduler c; report_queue_task := report_queue_task c;
     on_event := on_event c; _on_report := _on_report c |}.

Definition set_poll_frequency (f : option timedelta) (c : OpenADRClient) : OpenADRClient :=
  {| ven_name := ven_name c; vtn_url := vtn_url c; ven_id := ven_id c;
     poll_frequency := f; debug := debug c; reports := reports c;
     report_requests := report_requests c; pending_reports := pending_reports c;
     scheduler := scheduler c; report_queue_task := report_queue_task c;
     on_event := on_event c; _on_report := _on_report c |}.

Definition set_reports (l : list Report) (c : OpenADRClient) : OpenADRClient :=
  {| ven_name := ven_name c; vtn_url := vtn_url c; ven_id := ven_id c;
     poll_frequency := poll_frequency c; debug := debug c; reports := l;
     report_requests := report_requests c; pending_reports := pending_reports c;
     scheduler := scheduler c; report_queue_task := report_queue_task c;
     on_event := on_event c; _on_report := _on_report c |}.

Definition set_report_requests (l : list ReportRequest) (c : OpenADRClient) : OpenADRClient :=
  {| ven_name := ven_name c; vtn_url := vtn_url c; ven_id := ven_id c;
     poll_frequency := poll_frequency c; debug := debug c; reports := reports c;
     report_requests := l; pending_reports := pending_reports c;
     scheduler := scheduler c; report_queue_task := report_queue_task c;
     on_event := on_event c; _on_report := _on_report c |}.

Definition set_pending_reports (l : list Report) (c : OpenADRClient) : OpenADRClient :=
  {| ven_name := ven_name c; vtn_url := vtn_url c; ven_id := ven_id c;
     poll_frequency := poll_frequency c; debug := debug c; reports := reports c;
     report_requests := report_requests c; pending_reports := l;
     scheduler := scheduler c; report_queue_task := report_queue_task c;
     on_event := on_event c; _on_report := _on_report c |}.

Definition set_scheduler (sch : AsyncIOScheduler) (c : OpenADRClient) : OpenADRClient :=
  {| ven_name := ven_name c; vtn_url := vtn_url c; ven_id := ven_id c;
     poll_frequency := poll_frequency c; debug := debug c; reports := reports c;
     report_requests := report_requests c; pending_reports := pending_reports c;
     scheduler := sch; report_queue_task := report_queue_task c;
     on_event := on_event c; _on_report := _on_report c |}.

Definition set_report_queue_task (b : bool) (c : OpenADRClient) : OpenADRClient :=
  {| ven_name := ven_name c; vtn_url := vtn_url c; ven_id := ven_id c;
     poll_frequency := poll_frequency c; debug := debug c; reports := reports c;
     report_requests := report_requests c; pending_reports := pending_reports c;
     scheduler := scheduler c; report_queue_task := b;
     on_event := on_event c; _on_report := _on_report c |}.

Definition modify_self (f : OpenADRClient -> OpenADRClient) : M unit :=
  c <- get_self ;; put_self (f c).

Definition scheduler_start : M unit :=
  c <- get_self ;;
  put_self (set_scheduler {| jobs := jobs (scheduler c); running := true |} c).

(** Modelled from the spec: [find_by] of [openleadr.utils] is not among the
    source files. The negotiation steps of the spec ("definition must exist
    for the request's specifierId", "each requested rId must match a known
    descriptor in that definition") are lookups by attribute value: [find_by]
    gives the first item of the list whose attributes have the given values,
    [None] when there is none. The attribute tests are passed as a predicate. *)
Definition find_by {A} (items : list A) (has_values : A -> bool) : option A :=
  List.find has_values items.

(** Python truthiness of an optional string: [None] and [''] are falsy. *)
Definition truthy (v : option string) : bool :=
  match v with
  | None => false
  | Some s => negb (String.eqb s "")
  end.

Definition str_in (x : string) (l : list string) : bool :=
  existsb (String.eqb x) l.

Definition opt_str_eqb (a b : option string) : bool :=
  match a, b with
  | Some x, Some y => String.eqb x y
  | None, None => true
  | _, _ => false
  end.

(** [str.upper], on ASCII letters. *)
Definition upper_ascii (c : ascii) : ascii :=
  let n := nat_of_ascii c in
  if ((97 <=? n) && (n <=? 122))%nat then ascii_of_nat (n - 32) else c.

Fixpoint upper (s : string) : string :=
  match s with
  | EmptyString => EmptyString
  | String c rest => String (upper_ascii c) (upper rest)
  end.

(** The arguments of [add_report]: [measurement] is a [Measurement] object
    (which one, and what it holds at the call) or a string; [sampling_rate]
    is [None], a [timedelta] or a [SamplingRate]. *)
Inductive measurement_arg : Type :=
| MeasurementObject (o : object_id) (m : Measurement)
| MeasurementName (name : string).

Inductive sampling_rate_arg : Type :=
| NoSamplingRate
| SamplingPeriod (td : timedelta)
| SamplingRateObject (sr : SamplingRate).

Record AddReport : Type := {
  ar_callable : Producer;
  ar_resource_id : string;
  ar_measurement : measurement_arg;
  ar_report_specifier_id : option string;
  ar_report_name : string;
  ar_reading_type : string;
  ar_report_type : string;
  ar_sampling_rate : sampling_rate_arg;
  ar_scale : string;
  ar_unit : option string }.

(** *** Collaborators outside the client

    Code of the package that the client calls and that is not part of the
    two modules embedded here: the development holds for any implementation
    of this interface. *)
Class Collaborators : Type := {
  (** [self._parse_message]: [messaging.parse_message] with the VTN's
      fingerprint; it gives the message type and the payload, or raises when
      the reply cannot be parsed or its signature is not valid. *)
  parse_message : string -> outcome (string * Payload);
  (** Whether [content.decode('utf-8')] succeeds. *)
  decodes_utf8 : string -> bool;
  (** [utils.cron_config], applied to a granularity that may be [None]. *)
  cron_config : option timedelta -> outcome CronTrigger;
  (** apscheduler's cron trigger, which [scheduler.add_job(trigger='cron',
      ...)] builds from the fields it is given: it raises ([ValueError])
      when it rejects one, a step of 0 or a value outside the range of the
      field among them. *)
  create_trigger : CronTrigger -> outcome unit;
  (** [utils.generate_id]: the n-th identifier drawn. *)
  generate_id_at : nat -> string;
  (** [random.randint]: the n-th number drawn, given the bounds. *)
  randint_at : nat -> Z -> Z -> Z;
  (** [enums]: the vocabularies and the table of measurements. *)
  REPORT_NAME_values : list string;
  READING_TYPE_values : list string;
  REPORT_TYPE_values : list string;
  SI_SCALE_CODE_values : list string;
  MEASUREMENTS : string -> option Measurement }.

Section Client.

Context {collaborators : Collaborators}.

Definition generate_id : M string :=
  w <- get_world ;;
  put_world {| trace := trace w; network := network w; ids := S (ids w);
               rolls := rolls w; now := now w |} ;;
  ret (generate_id_at (ids w)).

Definition randint (lo hi : Z) : M Z :=
  w <- get_world ;;
  put_world {| trace := trace w; network := network w; ids := ids w;
               rolls := S (rolls w); now := now w |} ;;
  ret (randint_at (rolls w) lo hi).

(** [self.scheduler.add_job(func, trigger='cron', ...)]: the scheduler
    builds the trigger, which may raise; then the job is added and
    returned. *)
Definition add_job (j : Job) : M Job :=
  call (create_trigger (trigger j)) ;;
  c <- get_self ;;
  put_self (set_scheduler {| jobs := jobs (scheduler c) ++ [j];
                             running := running (scheduler c) |} c) ;;
  ret j.

(** *** Low level *)

(** The second [try] of [_perform_request]. *)
Definition parse_reply (content : string) : M (option string * Payload) :=
  match parse_message content with
  | Return (message_type, message_payload) =>
      ret (Some message_type, message_payload)
  | Raise err =>
      logger ERROR "The incoming message could not be parsed or validated" ;;
      raise err
  end.

(** [_perform_request]. When the exchange raises anything but a
    [ClientConnectorError], [breakpoint()] is reached with [content] not
    yet bound: the second [try] then fails on the unbound name, and so does
    the f-string of its handler, so [UnboundLocalError] leaves the method.
    A body that is not valid UTF-8 makes [content.decode] raise inside the
    first [try], after [content] is bound: [breakpoint()], then parsing. *)
Definition _perform_request (service : string) (message : Message)
  : M (option string * Payload) :=
  logger DEBUG "Client is sending" ;;
  req <- post service message ;;
  match req with
  | Responded status content =>
      if negb (status =? 200) then
        logger WARNING "Non-OK status when performing a request" ;;
        ret (None, empty_payload)
      else
        (if decodes_utf8 content then logger DEBUG content else breakpoint) ;;
        parse_reply content
  | ClientConnectorError err =>
      logger ERROR "Could not connect to server with URL" ;;
      logger ERROR err ;;
      ret (None, empty_payload)
  | OtherError e =>
      breakpoint ;;
      raise (UnboundLocalError "content")
  end.

(** *** Polling and registration *)

Definition poll : M (option string * Payload) :=
  c <- get_self ;;
  let message := oadrPoll (ven_id c) in
  _perform_request "OadrPoll" message.

Definition create_party_registration (options : RegistrationOptions)
  : M (option (string * Payload)) :=
  request_id <- generate_id ;;
  c <- get_self ;;
  message_request_id <- generate_id ;;
  let message :=
    oadrCreatePartyRegistration message_request_id (ven_name c) options in
  '(response_type, response_payload) <-
     _perform_request "EiRegisterParty" message ;;
  match response_type with
  | None => ret None
  | Some response_type =>
      response <- getitem "response" (p_response response_payload) ;;
      if negb (response_code response =? 200) then
        status_description <-
          getitem "response_description" (response_description response) ;;
        logger ERROR "Got error on Create Party Registration" ;;
        ret None
      else
        new_ven_id <- getitem "ven_id" (p_ven_id response_payload) ;;
        modify_self (set_ven_id (Some new_ven_id)) ;;
        modify_self
          (set_poll_frequency
             (Some match p_requested_oadr_poll_freq response_payload with
                   | Some freq => freq
                   | None => td_seconds 10
                   end)) ;;
        logger INFO "VEN is now registered with ID" ;;
        logger INFO "The polling frequency is" ;;
        ret (Some (response_type, response_payload))
  end.

(** *** Events *)

Definition created_event (request_id event_id opt_type : string)
  (modification_number : Z) : M unit :=
  c <- get_self ;;
  let message := oadrCreatedEvent (ven_id c) request_id event_id
                   modification_number opt_type in
  _perform_request "EiEvent" message ;;
  ret tt.

Definition _on_event (message : Payload) : M unit :=
  logger DEBUG "The VEN received an event" ;;
  c <- get_self ;;
  handler <- getattr "on_event" (on_event c) ;;
  emit (Called "on_event") ;;
  result <- call (handler message) ;;
  logger DEBUG "Now responding with" ;;
  request_id <- getitem "request_id" (p_request_id message) ;;
  events <- getitem "events" (p_events message) ;;
  first_event <- match events with
                 | [] => raise IndexError
                 | e :: _ => ret e
                 end ;;
  let event_id := event_id (event_descriptor first_event) in
  created_event request_id event_id result 1.

(** What [_poll] does with a reply that is neither absent nor
    [oadrResponse], before it polls again. *)
Definition dispatch (response_type : string) (response_payload : Payload)
  : M unit :=
  (if String.eqb response_type "oadrRequestReregistration" then
     logger INFO "The VTN required us to re-register" ;;
     create_party_registration default_registration ;;
     ret tt
   else ret tt) ;;
  if String.eqb response_type "oadrDistributeEvent" then
    _on_event response_payload
  else if String.eqb response_type "oadrUpdateReport" then
    c <- get_self ;;
    handler <- getattr "_on_report" (_on_report c) ;;
    emit (Called "_on_report") ;;
    call (handler response_payload)
  else
    logger WARNING "No handler implemented for incoming message".

(** [_poll] calls itself after each handled reply. [depth] is the number of
    nested calls the interpreter still allows; beyond it Python raises
    [RecursionError], here [Exception "RecursionError"]. *)
Fixpoint _poll (depth : nat) : M unit :=
  match depth with
  | O => raise (Exception "RecursionError")
  | S depth' =>
      logger DEBUG "Now polling for new messages" ;;
      '(response_type, response_payload) <- poll ;;
      match response_type with
      | None => ret tt
      | Some response_type =>
          if String.eqb response_type "oadrResponse" then
            logger DEBUG "No events or reports available" ;;
            ret tt
          else
            dispatch response_type response_payload ;;
            (* Immediately poll again, because there might be more messages *)
            _poll depth'
      end
  end.

(** *** Reporting *)

(** The body of the loop of [create_report] over the requested specifier
    payloads. The loop's variables are [granularity] (which the body
    overwrites when the VTN gave none) and [requested_r_ids]; [continue]
    leaves them as they are.

    When the request has a [report_interval], the body binds
    [report_interval] to [report_request['report_specifier']] and looks up
    ['dtstart'] in it: the specifier has no such key, so [KeyError] is
    raised. *)
Definition create_report_body (report : Report) (report_request : ReportRequestMsg)
  (locals : option timedelta * list string) (specifier_payload : SpecifierPayload)
  : M (option timedelta * list string) :=
  let '(granularity, requested_r_ids) := locals in
  let rid := sp_r_id specifier_payload in
  let requested_reading_type := sp_reading_type specifier_payload in
  (* Check if the requested r_id actually exists *)
  match find_by (report_descriptions report)
                (fun d => String.eqb (r_id d) rid) with
  | None =>
      logger ERROR "A non-existant report with r_id" ;;
      ret locals
  | Some rd =>
      (* Parse the report interval, then accept the r_id *)
      let accept (granularity : option timedelta) :=
        match rs_report_interval (rq_report_specifier report_request) with
        | Some _ => raise (KeyError "dtstart")
        | None =>
            report_start <- datetime_now ;;
            ret (granularity, requested_r_ids ++ [rid])
        end in
      let check_granularity :=
        match granularity with
        | Some g =>
            if negb ((min_period (sampling_rate rd) <=? g)
                     && (g <=? max_period (sampling_rate rd))) then
              logger ERROR "An invalid sampling rate was requested" ;;
              ret locals
            else accept granularity
        | None =>
            (* If no granularity is specified, set it to the lowest sampling rate. *)
            accept (Some (max_period (sampling_rate rd)))
        end in
      (* Check if the requested measurement exists and if the correct unit is requested *)
      match sp_measurement specifier_payload with
      | Some requested =>
          if negb (String.eqb (ms_item_description requested)
                              (item_description (measurement rd))) then
            logger ERROR "A non-matching measurement description" ;;
            ret locals
          else if negb (opt_str_eqb (Some (ms_item_units requested))
                                    (item_units (measurement rd))) then
            logger ERROR "A non-matching measurement unit" ;;
            ret locals
          else check_granularity
      | None => check_granularity
      end
  end.

(** [create_report] returns [False] when the report does not exist and
    [None] otherwise. *)
Definition create_report (report_request : ReportRequestMsg) : M (option bool) :=
  let request_id := rq_report_request_id report_request in
  let report_specifier := rq_report_specifier report_request in
  let specifier_id := rs_report_specifier_id report_specifier in
  let report_back_duration := rs_report_back_duration report_specifier in
  let granularity := rs_granularity report_specifier in
  c <- get_self ;;
  (* Check if this report actually exists *)
  match find_by (reports c)
                (fun r => String.eqb (report_specifier_id r) specifier_id) with
  | None =>
      logger ERROR "A non-existant report with report_specifier_id" ;;
      ret (Some false)
  | Some report =>
      (* Check and collect the requested r_ids for this report *)
      '(granularity, requested_r_ids) <-
         for_each (rs_specifier_payloads report_specifier)
                  (create_report_body report report_request)
                  (granularity, []) ;;
      cron <- call (cron_config granularity) ;;
      job <- add_job {| func := JobUpdateReport request_id;
                        trigger := cron |} ;;
      c <- get_self ;;
      put_self (set_report_requests
                  (report_requests c ++
                     [{| rr_report_request_id := request_id;
                         rr_report_specifier_id := specifier_id;
                         rr_r_ids := requested_r_ids;
                         rr_granularity := granularity;
                         rr_job := job |}]) c) ;;
      ret None
  end.

Definition register_reports (to_register : list Report)
  : M (option string * Payload) :=
  request_id <- generate_id ;;
  c <- get_self ;;
  message_request_id <- generate_id ;;
  let message := oadrRegisterReport message_request_id (ven_id c) to_register in
  '(response_type, response_payload) <- _perform_request "EiReport" message ;;
  (* Handle the subscriptions that the VTN is interested in. *)
  match p_report_requests response_payload with
  | Some requests =>
      for_each requests (fun _ report_request =>
                           create_report report_request ;; ret tt) tt
  | None => ret tt
  end ;;
  ret (response_type, response_payload).

(** The body of the loop of [update_report] over the accepted r_ids.
    [report] is the result of the lookup by [report_specifier_id], [None]
    when there is no such report. *)
Definition update_report_body (report : option Report)
  (collected : list ReportInterval) (rid : string) : M (list ReportInterval) :=
  report <- getattr "report_descriptions" report ;;
  specific_report <-
    getattr "callable"
      (find_by (report_descriptions report)
               (fun d => String.eqb (r_id d) rid)) ;;
  t <- datetime_now ;;
  result <- call (callable specific_report t) ;;
  let payload := {| rp_r_id := rid; rp_value := result |} in
  t <- datetime_now ;;
  ret (collected ++ [{| dtstart := t; report_payload := payload |}]).

Definition update_report (request_id : string) : M unit :=
  c <- get_self ;;
  match find_by (report_requests c)
                (fun q => String.eqb (rr_report_request_id q) request_id) with
  | None => raise (TypeError "'NoneType' object is not subscriptable")
  | Some report_request =>
      let report :=
        find_by (reports c)
                (fun r => String.eqb (report_specifier_id r)
                                     (rr_report_specifier_id report_request)) in
      collected <- for_each (rr_r_ids report_request)
                            (update_report_body report) [] ;;
      report <- getattr "report_specifier_id" report ;;
      let report :=
        {| created_date_time := None;
           report_name := report_name report;
           report_specifier_id := report_specifier_id report;
           report_descriptions := [];
           report_request_id := Some request_id;
           intervals := collected |} in
      c <- get_self ;;
      put_self (set_pending_reports (pending_reports c ++ [report]) c)
  end.

(** [cancel_report]: the body is the docstring "Cancel this report." and
    nothing else. *)
Definition cancel_report (payload : CancelReport) : M unit := ret tt.

(** One turn of the [while True] loop of [_report_queue_worker], for a
    queue that holds [report] at its head. [response_payload] is the loop's
    local variable: unbound ([None]) before the first exchange, and left as
    it was when the exchange raises ([except Exception: breakpoint()]). *)
Definition _report_queue_worker_turn (response_payload : option Payload)
  (report : Report) (rest : list Report) : M (option Payload) :=
  modify_self (set_pending_reports rest) ;;
  let service := "EiReport" in
  let message := oadrUpdateReport [report] in
  response_payload <-
    (fun s => match _perform_request service message s with
              | (Return (_, payload), s') => (Return (Some payload), s')
              | (Raise err, s') => (breakpoint ;; ret response_payload) s'
              end) ;;
  payload <- match response_payload with
             | Some payload => ret payload
             | None => raise (UnboundLocalError "response_payload")
             end ;;
  match p_cancel_report payload with
  | Some cancel => cancel_report cancel
  | None => ret tt
  end ;;
  ret response_payload.

(** The worker, until the queue is empty (where [pending_reports.get()]
    waits) or [turns] reports have been sent. *)
Fixpoint _report_queue_worker (turns : nat) (response_payload : option Payload)
  : M (option Payload) :=
  match turns with
  | O => ret response_payload
  | S turns' =>
      c <- get_self ;;
      match pending_reports c with
      | [] => ret response_payload
      | report :: rest =>
          response_payload <- _report_queue_worker_turn response_payload report rest ;;
          _report_queue_worker turns' response_payload
      end
  end.

(** *** Declaring reports *)

(** [report.report_descriptions.append(d)] on the first report that
    satisfies [is_report]. *)
Fixpoint append_description (is_report : Report -> bool) (d : ReportDescription)
  (l : list Report) : list Report :=
  match l with
  | [] => []
  | r :: rest =>
      if is_report r then
        {| created_date_time := created_date_time r;
           report_name := report_name r;
           report_specifier_id := report_specifier_id r;
           report_descriptions := report_descriptions r ++ [d];
           report_request_id := report_request_id r;
           intervals := intervals r |} :: rest
      else r :: append_description is_report d rest
  end.

(** The [item_base] of [add_report]: the object given, the member of
    [enums.MEASUREMENTS] named (in any case), or a new object for a custom
    unit; [drawn] is the number of identifiers drawn so far. *)
Definition item_base (a : AddReport) : Measurement :=
  match ar_measurement a with
  | MeasurementObject _ m => m
  | MeasurementName name =>
      match MEASUREMENTS (upper name) with
      | Some m => m
      | None => {| item_name := "customUnit"; item_description := name;
                   item_units := ar_unit a; acceptable_units := [];
                   si_scale_code := None |}
      end
  end.

Definition item_base_id (a : AddReport) (drawn : nat) : object_id :=
  match ar_measurement a with
  | MeasurementObject o _ => o
  | MeasurementName name =>
      match MEASUREMENTS (upper name) with
      | Some _ => EnumMember (upper name)
      | None => Created drawn
      end
  end.

(** [obj.si_scale_code = scale], for the object [o]: the write shows in
    every description of the client that holds [o]. *)
Definition with_si_scale_code (scale : string) (m : Measurement) : Measurement :=
  {| item_name := item_name m;
     item_description := item_description m;
     item_units := item_units m;
     acceptable_units := acceptable_units m;
     si_scale_code := Some scale |}.

Definition rescale (o : object_id) (scale : string) (d : ReportDescription)
  : ReportDescription :=
  if object_eqb (measurement_id d) o then
    {| r_id := r_id d;
       reading_type := reading_type d;
       report_data_source := report_data_source d;
       report_subject := report_subject d;
       report_type := report_type d;
       sampling_rate := sampling_rate d;
       measurement := with_si_scale_code scale (measurement d);
       measurement_id := measurement_id d;
       market_context := market_context d;
       callable := callable d |}
  else d.

Definition rescale_report (o : object_id) (scale : string) (r : Report) : Report :=
  {| created_date_time := created_date_time r;
     report_name := report_name r;
     report_specifier_id := report_specifier_id r;
     report_descriptions := map (rescale o scale) (report_descriptions r);
     report_request_id := report_request_id r;
     intervals := intervals r |}.

Definition write_si_scale_code (o : object_id) (scale : string) (c : OpenADRClient)
  : OpenADRClient :=
  set_reports (map (rescale_report o scale) (reports c)) c.

(** [add_report]. The keyword arguments [r_id], [data_source], [power_ac],
    [power_hertz], [power_voltage] and [market_context] are never read by
    the body and are left out of [AddReport].

    The report that receives the description is the one [find_by] gave or,
    when there was none, the new one just appended. In both cases it is the
    first report of [self.reports] with the name (and the specifier id, when
    one was given) looked for, which is how the mutation finds it here.

    For a unit that conflicts with the measurement's units, the f-string of
    the warning subscripts [item_base] ([item_base['item_units']]), an
    object that the lines around it read by attribute
    ([item_base.item_units], [item_base.acceptable_units],
    [item_base.si_scale_code]): the subscript raises [TypeError] before
    anything is logged, and before the scale is written.

    [item_base.si_scale_code = scale] writes into the object that is then
    stored in the description: the object of the caller or the member of
    the table, not a copy. Every description that already holds this object
    sees the new scale. *)
Definition add_report (a : AddReport) : M unit :=
  (* Verify input *)
  if negb (str_in (ar_report_name a) REPORT_NAME_values)
     && negb (String.prefix "x-" (ar_report_name a)) then
    raise (ValueError "not a valid report_name")
  else if negb (str_in (ar_reading_type a) READING_TYPE_values)
          && negb (String.prefix "x-" (ar_reading_type a)) then
    raise (ValueError "not a valid reading_type")
  else if negb (str_in (ar_report_type a) REPORT_TYPE_values)
          && negb (String.prefix "x-" (ar_report_type a)) then
    raise (ValueError "not a valid report_type")
  else if negb (str_in (ar_scale a) SI_SCALE_CODE_values) then
    raise (ValueError "not a valid scale")
  else
    let rate :=
      match ar_sampling_rate a with
      | NoSamplingRate =>
          {| min_period := td_seconds 10; max_period := td_hours 24;
             on_change := false |}
      | SamplingPeriod td =>
          {| min_period := td; max_period := td; on_change := false |}
      | SamplingRateObject sr => sr
      end in
    (* Determine the correct item name, item description and unit *)
    w <- get_world ;;
    let item_id := item_base_id a (ids w) in
    (* Check if unit is compatible *)
    match ar_unit a with
    | Some unit =>
        if negb (opt_str_eqb (Some unit) (item_units (item_base a)))
           && negb (str_in unit (acceptable_units (item_base a))) then
          raise (TypeError "'Measurement' object is not subscriptable")
        else ret tt
    | None => ret tt
    end ;;
    modify_self (write_si_scale_code item_id (ar_scale a)) ;;
    (* Get or create the relevant Report *)
    let is_report (r : Report) :=
      if truthy (ar_report_specifier_id a) then
        String.eqb (report_name r) (ar_report_name a)
        && opt_str_eqb (Some (report_specifier_id r)) (ar_report_specifier_id a)
      else String.eqb (report_name r) (ar_report_name a) in
    c <- get_self ;;
    match find_by (reports c) is_report with
    | Some _ => ret tt
    | None =>
        specifier_id <- match ar_report_specifier_id a with
                        | Some s => if String.eqb s "" then generate_id else ret s
                        | None => generate_id
                        end ;;
        t <- datetime_now ;;
        modify_self
          (fun c => set_reports
                      (reports c ++
                         [{| created_date_time := Some t;
                             report_name := ar_report_name a;
                             report_specifier_id := specifier_id;
                             report_descriptions := [];
                             report_request_id := None;
                             intervals := [] |}]) c)
    end ;;
    (* Add the new report description to the report *)
    let target := {| resource_id := ar_resource_id a |} in
    rid <- generate_id ;;
    let report_description :=
      {| r_id := rid;
         reading_type := ar_reading_type a;
         report_data_source := target;
         report_subject := target;
         report_type := ar_report_type a;
         sampling_rate := rate;
         measurement := with_si_scale_code (ar_scale a) (item_base a);
         measurement_id := item_id;
         market_context := "Market01";
         callable := ar_callable a |} in
    modify_self
      (fun c => set_reports
                  (append_description is_report report_description (reports c)) c).

(** *** Full-auto mode *)

(** [run]. [depth] bounds the nesting of [_poll]. The comparisons of
    [total_seconds()] with 60, 3600 and 86400 and the truncations
    [int(total_seconds() / 60)] and [int(total_seconds() / 3600)] are exact
    on microseconds. The worker task created for the report queue runs
    beside [run]; here only its creation is recorded. *)
Definition run (depth : nat) : M unit :=
  create_party_registration default_registration ;;
  c <- get_self ;;
  if negb (truthy (ven_id c)) then
    logger ERROR "No VEN ID received from the VTN, aborting."
  else
    match reports c with
    | [] => ret tt
    | _ :: _ =>
        register_reports (reports c) ;;
        modify_self (set_report_queue_task true)
    end ;;
    _poll depth ;;
    (* Set up automatic polling *)
    c <- get_self ;;
    f <- getattr "total_seconds" (poll_frequency c) ;;
    let schedule (cron_second cron_minute cron_hour : cron_field) :=
      add_job {| func := JobPoll;
                 trigger := {| second := cron_second; minute := cron_minute;
                               hour := cron_hour |} |} ;;
      scheduler_start in
    if f <? td_seconds 60 then
      seconds_offset <- randint 0 (td_seconds_attr f) ;;
      schedule (CronStep (Some seconds_offset) (td_seconds_attr f)) CronAny CronAny
    else if f <? td_seconds 3600 then
      cron_second <- randint 0 59 ;;
      schedule (CronAt cron_second) (CronStep None (Z.quot f (td_seconds 60))) CronAny
    else if f <? td_seconds 86400 then
      cron_second <- randint 0 59 ;;
      schedule (CronAt cron_second) (CronAt 0) (CronStep None (Z.quot f (td_seconds 3600)))
    else if td_seconds 86400 <? f then
      logger WARNING "Polling with intervals of more than 24 hours is not supported. Will use 24 hours as the logging interval." ;;
      cron_second <- randint 0 59 ;;
      ret tt
    else
      raise (UnboundLocalError "cron_second").

End Client.

(** ** service/event_service.py: the EiEvent service of a VTN *)

Module EventService.

(** What an application handler may hand back. *)
Inductive value : Type :=
| PyNone
| PyDict (e : Event)
| PyEvent (e : Event)
| PyList (l : list Event)
| PyOther.

(** The names bound at the top level of the module: the imports
    ([service], [handler], [VTNService], [datetime], [timedelta],
    [timezone], [iscoroutine], [objects]) and the class. *)
Definition module_globals : list string :=
  ["service"; "handler"; "VTNService"; "datetime"; "timedelta"; "timezone";
   "iscoroutine"; "objects"; "EventService"].

(** A service method gives a result or an exception, and the records it
    logged. *)
Definition Svc (A : Type) : Type := outcome A * list event.

(** [logger.warning(msg)] inside the module: the global name [logger] is
    looked up first. *)
Definition logger_warning (msg : string) : Svc unit :=
  if str_in "logger" module_globals then (Return tt, [Log WARNING msg])
  else (Raise (NameError "logger"), []).

(** The service object: the handlers the application has set on the
    instance under the names [on_request_event] and [on_created_event]
    ([None]: not set). *)
Record t : Type := {
  registered_on_request_event : option (string -> outcome value);
  registered_on_created_event : option (Payload -> outcome value) }.

(** The placeholder of the class for [on_request_event]. *)
Definition on_request_event (ven : string) : Svc value :=
  match logger_warning "You should implement and register your own on_request_event handler" with
  | (Return _, logs) => (Return PyNone, logs)
  | (Raise e, logs) => (Raise e, logs)
  end.

(** The placeholder the class defines under the name [on_create_event]
    (its docstring: "Placeholder for the on_created_event handler"). *)
Definition on_create_event (payload : Payload) : Svc value :=
  match logger_warning "You should implement and register you own on_created_event handler" with
  | (Return _, logs) => (Return PyNone, logs)
  | (Raise e, logs) => (Raise e, logs)
  end.

(** [self.on_request_event]: the instance attribute when set, the class's
    method otherwise. *)
Definition lookup_on_request_event (svc : t) : string -> Svc value :=
  match registered_on_request_event svc with
  | Some h => fun ven => (h ven, [])
  | None => on_request_event
  end.

(** [self.on_created_event]: the instance attribute when set; the class
    has no attribute of that name. *)
Definition lookup_on_created_event (svc : t) : outcome (Payload -> Svc value) :=
  match registered_on_created_event svc with
  | Some h => Return (fun payload => (h payload, []))
  | None => Raise (AttributeError "on_created_event")
  end.

(** Handler for [oadrRequestEvent]: the reply's type and its [events]. *)
Definition request_event (svc : t) (payload : Payload) : Svc (string * list Event) :=
  match p_ven_id payload with
  | None => (Raise (KeyError "ven_id"), [])
  | Some ven =>
      match lookup_on_request_event svc ven with
      | (Raise e, logs) => (Raise e, logs)
      | (Return result, logs) =>
          match result with
          | PyNone => (Return ("oadrDistributeEvent", []), logs)
          | PyDict e => (Return ("oadrDistributeEvent", [e]), logs)
          | PyEvent e => (Return ("oadrDistributeEvent", [e]), logs)
          | PyList l => (Return ("oadrDistributeEvent", l), logs)
          | PyOther =>
              (Raise (TypeError "Event handler should return None, a dict or a list"),
               logs)
          end
      end
  end.

(** Handler for [oadrCreatedEvent]. *)
Definition created_event (svc : t) (payload : Payload) : Svc value :=
  match lookup_on_created_event svc with
  | Raise e => (Raise e, [])
  | Return h => h payload
  end.

End EventService.

(** ** Observations on traces *)

Definition is_post (service : string) (e : event) : bool :=
  match e with
  | Post sv _ => String.eqb sv service
  | _ => false
  end.

Definition is_called (handler : string) (e : event) : bool :=
  match e with
  | Called h => String.eqb h handler
  | _ => false
  end.

Definition count (p : event -> bool) (tr : list event) : nat :=
  List.length (filter p tr).

(** The number of polls sent, the number of times [on_event] was called. *)
Definition polls (st : State) : nat := count (is_post "OadrPoll") (trace (world st)).
Definition on_event_calls (st : State) : nat :=
  count (is_called "on_event") (trace (world st)).

(** ** Vocabulary of the statements *)

Section Vocabulary.

Context {collaborators : Collaborators}.

(** Whether the exchange with this outcome makes [_perform_request] return
    (a reply or the empty result) rather than raise. *)
Definition exchange_returns (o : http_outcome) : bool :=
  match o with
  | Responded status content =>
      negb (status =? 200)
      || match parse_message content with
         | Return _ => true
         | Raise _ => false
         end
  | ClientConnectorError _ => true
  | OtherError _ => false
  end.

Definition next_exchange_returns (script : list http_outcome) : bool :=
  match script with
  | [] => true
  | o :: _ => exchange_returns o
  end.

(** No reply: the server cannot be connected to, or answers with a status
    other than 200. *)
Definition unreachable (script : list http_outcome) : bool :=
  match script with
  | [] => true
  | ClientConnectorError _ :: _ => true
  | Responded status _ :: _ => negb (status =? 200)
  | OtherError _ :: _ => false
  end.

(** The state in which [_poll] handles a reply: the one the poll that
    brought the reply leaves. *)
Definition polled (st : State) : State :=
  snd ((logger DEBUG "Now polling for new messages" ;; poll) st).

(** A scripted reply (the body the VTN sends, with the message type and the
    payload it stands for) that [_poll] has to handle: the body parses to the
    message, and the message is not the no-content reply. *)
Definition to_handle (reply : string * (string * Payload)) : Prop :=
  parse_message (fst reply) = Return (snd reply)
  /\ fst (snd reply) <> "oadrResponse".

(** The handling of each of the replies returns, each one in the state in
    which [_poll] handles it. *)
Inductive handled : list (string * Payload) -> State -> Prop :=
| handled_nil st : handled [] st
| handled_cons response_type response_payload replies st st' :
    dispatch response_type response_payload (polled st) = (Return tt, st') ->
    handled replies st' ->
    handled ((response_type, response_payload) :: replies) st.

End Vocabulary.

(** The poll frequency a successful registration stores: the one offered,
    10 seconds when the reply has none. *)
Definition offered_poll_frequency (payload : Payload) : option timedelta :=
  Some match p_requested_oadr_poll_freq payload with
       | Some freq => freq
       | None => td_seconds 10
       end.

(** A computation keeps a relation between the state before and after. *)
Definition keeps {A} (R : State -> State -> Prop) (m : M A) : Prop :=
  forall st, R st (snd (m st)).

(** Nothing was polled: the script of the poll service and the number of
    polls sent are as before. *)
Definition quiet (st st' : State) : Prop :=
  network (world st') "OadrPoll" = network (world st) "OadrPoll"
  /\ polls st' = polls st.

(** The measurement the VTN asks for, if any, is the descriptor's. *)
Definition measurement_matches (sp : SpecifierPayload) (rd : ReportDescription) : bool :=
  match sp_measurement sp with
  | None => true
  | Some requested =>
      String.eqb (ms_item_description requested) (item_description (measurement rd))
      && opt_str_eqb (Some (ms_item_units requested)) (item_units (measurement rd))
  end.

(** The descriptor of a requested r_id. *)
Definition descriptor (report : Report) (sp : SpecifierPayload) : option ReportDescription :=
  find_by (report_descriptions report) (fun d => String.eqb (r_id d) (sp_r_id sp)).

Definition in_range (g : timedelta) (rd : ReportDescription) : bool :=
  (min_period (sampling_rate rd) <=? g) && (g <=? max_period (sampling_rate rd)).

(** The descriptor exists and the requested measurement, if any, matches. *)
Definition candidate (report : Report) (sp : SpecifierPayload) : option ReportDescription :=
  match descriptor report sp with
  | Some rd => if measurement_matches sp rd then Some rd else None
  | None => None
  end.

Definition accepts (report : Report) (g : timedelta) (sp : SpecifierPayload) : bool :=
  match candidate report sp with
  | Some rd => in_range g rd
  | None => false
  end.

(** What one tick obtains for an r_id at time [t]: the interval, or the
    exception that leaves [update_report]. *)
Definition produce (report : Report) (t : Z) (rid : string) : outcome ReportInterval :=
  match find_by (report_descriptions report) (fun d => String.eqb (r_id d) rid) with
  | None => Raise (AttributeError "callable")
  | Some rd =>
      match callable rd t with
      | Return v => Return {| dtstart := t;
                              report_payload := {| rp_r_id := rid; rp_value := v |} |}
      | Raise e => Raise e
      end
  end.

Definition produces (report : Report) (t : Z) (rid : string) : bool :=
  match produce report t rid with
  | Return _ => true
  | Raise _ => false
  end.

Definition interval_of (report : Report) (t : Z) (rid : string) : list ReportInterval :=
  match produce report t rid with
  | Return i => [i]
  | Raise _ => []
  end.

(** The sampling rate [add_report] stores for its [sampling_rate] argument. *)
Definition stored_rate (arg : sampling_rate_arg) : SamplingRate :=
  match arg with
  | NoSamplingRate =>
      {| min_period := td_seconds 10; max_period := td_hours 24; on_change := false |}
  | SamplingPeriod td => {| min_period := td; max_period := td; on_change := false |}
  | SamplingRateObject sr => sr
  end.

(** The checks of [add_report] on its vocabulary arguments pass. *)
Definition valid_vocabulary {collaborators : Collaborators} (a : AddReport) : bool :=
  (str_in (ar_report_name a) REPORT_NAME_values || String.prefix "x-" (ar_report_name a))
  && (str_in (ar_reading_type a) READING_TYPE_values
      || String.prefix "x-" (ar_reading_type a))
  && (str_in (ar_report_type a) REPORT_TYPE_values
      || String.prefix "x-" (ar_report_type a))
  && str_in (ar_scale a) SI_SCALE_CODE_values.

(** A unit is given that the measurement neither has nor accepts. *)
Definition unit_conflict {collaborators : Collaborators} (a : AddReport) : bool :=
  match ar_unit a with
  | Some unit =>
      negb (opt_str_eqb (Some unit) (item_units (item_base a)))
      && negb (str_in unit (acceptable_units (item_base a)))
  | None => false
  end.

(** ** A scenario: one VTN, one VEN

    A concrete implementation of the collaborators and concrete states, on
    which the statements below are exercised. *)

Module Scenario.

Definition voltage : Measurement :=
  {| item_name := "voltage"; item_description := "Voltage";
     item_units := Some "V"; acceptable_units := [];
     si_scale_code := Some "none" |}.

Definition ok : Response :=
  {| response_code := 200; response_description := Some "OK" |}.
Definition forbidden : Response :=
  {| response_code := 403; response_description := Some "Forbidden" |}.

Definition with_response (r : Response) : Payload :=
  {| p_response := Some r; p_ven_id := None; p_requested_oadr_poll_freq := None;
     p_report_requests := None; p_request_id := None; p_events := None;
     p_cancel_report := None |}.

(** [oadrCreatedPartyRegistration] offering the poll frequency [f]. *)
Definition registered (f : option timedelta) : Payload :=
  {| p_response := Some ok; p_ven_id := Some "ven123";
     p_requested_oadr_poll_freq := f; p_report_requests := None;
     p_request_id := None; p_events := None; p_cancel_report := None |}.

Definition distribute_event : Payload :=
  {| p_response := Some ok; p_ven_id := None; p_requested_oadr_poll_freq := None;
     p_report_requests := None; p_request_id := Some "request1";
     p_events := Some [{| event_descriptor := {| event_id := "event1" |} |}];
     p_cancel_report := None |}.

Definition updated_report_cancel : Payload :=
  {| p_response := Some ok; p_ven_id := None; p_requested_oadr_poll_freq := None;
     p_report_requests := None; p_request_id := None; p_events := None;
     p_cancel_report := Some {| cr_report_request_ids := ["request1"];
                                cr_report_to_follow := false |} |}.

(** The bodies the scripted VTN sends, by name. *)
Definition parse (f : option timedelta) (content : string)
  : outcome (string * Payload) :=
  if String.eqb content "registered" then
    Return ("oadrCreatedPartyRegistration", registered f)
  else if String.eqb content "refused" then
    Return ("oadrCreatedPartyRegistration", with_response forbidden)
  else if String.eqb content "event" then
    Return ("oadrDistributeEvent", distribute_event)
  else if String.eqb content "nothing" then
    Return ("oadrResponse", with_response ok)
  else if String.eqb content "reregister" then
    Return ("oadrRequestReregistration", with_response ok)
  else if String.eqb content "queried" then
    Return ("oadrCreatedOpt", with_response ok)
  else if String.eqb content "cancel" then
    Return ("oadrUpdatedReport", updated_report_cancel)
  else if String.eqb content "update" then
    Return ("oadrUpdateReport", with_response ok)
  else Raise (Exception "The message could not be parsed or validated").

(** A [cron_config] for the scenario: the bands of the poll job, and a
    [TypeError] on [None], which cannot be compared with a [timedelta]. *)
Definition cron (granularity : option timedelta) : outcome CronTrigger :=
  match granularity with
  | None => Raise (TypeError "'<' not supported between 'NoneType' and 'timedelta'")
  | Some g =>
      if g <? td_seconds 60 then
        Return {| second := CronStep None (td_seconds_attr g);
                  minute := CronAny; hour := CronAny |}
      else if g <? td_seconds 3600 then
        Return {| second := CronAt 0;
                  minute := CronStep None (Z.quot g (td_seconds 60));
                  hour := CronAny |}
      else if g <? td_seconds 86400 then
        Return {| second := CronAt 0; minute := CronAt 0;
                  hour := CronStep None (Z.quot g (td_seconds 3600)) |}
      else Return {| second := CronAt 0; minute := CronAt 0; hour := CronAt 0 |}
  end.

(** A scheduler that takes its fields the way cron does: a value within the
    range of the field, a step of at least 1 that the rest of the range
    holds. *)
Definition field_ok (lo hi : Z) (f : cron_field) : bool :=
  match f with
  | CronAny => true
  | CronAt n => (lo <=? n) && (n <=? hi)
  | CronStep None step => (1 <=? step) && (step <=? hi - lo)
  | CronStep (Some n) step =>
      (lo <=? n) && (n <=? hi) && (1 <=? step) && (step <=? hi - n)
  end.

Definition cron_trigger (t : CronTrigger) : outcome unit :=
  if field_ok 0 59 (second t) && field_ok 0 59 (minute t) && field_ok 0 23 (hour t)
  then Return tt
  else Raise (ValueError "Error validating expression").

Definition vtn (f : option timedelta) : Collaborators :=
  {| parse_message := parse f;
     decodes_utf8 := fun _ => true;
     cron_config := cron;
     create_trigger := cron_trigger;
     generate_id_at := fun n => String (ascii_of_nat (65 + n)) "";
     randint_at := fun _ lo _ => lo;
     REPORT_NAME_values := ["TELEMETRY_USAGE"; "TELEMETRY_STATUS"];
     READING_TYPE_values := ["Direct Read"];
     REPORT_TYPE_values := ["reading"; "usage"];
     SI_SCALE_CODE_values := ["none"; "k"; "M"];
     MEASUREMENTS := fun name => if String.eqb name "VOLTAGE" then Some voltage
                                 else None |}.

Definition scripts (register poll event report : list http_outcome)
  : string -> list http_outcome :=
  fun service =>
    if String.eqb service "EiRegisterParty" then register
    else if String.eqb service "OadrPoll" then poll
    else if String.eqb service "EiEvent" then event
    else if String.eqb service "EiReport" then report
    else [].

Definition start (c : OpenADRClient) (net : string -> list http_outcome) : State :=
  {| self := c;
     world := {| trace := []; network := net; ids := 0; rolls := 0;
                 now := 1600000000 |} |}.

Definition ven : OpenADRClient := new_client "ven" "http://vtn" false.

(** The application sets [on_event]: opt in to every event. *)
Definition ven_with_handler : OpenADRClient :=
  {| ven_name := "ven"; vtn_url := "http://vtn"; ven_id := Some "ven123";
     poll_frequency := Some (td_seconds 10); debug := false; reports := [];
     report_requests := []; pending_reports := [];
     scheduler := {| jobs := []; running := false |};
     report_queue_task := false;
     on_event := Some (fun _ => Return "optIn"); _on_report := None |}.

(** A report "S1" with two data points: R1 (1 s to 60 s, its producer
    fails) and R2 (1 s to 60 s, its producer gives 230). *)
Definition describe (rid : string) (lo hi : timedelta) (producer : Producer)
  : ReportDescription :=
  {| r_id := rid; reading_type := "Direct Read";
     report_data_source := {| resource_id := "meter" |};
     report_subject := {| resource_id := "meter" |};
     report_type := "reading";
     sampling_rate := {| min_period := lo; max_period := hi; on_change := false |};
     measurement := voltage; measurement_id := EnumMember "VOLTAGE";
     market_context := "Market01";
     callable := producer |}.

Definition report_S1 : Report :=
  {| created_date_time := Some 1600000000; report_name := "TELEMETRY_USAGE";
     report_specifier_id := "S1";
     report_descriptions :=
       [describe "R1" (td_seconds 1) (td_seconds 60)
                 (fun _ => Raise (Exception "sensor not available"));
        describe "R2" (td_seconds 1) (td_seconds 60) (fun _ => Return 230)];
     report_request_id := None; intervals := [] |}.

Definition ven_reporting (requests : list ReportRequest) (queue : list Report)
  (sched : list Job) : OpenADRClient :=
  {| ven_name := "ven"; vtn_url := "http://vtn"; ven_id := Some "ven123";
     poll_frequency := Some (td_seconds 10); debug := false;
     reports := [report_S1]; report_requests := requests;
     pending_reports := queue;
     scheduler := {| jobs := sched; running := true |};
     report_queue_task := true; on_event := None; _on_report := None |}.

(** The VTN asks for [rids] of report "S1" at granularity [g]. *)
Definition request (g : option timedelta) (payloads : list SpecifierPayload)
  : ReportRequestMsg :=
  {| rq_report_request_id := "request1";
     rq_report_specifier :=
       {| rs_report_specifier_id := "S1"; rs_report_back_duration := None;
          rs_granularity := g; rs_report_interval := None;
          rs_specifier_payloads := payloads |} |}.

Definition plain (rid : string) : SpecifierPayload :=
  {| sp_r_id := rid; sp_reading_type := "Direct Read"; sp_measurement := None |}.

(** The VTN asks for R1 as a current in ampere; the VEN offers a voltage. *)
Definition as_current (rid : string) : SpecifierPayload :=
  {| sp_r_id := rid; sp_reading_type := "Direct Read";
     sp_measurement := Some {| ms_item_description := "Current";
                               ms_item_units := "A" |} |}.

Definition job_request1 (g : timedelta) : Job :=
  {| func := JobUpdateReport "request1";
     trigger := match cron (Some g) with
                | Return c => c
                | Raise _ => {| second := CronAny; minute := CronAny; hour := CronAny |}
                end |}.

(** The subscription to the r_ids [rids] every 10 s, as negotiated. *)
Definition subscription (rids : list string) : ReportRequest :=
  {| rr_report_request_id := "request1"; rr_report_specifier_id := "S1";
     rr_r_ids := rids; rr_granularity := Some (td_seconds 10);
     rr_job := job_request1 (td_seconds 10) |}.

Definition pending : Report :=
  {| created_date_time := None; report_name := "TELEMETRY_USAGE";
     report_specifier_id := "S1"; report_descriptions := [];
     report_request_id := Some "request1"; intervals := [] |}.

(** [add_report] with an explicit sampling rate. *)
Definition declare (rate : sampling_rate_arg) : AddReport :=
  {| ar_callable := fun _ => Return 230; ar_resource_id := "meter";
     ar_measurement := MeasurementName "voltage";
     ar_report_specifier_id := Some "S1";
     ar_report_name := "TELEMETRY_USAGE"; ar_reading_type := "Direct Read";
     ar_report_type := "reading"; ar_sampling_rate := rate;
     ar_scale := "none"; ar_unit := None |}.

(** The states the statements are exercised on. *)

(** A registered VEN about to poll a VTN that answers [script]; the VTN
    acknowledges a created event with an [oadrResponse]. *)
Definition polling (script : list http_outcome) : State :=
  start ven_with_handler (scripts [] script [Responded 200 "nothing"] []).

(** A new VEN and a VTN that registers it, then refuses a second
    registration. *)
Definition registering : State :=
  start ven (scripts [Responded 200 "registered"; Responded 200 "refused"] [] [] []).

(** A new VEN and a VTN that registers it and has nothing to deliver. *)
Definition starting : State :=
  start ven (scripts [Responded 200 "registered"] [Responded 200 "nothing"] [] []).

(** A VEN that declared report "S1", before any subscription. *)
Definition negotiating : State :=
  start (ven_reporting [] [] []) (scripts [] [] [] []).

(** The same VEN once subscribed to [rids], when the cadence job fires. *)
Definition ticking (rids : list string) : State :=
  start (ven_reporting [subscription rids] [] [job_request1 (td_seconds 10)])
        (scripts [] [] [] []).

(** The same VEN, subscribed to R1 and R2, with one report in the queue; the
    VTN acknowledges it and asks for the cancellation of the report. *)
Definition delivering : State :=
  start (ven_reporting [subscription ["R1"; "R2"]] [pending]
                       [job_request1 (td_seconds 10)])
        (scripts [] [] [] [Responded 200 "cancel"]).

(** A new VEN that declares its reports. *)
Definition declaring : State := start ven (scripts [] [] [] []).

(** A sampling rate whose [min_period] is above its [max_period]. *)
Definition inverted_rate : SamplingRate :=
  {| min_period := td_seconds 60; max_period := td_seconds 1; on_change := false |}.

Definition service : EventService.t :=
  {| EventService.registered_on_request_event := None;
     EventService.registered_on_created_event := None |}.

Definition service_with_handlers : EventService.t :=
  {| EventService.registered_on_request_event :=
       Some (fun _ => Return EventService.PyNone);
     EventService.registered_on_created_event :=
       Some (fun _ => Return EventService.PyNone) |}.

End Scenario.

(** ** Vocabulary of the further statements *)

(** The messages posted to a service, oldest first. *)
Fixpoint posted (service : string) (tr : list event) : list Message :=
  match tr with
  | [] => []
  | Post sv message :: rest =>
      if String.eqb sv service then message :: posted service rest
      else posted service rest
  | _ :: rest => posted service rest
  end.

Definition sent (service : string) (st : State) : list Message :=
  posted service (trace (world st)).

(** The exception [_on_event] ends with before it acknowledges anything: the
    one the handler raises, or the one a missing [request_id], a missing
    [events] or an empty list of events leads to. *)
Definition event_failure (handler : Payload -> outcome string) (message : Payload)
  : option exn :=
  match handler message with
  | Raise e => Some e
  | Return _ =>
      match p_request_id message with
      | None => Some (KeyError "request_id")
      | Some _ =>
          match p_events message with
          | None => Some (KeyError "events")
          | Some [] => Some IndexError
          | Some (_ :: _) => None
          end
      end
  end.

(** A message type for which [_poll] has no branch. *)
Definition no_branch (response_type : string) : bool :=
  negb (String.eqb response_type "oadrResponse"
        || String.eqb response_type "oadrRequestReregistration"
        || String.eqb response_type "oadrDistributeEvent"
        || String.eqb response_type "oadrUpdateReport").

(** All the report descriptions a client holds, report after report. *)
Definition descriptions (c : OpenADRClient) : list ReportDescription :=
  flat_map report_descriptions (reports c).

(** The name and the specifier id of each report. *)
Definition report_keys (c : OpenADRClient) : list (string * string) :=
  map (fun r => (report_name r, report_specifier_id r)) (reports c).

(** The report [add_report] looks for: by name and specifier id when a
    (non-empty) specifier id is given, by name otherwise. *)
Definition report_for (a : AddReport) (r : Report) : bool :=
  if truthy (ar_report_specifier_id a) then
    String.eqb (report_name r) (ar_report_name a)
    && opt_str_eqb (Some (report_specifier_id r)) (ar_report_specifier_id a)
  else String.eqb (report_name r) (ar_report_name a).

(** The r_ids of the intervals of a report. *)
Definition interval_r_ids (r : Report) : list string :=
  map (fun i => rp_r_id (report_payload i)) (intervals r).

Section FurtherVocabulary.

Context {collaborators : Collaborators}.

(** The subscription [create_report] builds for a request the VTN sends with
    a granularity and without a report interval, against a report the client
    holds, when the scheduler accepts the cron trigger of the granularity;
    [None] for any other request. *)
Definition subscription_for (c : OpenADRClient) (rr : ReportRequestMsg)
  : option ReportRequest :=
  let spec := rq_report_specifier rr in
  match find_by (reports c)
                (fun r => String.eqb (report_specifier_id r) (rs_report_specifier_id spec)),
        rs_granularity spec, rs_report_interval spec with
  | Some report, Some g, None =>
      match cron_config (Some g) with
      | Return cron =>
          match create_trigger cron with
          | Return _ =>
              Some {| rr_report_request_id := rq_report_request_id rr;
                      rr_report_specifier_id := rs_report_specifier_id spec;
                      rr_r_ids := map sp_r_id (filter (accepts report g)
                                                      (rs_specifier_payloads spec));
                      rr_granularity := Some g;
                      rr_job := {| func := JobUpdateReport (rq_report_request_id rr);
                                   trigger := cron |} |}
          | Raise _ => None
          end
      | Raise _ => None
      end
  | _, _, _ => None
  end.

(** The trigger [run] gives the poll job for a poll frequency [f] below one
    day, with [offset] the random number drawn. *)
Definition poll_trigger (f : timedelta) (offset : Z) : CronTrigger :=
  if f <? td_seconds 60 then
    {| second := CronStep (Some offset) (td_seconds_attr f);
       minute := CronAny; hour := CronAny |}
  else if f <? td_seconds 3600 then
    {| second := CronAt offset;
       minute := CronStep None (Z.quot f (td_seconds 60)); hour := CronAny |}
  else
    {| second := CronAt offset; minute := CronAt 0;
       hour := CronStep None (Z.quot f (td_seconds 3600)) |}.

End FurtherVocabulary.


(** The number of warnings logged. *)
Definition is_warning (e : event) : bool :=
  match e with
  | Log WARNING _ => true
  | _ => false
  end.

Definition warnings (st : State) : nat := count is_warning (trace (world st)).

(** A scripted reply of a type for which [_poll] has no branch. *)
Definition to_ignore {collaborators : Collaborators}
  (reply : string * (string * Payload)) : Prop :=
  parse_message (fst reply) = Return (snd reply)
  /\ no_branch (fst (snd reply)) = true.

(** The events the EiEvent service answers with for what the handler of the
    application gave; [None] for what it answers with a [TypeError]. *)
Definition events_of (result : EventService.value) : option (list Event) :=
  match result with
  | EventService.PyNone => Some []
  | EventService.PyDict e => Some [e]
  | EventService.PyEvent e => Some [e]
  | EventService.PyList l => Some l
  | EventService.PyOther => None
  end.

(** ** Further cases

    A VTN whose bodies are given by a table, and the states the further
    statements are exercised on. *)

Module Cases.

Definition lookup (table : list (string * (string * Payload))) (content : string)
  : outcome (string * Payload) :=
  match find (fun entry => String.eqb (fst entry) content) table with
  | Some (_, reply) => Return reply
  | None => Raise (Exception "The message could not be parsed or validated")
  end.

(** The VTN of the scenario with the bodies of [table]; [utf8] tells whether
    its bodies decode. *)
Definition vtn (utf8 : bool) (table : list (string * (string * Payload)))
  : Collaborators :=
  {| parse_message := lookup table;
     decodes_utf8 := fun _ => utf8;
     cron_config := Scenario.cron;
     create_trigger := Scenario.cron_trigger;
     generate_id_at := generate_id_at (Collaborators := Scenario.vtn None);
     randint_at := randint_at (Collaborators := Scenario.vtn None);
     REPORT_NAME_values := REPORT_NAME_values (Collaborators := Scenario.vtn None);
     READING_TYPE_values := READING_TYPE_values (Collaborators := Scenario.vtn None);
     REPORT_TYPE_values := REPORT_TYPE_values (Collaborators := Scenario.vtn None);
     SI_SCALE_CODE_values := SI_SCALE_CODE_values (Collaborators := Scenario.vtn None);
     MEASUREMENTS := MEASUREMENTS (Collaborators := Scenario.vtn None) |}.

(** Registration replies that lack a key. *)
Definition no_response : Payload := empty_payload.
Definition no_ven_id : Payload := Scenario.with_response Scenario.ok.
Definition no_description : Payload :=
  Scenario.with_response {| response_code := 403; response_description := None |}.

Definition registrar : Collaborators :=
  vtn false [("bare", ("oadrCreatedPartyRegistration", no_response));
             ("anonymous", ("oadrCreatedPartyRegistration", no_ven_id));
             ("curt", ("oadrCreatedPartyRegistration", no_description));
             ("registered", ("oadrCreatedPartyRegistration",
                             Scenario.registered None))].

(** A new VEN that registers with a VTN answering [reply]. *)
Definition registering (reply : http_outcome) : State :=
  Scenario.start Scenario.ven (Scenario.scripts [reply] [] [] []).

(** An event message with two events, and one with an empty list of
    events. *)
Definition two_events : Payload :=
  {| p_response := Some Scenario.ok; p_ven_id := None;
     p_requested_oadr_poll_freq := None; p_report_requests := None;
     p_request_id := Some "request7";
     p_events := Some [{| event_descriptor := {| event_id := "event1" |} |};
                       {| event_descriptor := {| event_id := "event2" |} |}];
     p_cancel_report := None |}.

Definition no_events : Payload :=
  {| p_response := Some Scenario.ok; p_ven_id := None;
     p_requested_oadr_poll_freq := None; p_report_requests := None;
     p_request_id := Some "request7"; p_events := Some [];
     p_cancel_report := None |}.

(** A VEN without identity, asked to register again while it polls. *)
Definition reregistering : State :=
  Scenario.start Scenario.ven
    (Scenario.scripts [Responded 200 "registered"]
                      [Responded 200 "reregister"; Responded 200 "nothing"] [] []).

(** Report requests against report "S1". *)
Definition ask (request_id : string) (g : timedelta) (interval : option Interval)
  (rids : list string) : ReportRequestMsg :=
  {| rq_report_request_id := request_id;
     rq_report_specifier :=
       {| rs_report_specifier_id := "S1"; rs_report_back_duration := None;
          rs_granularity := Some g; rs_report_interval := interval;
          rs_specifier_payloads := map Scenario.plain rids |} |}.

Definition one_hour : Interval :=
  {| iv_dtstart := 1600000000; iv_duration := td_seconds 3600 |}.

(** The subscription negotiated for such a request. *)
Definition subscribed (request_id : string) (g : timedelta) (rids : list string)
  : ReportRequest :=
  {| rr_report_request_id := request_id; rr_report_specifier_id := "S1";
     rr_r_ids := rids; rr_granularity := Some g;
     rr_job := {| func := JobUpdateReport request_id;
                  trigger := match Scenario.cron (Some g) with
                             | Return c => c
                             | Raise _ => {| second := CronAny; minute := CronAny;
                                             hour := CronAny |}
                             end |} |}.

Definition registered_report : Payload :=
  {| p_response := Some Scenario.ok; p_ven_id := None;
     p_requested_oadr_poll_freq := None;
     p_report_requests :=
       Some [ask "request1" (td_seconds 10) None ["R1"; "R2"];
             ask "request2" (td_seconds 30) None ["R2"; "R9"]];
     p_request_id := None; p_events := None; p_cancel_report := None |}.

(** A VTN that answers the registration of the reports with two report
    requests, and sends an [oadrUpdateReport] to who polls. *)
Definition reporter : Collaborators :=
  vtn true [("subscribe", ("oadrRegisteredReport", registered_report));
            ("update", ("oadrUpdateReport", Scenario.with_response Scenario.ok));
            ("nothing", ("oadrResponse", Scenario.with_response Scenario.ok))].

(** The VEN of the scenario, with report "S1", about to register it. *)
Definition offering : State :=
  Scenario.start (Scenario.ven_reporting [] [] [])
                 (Scenario.scripts [] [Responded 200 "update"; Responded 200 "nothing"]
                                   [] [Responded 200 "subscribe"]).

(** The same VEN with two reports in the queue and a VTN that answers
    [script] to what the worker sends. *)
Definition second_pending : Report :=
  {| created_date_time := None; report_name := "TELEMETRY_USAGE";
     report_specifier_id := "S1"; report_descriptions := [];
     report_request_id := Some "request2"; intervals := [] |}.

Definition queued (script : list http_outcome) : State :=
  Scenario.start
    (Scenario.ven_reporting [Scenario.subscription ["R1"; "R2"]]
                            [Scenario.pending; second_pending]
                            [Scenario.job_request1 (td_seconds 10)])
    (Scenario.scripts [] [] [] script).

(** A data point of report "S1" declared as a voltage in kilovolts. *)
Definition kilovolts : AddReport :=
  {| ar_callable := fun _ => Return 11; ar_resource_id := "meter";
     ar_measurement := MeasurementName "voltage";
     ar_report_specifier_id := Some "S1";
     ar_report_name := "TELEMETRY_USAGE"; ar_reading_type := "Direct Read";
     ar_report_type := "reading"; ar_sampling_rate := NoSamplingRate;
     ar_scale := "k"; ar_unit := None |}.

(** A declaration under a report name outside the vocabulary. *)
Definition misnamed : AddReport :=
  {| ar_callable := fun _ => Return 230; ar_resource_id := "meter";
     ar_measurement := MeasurementName "voltage";
     ar_report_specifier_id := None;
     ar_report_name := "USAGE"; ar_reading_type := "Direct Read";
     ar_report_type := "reading"; ar_sampling_rate := NoSamplingRate;
     ar_scale := "none"; ar_unit := None |}.

End Cases.

(** * Properties *)

Ltac unfold_m :=
  unfold parse_reply, post, logger, breakpoint, modify_self, add_job, scheduler_start,
    generate_id, randint, datetime_now, getitem, getattr, call in *;
  unfold emit in *;
  unfold bind, ret, raise, get_world, put_world, get_self, put_self in *.

(** Case analysis on the innermost scrutinee of the goal. *)
Ltac break_match :=
  match goal with
  | |- context [match ?x with _ => _ end] =>
      lazymatch x with
      | context [match _ with _ => _ end] => fail
      | _ => let E := fresh "E" in destruct x eqn:E
      end
  end.

Lemma count_app (p : event -> bool) (l l' : list event) :
  count p (l ++ l') = (count p l + count p l')%nat.
Proof. unfold count. rewrite filter_app, length_app. reflexivity. Qed.

Lemma bind_assoc {A B C} (m : M A) (f : A -> M B) (g : B -> M C) (st : State) :
  bind (bind m f) g st = bind m (fun x => bind (f x) g) st.
Proof.
  unfold bind. destruct (m st) as [[a|e] s]; [|reflexivity].
  destruct (f a s) as [[b|e] s']; reflexivity.
Qed.

Lemma bind_returns {A B} (m : M A) (k : A -> M B) (st st1 : State) (a : A) :
  m st = (Return a, st1) -> bind m k st = k a st1.
Proof. intro H. unfold bind. rewrite H. reflexivity. Qed.

Lemma bind_raises {A B} (m : M A) (k : A -> M B) (st st1 : State) (e : exn) :
  m st = (Raise e, st1) -> bind m k st = (Raise e, st1).
Proof. intro H. unfold bind. rewrite H. reflexivity. Qed.

(** ** Message transport *)

Section Transport.

Context {collaborators : Collaborators}.

(** An exchange does not touch the client object. *)
Lemma perform_request_self (service : string) (message : Message) (st : State) :
  self (snd (_perform_request service message st)) = self st.
Proof.
  unfold _perform_request. unfold_m. simpl.
  destruct (network (world st) service) as [|[status content|err|e] rest]; simpl; auto.
  destruct (negb (status =? 200)); simpl; auto.
  destruct (decodes_utf8 content); simpl;
    destruct (parse_message content) as [[? ?]|?]; simpl; auto.
Qed.

(** C2. Whatever the service and the outbound message: on an HTTP status
    other than 200, [_perform_request] logs a warning and returns
    [(None, {})]; when the server cannot be connected to, it logs the error
    and returns [(None, {})]; in both cases nothing is raised. When the
    exchange succeeds with status 200 and the reply cannot be parsed or
    validated, the error of the parser is raised to the caller, which is
    not the empty result. *)
Theorem perform_request_failures (service : string) (message : Message) (st : State) :
  (forall status content rest,
      network (world st) service = Responded status content :: rest ->
      status <> 200 ->
      exists st',
        _perform_request service message st = (Return (None, empty_payload), st')
        /\ self st' = self st
        /\ trace (world st') =
             trace (world st) ++
               [Log DEBUG "Client is sending"; Post service message;
                Log WARNING "Non-OK status when performing a request"])
  /\ (forall err rest,
         network (world st) service = ClientConnectorError err :: rest ->
         exists st',
           _perform_request service message st = (Return (None, empty_payload), st')
           /\ self st' = self st
           /\ trace (world st') =
                trace (world st) ++
                  [Log DEBUG "Client is sending"; Post service message;
                   Log ERROR "Could not connect to server with URL"; Log ERROR err])
  /\ (forall content rest err,
         network (world st) service = Responded 200 content :: rest ->
         parse_message content = Raise err ->
         exists st',
           _perform_request service message st = (Raise err, st')
           /\ self st' = self st
           /\ In (Log ERROR "The incoming message could not be parsed or validated")
                 (trace (world st'))
           /\ fst (_perform_request service message st)
              <> Return (None, empty_payload)).
Proof.
  split; [|split].
  - intros status content rest Hnet Hst.
    unfold _perform_request. unfold_m. simpl. rewrite Hnet. simpl.
    destruct (Z.eqb_spec status 200) as [|_]; [contradiction|]. simpl.
    eexists; split; [reflexivity|]. simpl. split; [reflexivity|].
    rewrite <- !app_assoc. reflexivity.
  - intros err rest Hnet.
    unfold _perform_request. unfold_m. simpl. rewrite Hnet. simpl.
    eexists; split; [reflexivity|]. simpl. split; [reflexivity|].
    rewrite <- !app_assoc. reflexivity.
  - intros content rest err Hnet Hparse.
    unfold _perform_request. unfold_m. simpl. rewrite Hnet. simpl.
    destruct (decodes_utf8 content); simpl; rewrite Hparse; simpl;
      (eexists; split; [reflexivity|]; simpl; split; [reflexivity|];
       split; [apply in_or_app; right; left; reflexivity|discriminate]).
Qed.

End Transport.

(** ** Registration *)

Section Registration.

Context {collaborators : Collaborators}.

(** C4. [create_party_registration] updates the identity as a whole. A
    reply with response code 200 and a [ven_id] sets [ven_id] and
    [poll_frequency] (10 seconds when the reply offers none); when there is
    no reply, or the reply carries another response code, both are as they
    were. In every case, also after an earlier registration, either both
    fields are unchanged or both are set from the reply. *)
Theorem create_party_registration_atomic (options : RegistrationOptions) (st : State) :
  let r := create_party_registration options st in
  (forall content rest response_type payload response new_id,
      network (world st) "EiRegisterParty" = Responded 200 content :: rest ->
      parse_message content = Return (response_type, payload) ->
      p_response payload = Some response ->
      response_code response = 200 ->
      p_ven_id payload = Some new_id ->
      fst r = Return (Some (response_type, payload))
      /\ ven_id (self (snd r)) = Some new_id
      /\ poll_frequency (self (snd r)) = offered_poll_frequency payload)
  /\ (unreachable (network (world st) "EiRegisterParty") = true ->
      fst r = Return None
      /\ ven_id (self (snd r)) = ven_id (self st)
      /\ poll_frequency (self (snd r)) = poll_frequency (self st))
  /\ (forall content rest response_type payload response,
         network (world st) "EiRegisterParty" = Responded 200 content :: rest ->
         parse_message content = Return (response_type, payload) ->
         p_response payload = Some response ->
         response_code response <> 200 ->
         ven_id (self (snd r)) = ven_id (self st)
         /\ poll_frequency (self (snd r)) = poll_frequency (self st))
  /\ ((ven_id (self (snd r)) = ven_id (self st)
       /\ poll_frequency (self (snd r)) = poll_frequency (self st))
      \/ (exists response_type payload new_id,
             fst r = Return (Some (response_type, payload))
             /\ ven_id (self (snd r)) = Some new_id
             /\ poll_frequency (self (snd r)) = offered_poll_frequency payload)).
Proof.
  intro r. subst r. unfold offered_poll_frequency.
  split; [|split; [|split]].
  - intros content rest response_type payload response new_id Hnet Hparse Hresp Hcode Hid.
    unfold create_party_registration, _perform_request. unfold_m. simpl.
    rewrite Hnet. simpl.
    destruct (decodes_utf8 content); simpl; rewrite Hparse; simpl;
      rewrite Hresp; simpl; rewrite Hcode; simpl; rewrite Hid; simpl; auto.
  - intros Hun.
    unfold create_party_registration, _perform_request. unfold_m. simpl.
    destruct (network (world st) "EiRegisterParty") as [|[status content|err|e] rest];
      simpl in *; try discriminate; auto.
    rewrite Hun. simpl. auto.
  - intros content rest response_type payload response Hnet Hparse Hresp Hcode.
    unfold create_party_registration, _perform_request. unfold_m. simpl.
    rewrite Hnet. simpl.
    destruct (Z.eqb_spec (response_code response) 200) as [|_]; [contradiction|].
    destruct (decodes_utf8 content); simpl; rewrite Hparse; simpl;
      rewrite Hresp; simpl;
      destruct (Z.eqb_spec (response_code response) 200); try contradiction; simpl;
      destruct (response_description response); simpl; auto.
  - unfold create_party_registration. unfold_m. simpl.
    match goal with
    | |- context [_perform_request ?sv ?m ?s0] =>
        pose proof (perform_request_self sv m s0) as Hself;
        destruct (_perform_request sv m s0) as [[[response_type payload]|e] st1]
    end; simpl in *; [|left; rewrite Hself; auto].
    destruct st1 as [c1 w1]; simpl in *; subst c1.
    repeat (break_match; simpl; auto);
      right; do 3 eexists; (split; [reflexivity|]);
      match goal with H : p_requested_oadr_poll_freq _ = _ |- _ => rewrite H end;
      auto.
Qed.

End Registration.

(** ** The poll loop *)

Section Quiet.
Context {collaborators : Collaborators}.

Lemma quiet_refl st : quiet st st.
Proof. split; reflexivity. Qed.

Lemma quiet_trans st1 st2 st3 : quiet st1 st2 -> quiet st2 st3 -> quiet st1 st3.
Proof. intros [H1 H2] [H3 H4]. split; congruence. Qed.

Lemma keeps_ret {A} (a : A) : keeps quiet (ret a).
Proof. intro st. apply quiet_refl. Qed.

Lemma keeps_raise {A} (e : exn) : keeps quiet (@raise A e).
Proof. intro st. apply quiet_refl. Qed.

Lemma keeps_bind {A B} (m : M A) (k : A -> M B) :
  keeps quiet m -> (forall a, keeps quiet (k a)) -> keeps quiet (bind m k).
Proof.
  intros Hm Hk st. unfold bind. specialize (Hm st).
  destruct (m st) as [[a|e] s]; simpl in *; [|exact Hm].
  eapply quiet_trans; [exact Hm|apply Hk].
Qed.

Lemma keeps_emit (e : event) : is_post "OadrPoll" e = false -> keeps quiet (emit e).
Proof.
  intros He st. unfold_m. simpl. split; [reflexivity|].
  unfold polls. simpl. rewrite count_app. unfold count at 2. simpl.
  rewrite He. simpl. lia.
Qed.

Lemma keeps_logger lvl msg : keeps quiet (logger lvl msg).
Proof. apply keeps_emit. reflexivity. Qed.

Lemma keeps_breakpoint : keeps quiet breakpoint.
Proof. apply keeps_emit. reflexivity. Qed.

Lemma keeps_get_self : keeps quiet get_self.
Proof. intro st. apply quiet_refl. Qed.

Lemma keeps_put_self c : keeps quiet (put_self c).
Proof. intro st. split; reflexivity. Qed.

Lemma keeps_modify_self f : keeps quiet (modify_self f).
Proof. intro st. split; reflexivity. Qed.

Lemma keeps_getitem {A} key (v : option A) : keeps quiet (getitem key v).
Proof. destruct v; [apply keeps_ret|apply keeps_raise]. Qed.

Lemma keeps_getattr {A} key (v : option A) : keeps quiet (getattr key v).
Proof. destruct v; [apply keeps_ret|apply keeps_raise]. Qed.

Lemma keeps_call {A} (r : outcome A) : keeps quiet (call r).
Proof. destruct r; [apply keeps_ret|apply keeps_raise]. Qed.

Lemma keeps_generate_id : keeps quiet generate_id.
Proof. intro st. split; reflexivity. Qed.

Lemma keeps_post service message :
  String.eqb service "OadrPoll" = false -> keeps quiet (post service message).
Proof.
  intros Hsv st.
  assert (Hcount : forall tr, count (is_post "OadrPoll") (tr ++ [Post service message])
                              = count (is_post "OadrPoll") tr).
  { intro tr. rewrite count_app. unfold count at 2.
    cbn -[String.eqb]. rewrite Hsv. simpl. lia. }
  unfold_m. cbn -[String.eqb count].
  destruct (network (world st) service) as [|o rest]; cbn -[String.eqb count].
  - split; [reflexivity|]. unfold polls. cbn -[String.eqb count]. apply Hcount.
  - split.
    + cbn -[String.eqb]. rewrite String.eqb_sym in Hsv. rewrite Hsv. reflexivity.
    + unfold polls. cbn -[String.eqb count]. apply Hcount.
Qed.

Create HintDb quiet.
#[local] Hint Resolve keeps_ret keeps_raise keeps_logger keeps_breakpoint keeps_get_self
  keeps_put_self keeps_modify_self keeps_getitem keeps_getattr keeps_call
  keeps_generate_id keeps_emit : quiet.

Ltac keeps_quiet :=
  repeat match goal with
    | |- keeps _ (bind _ _) => apply keeps_bind; [|intro]
    | |- keeps _ (match ?x with _ => _ end) => destruct x
    | |- keeps _ _ => solve [auto with quiet]
    end.

Lemma keeps_perform_request service message :
  String.eqb service "OadrPoll" = false ->
  keeps quiet (_perform_request service message).
Proof.
  intro Hsv. unfold _perform_request, parse_reply.
  apply keeps_bind; [auto with quiet|intros _].
  apply keeps_bind; [apply keeps_post; exact Hsv|intro o].
  keeps_quiet.
Qed.

Lemma keeps_create_party_registration options :
  keeps quiet (create_party_registration options).
Proof.
  unfold create_party_registration.
  apply keeps_bind; [auto with quiet|intros _].
  apply keeps_bind; [auto with quiet|intros c].
  apply keeps_bind; [auto with quiet|intros rid].
  apply keeps_bind; [apply keeps_perform_request; reflexivity|intros [t p]].
  keeps_quiet.
Qed.

Lemma keeps_on_event message : keeps quiet (_on_event message).
Proof.
  unfold _on_event, created_event.
  keeps_quiet. apply keeps_perform_request. reflexivity.
Qed.

Lemma keeps_dispatch response_type payload :
  keeps quiet (dispatch response_type payload).
Proof.
  unfold dispatch.
  apply keeps_bind.
  - destruct (String.eqb response_type "oadrRequestReregistration"); keeps_quiet.
    apply keeps_create_party_registration.
  - intros _. destruct (String.eqb response_type "oadrDistributeEvent");
      [apply keeps_on_event|].
    destruct (String.eqb response_type "oadrUpdateReport"); keeps_quiet.
Qed.
End Quiet.

Section Poll.

Context {collaborators : Collaborators}.

Lemma poll_unfold (depth : nat) (st : State) :
  _poll (S depth) st =
  bind (logger DEBUG "Now polling for new messages" ;; poll)
       (fun '(response_type, response_payload) =>
          match response_type with
          | None => ret tt
          | Some response_type =>
              if String.eqb response_type "oadrResponse" then
                logger DEBUG "No events or reports available" ;; ret tt
              else
                dispatch response_type response_payload ;; _poll depth
          end) st.
Proof. rewrite bind_assoc. reflexivity. Qed.

(** A poll answered with status 200 and a body that parses brings the
    message, takes the body from the script of the poll service, and counts
    as one poll; the client object is as before. *)
Lemma poll_returns (st : State) (content : string) (tail : list http_outcome)
  (response_type : string) (payload : Payload) :
  network (world st) "OadrPoll" = Responded 200 content :: tail ->
  parse_message content = Return (response_type, payload) ->
  (logger DEBUG "Now polling for new messages" ;; poll) st
    = (Return (Some response_type, payload), polled st)
  /\ network (world (polled st)) "OadrPoll" = tail
  /\ polls (polled st) = S (polls st)
  /\ on_event_calls (polled st) = on_event_calls st
  /\ self (polled st) = self st.
Proof.
  intros Hnet Hparse. unfold polled, poll, _perform_request. unfold_m.
  cbn -[count]. rewrite Hnet. cbn -[count].
  destruct (decodes_utf8 content); cbn -[count]; rewrite Hparse; cbn -[count];
    unfold polls, on_event_calls; cbn -[count];
    rewrite !count_app; unfold count; simpl; repeat split; lia.
Qed.

(** [on_event], when the application has set it, is called once by
    [_on_event], whatever happens next. *)
Lemma on_event_called_once (message : Payload) (st : State)
  (handler : Payload -> outcome string) :
  on_event (self st) = Some handler ->
  on_event_calls (snd (_on_event message st)) = S (on_event_calls st).
Proof.
  intro Hsome.
  unfold _on_event, created_event, _perform_request. unfold_m.
  cbn -[count]. rewrite Hsome. cbn -[count].
  repeat (break_match; cbn -[count]);
    unfold on_event_calls; cbn -[count]; rewrite !count_app;
    unfold count; simpl; lia.
Qed.

(** [_poll] never asks for more than the script holds up to its no-content
    reply: what it has taken from the script is a prefix no longer than the
    replies to handle plus the no-content reply, and it has sent one poll
    for each outcome taken. *)
Lemma poll_stops (replies : list (string * (string * Payload)))
  (nothing_content : string) (nothing_payload : Payload) (rest : list http_outcome) :
  Forall to_handle replies ->
  parse_message nothing_content = Return ("oadrResponse", nothing_payload) ->
  forall (depth : nat) (st : State),
    network (world st) "OadrPoll"
      = map (fun reply => Responded 200 (fst reply)) replies
          ++ Responded 200 nothing_content :: rest ->
    (List.length replies < depth)%nat ->
    exists consumed,
      network (world st) "OadrPoll"
        = consumed ++ network (world (snd (_poll depth st))) "OadrPoll"
      /\ (1 <= List.length consumed <= S (List.length replies))%nat
      /\ polls (snd (_poll depth st)) = (polls st + List.length consumed)%nat.
Proof.
  intros Hreplies Hnothing.
  induction Hreplies as [|[content [t p]] replies [Hparse Ht] _ IH];
    intros depth st Hnet Hdepth;
    (destruct depth as [|depth]; [simpl in Hdepth; lia|]);
    cbn [map app fst snd] in *.
  - destruct (poll_returns st _ _ _ _ Hnet Hnothing) as (Hpoll & Htail & Hpolls & _).
    rewrite poll_unfold, (bind_returns _ _ _ _ _ Hpoll). cbn -[count polled].
    unfold_m. cbn -[count polled].
    exists [Responded 200 nothing_content]. rewrite Hnet, Htail.
    split; [reflexivity|]. split; [simpl; lia|].
    unfold polls in *. cbn -[count polled]. rewrite count_app.
    unfold count at 2. simpl. rewrite Hpolls. lia.
  - destruct (poll_returns st _ _ _ _ Hnet Hparse) as (Hpoll & Htail & Hpolls & _).
    rewrite poll_unfold, (bind_returns _ _ _ _ _ Hpoll).
    apply String.eqb_neq in Ht. rewrite Ht.
    pose proof (keeps_dispatch t p (polled st)) as [Hq1 Hq2].
    destruct (dispatch t p (polled st)) as [[[]|e] st2] eqn:Hdispatch;
      cbn [snd] in Hq1, Hq2.
    + rewrite (bind_returns _ _ _ _ _ Hdispatch).
      destruct (IH depth st2) as (consumed & Hscript & Hlen & Hcount).
      { rewrite Hq1, Htail. reflexivity. }
      { simpl in Hdepth. lia. }
      exists (Responded 200 content :: consumed).
      rewrite Hnet. split; [|split].
      * cbn [app]. f_equal. rewrite <- Htail, <- Hq1. exact Hscript.
      * simpl. lia.
      * rewrite Hcount, Hq2, Hpolls. simpl. lia.
    + rewrite (bind_raises _ _ _ _ _ Hdispatch). cbn [snd].
      exists [Responded 200 content]. rewrite Hnet, Hq1, Htail.
      split; [reflexivity|]. split; [simpl; lia|].
      rewrite Hq2, Hpolls. simpl. lia.
Qed.

(** When the handling of each reply returns, [_poll] handles them all,
    polls again after each, and returns on the no-content reply. *)
Lemma poll_drains (replies : list (string * (string * Payload)))
  (nothing_content : string) (nothing_payload : Payload) (rest : list http_outcome) :
  Forall to_handle replies ->
  parse_message nothing_content = Return ("oadrResponse", nothing_payload) ->
  forall (depth : nat) (st : State),
    network (world st) "OadrPoll"
      = map (fun reply => Responded 200 (fst reply)) replies
          ++ Responded 200 nothing_content :: rest ->
    handled (map snd replies) st ->
    (List.length replies < depth)%nat ->
    fst (_poll depth st) = Return tt
    /\ polls (snd (_poll depth st)) = (polls st + List.length replies + 1)%nat
    /\ network (world (snd (_poll depth st))) "OadrPoll" = rest.
Proof.
  intros Hreplies Hnothing.
  induction Hreplies as [|[content [t p]] replies [Hparse Ht] _ IH];
    intros depth st Hnet Hhandled Hdepth;
    (destruct depth as [|depth]; [simpl in Hdepth; lia|]);
    cbn [map app fst snd] in *.
  - destruct (poll_returns st _ _ _ _ Hnet Hnothing) as (Hpoll & Htail & Hpolls & _).
    rewrite poll_unfold, (bind_returns _ _ _ _ _ Hpoll). cbn -[count polled].
    unfold_m. cbn -[count polled].
    split; [reflexivity|]. split; [|exact Htail].
    unfold polls in *. cbn -[count polled]. rewrite count_app.
    unfold count at 2. simpl. rewrite Hpolls. lia.
  - destruct (poll_returns st _ _ _ _ Hnet Hparse) as (Hpoll & Htail & Hpolls & _).
    rewrite poll_unfold, (bind_returns _ _ _ _ _ Hpoll).
    apply String.eqb_neq in Ht. rewrite Ht.
    inversion Hhandled as [|? ? ? ? st2 Hdispatch Hrest]; subst.
    pose proof (keeps_dispatch t p (polled st)) as [Hq1 Hq2].
    rewrite Hdispatch in Hq1, Hq2. cbn [snd] in Hq1, Hq2.
    rewrite (bind_returns _ _ _ _ _ Hdispatch).
    destruct (IH depth st2) as (Hreturn & Hcount & Hscript).
    { rewrite Hq1, Htail. reflexivity. }
    { exact Hrest. }
    { simpl in Hdepth. lia. }
    split; [exact Hreturn|]. split; [|exact Hscript].
    rewrite Hcount, Hq2, Hpolls. simpl. lia.
Qed.

(** On the script [event, no-content] the handler set by the application is
    called exactly once. *)
Lemma poll_event_once (st : State) (event_content nothing_content : string)
  (event_payload nothing_payload : Payload) (rest : list http_outcome)
  (handler : Payload -> outcome string) (depth : nat) :
  network (world st) "OadrPoll"
    = Responded 200 event_content :: Responded 200 nothing_content :: rest ->
  parse_message event_content = Return ("oadrDistributeEvent", event_payload) ->
  parse_message nothing_content = Return ("oadrResponse", nothing_payload) ->
  on_event (self st) = Some handler ->
  (2 <= depth)%nat ->
  on_event_calls (snd (_poll depth st)) = S (on_event_calls st).
Proof.
  intros Hnet Hevent Hnothing Hhandler Hdepth.
  destruct depth as [|[|depth]]; try lia.
  destruct (poll_returns st _ _ _ _ Hnet Hevent) as (Hpoll & Htail & _ & Hcalls & Hself).
  rewrite poll_unfold, (bind_returns _ _ _ _ _ Hpoll).
  cbn [String.eqb Ascii.eqb Bool.eqb].
  assert (Hdispatch : dispatch "oadrDistributeEvent" event_payload (polled st)
                      = _on_event event_payload (polled st)) by reflexivity.
  pose proof (on_event_called_once event_payload (polled st) handler
                ltac:(rewrite Hself; exact Hhandler)) as Honce.
  pose proof (keeps_dispatch "oadrDistributeEvent" event_payload (polled st)) as [Hq _].
  rewrite Hdispatch in Hq.
  unfold bind at 1. rewrite Hdispatch.
  destruct (_on_event event_payload (polled st)) as [[[]|e] st2]; cbn [snd] in *;
    [|rewrite Honce, Hcalls; reflexivity].
  destruct (poll_returns st2 nothing_content rest "oadrResponse" nothing_payload
              ltac:(rewrite Hq, Htail; reflexivity) Hnothing)
    as (Hpoll2 & _ & _ & Hcalls2 & _).
  rewrite poll_unfold, (bind_returns _ _ _ _ _ Hpoll2). cbn -[count polled].
  unfold_m. cbn -[count polled].
  unfold on_event_calls in *. cbn -[count polled]. rewrite count_app.
  unfold count at 2. simpl. rewrite Hcalls2, Honce, Hcalls. lia.
Qed.

(** The handling of an event returns when the handler does, the payload has
    a request id and an event, and the created-event exchange returns. *)
Lemma dispatch_event_returns (st : State) (event_payload : Payload)
  (handler : Payload -> outcome string) (opt_type request_id : string)
  (first_event : Event) (more_events : list Event) :
  on_event (self st) = Some handler ->
  handler event_payload = Return opt_type ->
  p_request_id event_payload = Some request_id ->
  p_events event_payload = Some (first_event :: more_events) ->
  next_exchange_returns (network (world st) "EiEvent") = true ->
  exists st', dispatch "oadrDistributeEvent" event_payload st = (Return tt, st').
Proof.
  intros Hhandler Hopt Hid Hevents Hack.
  unfold dispatch, _on_event, created_event, _perform_request. unfold_m.
  cbn. rewrite Hhandler. cbn. rewrite Hopt. cbn. rewrite Hid, Hevents. cbn.
  destruct (network (world st) "EiEvent") as [|[status content|err|e] ack_rest];
    cbn in *; try discriminate; eauto.
  destruct (negb (status =? 200)); cbn in *; eauto.
  destruct (decodes_utf8 content); cbn;
    (destruct (parse_message content) as [[? ?]|?]; [|discriminate]); cbn; eauto.
Qed.

(** [dispatch] sets no [_on_report]: a client that has none before a reply
    is handled has none after it. *)
Lemma dispatch_keeps_on_report (response_type : string) (payload : Payload)
  (st : State) :
  _on_report (self (snd (dispatch response_type payload st))) = _on_report (self st).
Proof.
  unfold dispatch, create_party_registration, _on_event, created_event.
  unfold_m. cbn [fst snd].
  destruct (String.eqb response_type "oadrRequestReregistration");
    destruct (String.eqb response_type "oadrDistributeEvent");
    destruct (String.eqb response_type "oadrUpdateReport");
    cbn [fst snd self world];
    repeat match goal with
      | |- context [_perform_request ?sv ?m ?s0] =>
          let Hself := fresh "Hself" in
          pose proof (perform_request_self sv m s0) as Hself;
          destruct (_perform_request sv m s0) as [[[? ?]|?] ?];
          cbn [fst snd self world] in *
      | |- _ => break_match; cbn [fst snd self world] in *
      end;
    try reflexivity; try congruence;
    repeat match goal with H : self _ = _ |- _ => rewrite H; clear H end;
    try reflexivity; congruence.
Qed.

(** C3, on the code. A reply of type [oadrUpdateReport] is handed to
    [self._on_report], which the class does not define. On a client on
    which the application has set none, for every script of the poll
    service made of replies whose handling returns, then an
    [oadrUpdateReport], then the no-content reply: [_poll] handles the
    first replies, each followed by the next poll, raises [AttributeError]
    on the [oadrUpdateReport], and never polls again: the no-content reply
    and what follows it stay with the VTN. *)
Theorem poll_update_report_ends_loop
  (replies : list (string * (string * Payload)))
  (update_content nothing_content : string) (update_payload nothing_payload : Payload)
  (rest : list http_outcome) (depth : nat) (st : State) :
  Forall to_handle replies ->
  parse_message update_content = Return ("oadrUpdateReport", update_payload) ->
  parse_message nothing_content = Return ("oadrResponse", nothing_payload) ->
  network (world st) "OadrPoll"
    = map (fun reply => Responded 200 (fst reply)) replies
        ++ Responded 200 update_content :: Responded 200 nothing_content :: rest ->
  handled (map snd replies) st ->
  _on_report (self st) = None ->
  (List.length replies < depth)%nat ->
  fst (_poll depth st) = Raise (AttributeError "_on_report")
  /\ polls (snd (_poll depth st)) = (polls st + List.length replies + 1)%nat
  /\ network (world (snd (_poll depth st))) "OadrPoll"
     = Responded 200 nothing_content :: rest.
Proof.
  intros Hreplies Hupdate _. revert depth st.
  induction Hreplies as [|[content [t p]] replies [Hparse Ht] _ IH];
    intros depth st Hnet Hhandled Hnone Hdepth;
    (destruct depth as [|depth]; [simpl in Hdepth; lia|]);
    cbn [map app fst snd] in *.
  - destruct (poll_returns st _ _ _ _ Hnet Hupdate) as (Hpoll & Htail & Hpolls & _ & Hself).
    rewrite poll_unfold, (bind_returns _ _ _ _ _ Hpoll).
    cbn [String.eqb Ascii.eqb Bool.eqb].
    unfold dispatch. cbn [String.eqb Ascii.eqb Bool.eqb]. unfold_m. cbn -[polled polls].
    rewrite Hself, Hnone. cbn -[polled polls].
    split; [reflexivity|]. split; [rewrite Hpolls; simpl; lia|exact Htail].
  - destruct (poll_returns st _ _ _ _ Hnet Hparse) as (Hpoll & Htail & Hpolls & _ & Hself).
    rewrite poll_unfold, (bind_returns _ _ _ _ _ Hpoll).
    apply String.eqb_neq in Ht. rewrite Ht.
    inversion Hhandled as [|? ? ? ? st2 Hdispatch Hrest]; subst.
    pose proof (keeps_dispatch t p (polled st)) as [Hq1 Hq2].
    pose proof (dispatch_keeps_on_report t p (polled st)) as Hkeeps.
    rewrite Hdispatch in Hq1, Hq2, Hkeeps. cbn [snd] in Hq1, Hq2, Hkeeps.
    rewrite (bind_returns _ _ _ _ _ Hdispatch).
    destruct (IH depth st2) as (Hraise & Hcount & Hscript).
    { rewrite Hq1, Htail. reflexivity. }
    { exact Hrest. }
    { rewrite Hkeeps, Hself. exact Hnone. }
    { simpl in Hdepth. lia. }
    split; [exact Hraise|]. split; [|exact Hscript].
    rewrite Hcount, Hq2, Hpolls. simpl. lia.
Qed.

End Poll.

Ltac bool_atoms :=
  repeat match goal with
    | |- context [String.eqb ?a ?b] => destruct (String.eqb a b) eqn:?; simpl
    | |- context [Z.leb ?a ?b] => destruct (Z.leb a b) eqn:?; simpl
    | |- context [opt_str_eqb ?a ?b] => destruct (opt_str_eqb a b) eqn:?; simpl
    end.

Ltac body_cases :=
  unfold_m; simpl;
  repeat (first [progress bool_atoms | break_match]; simpl; try discriminate);
  repeat match goal with
    | |- _ -> _ => intro
    | H : Some _ = Some _ |- _ => injection H as H; subst
    end;
  try discriminate; eauto.

(** ** Report negotiation *)

Section Negotiation.

Context {collaborators : Collaborators}.

Lemma in_range_spec (g : timedelta) (rd : ReportDescription) :
  in_range g rd = true
  <-> min_period (sampling_rate rd) <= g <= max_period (sampling_rate rd).
Proof. unfold in_range. rewrite andb_true_iff, !Z.leb_le. tauto. Qed.

(** The descriptor looked up depends on the requested r_id only. *)
Lemma descriptor_same_r_id (report : Report) (sp sp' : SpecifierPayload) :
  sp_r_id sp = sp_r_id sp' -> descriptor report sp = descriptor report sp'.
Proof. unfold descriptor. intros ->. reflexivity. Qed.

(** One turn of the loop when the VTN gave the granularity [g] and no
    report interval: the r_id is appended exactly when it is accepted. *)
Lemma create_report_body_specified (report : Report) (rr : ReportRequestMsg)
  (g : timedelta) (acc : list string) (sp : SpecifierPayload) (st : State) :
  rs_report_interval (rq_report_specifier rr) = None ->
  exists st',
    create_report_body report rr (Some g, acc) sp st
      = (Return (Some g, if accepts report g sp then acc ++ [sp_r_id sp] else acc), st')
    /\ self st' = self st.
Proof.
  intro Hiv.
  unfold create_report_body, accepts, candidate, descriptor, measurement_matches, in_range.
  rewrite Hiv. body_cases.
Qed.

Lemma create_report_loop_specified (report : Report) (rr : ReportRequestMsg)
  (g : timedelta) (payloads : list SpecifierPayload) :
  rs_report_interval (rq_report_specifier rr) = None ->
  forall (acc : list string) (st : State),
  exists st',
    for_each payloads (create_report_body report rr) (Some g, acc) st
      = (Return (Some g, acc ++ map sp_r_id (filter (accepts report g) payloads)), st')
    /\ self st' = self st.
Proof.
  intro Hiv. induction payloads as [|sp payloads IH]; intros acc st.
  - simpl. unfold ret. rewrite app_nil_r. eauto.
  - destruct (create_report_body_specified report rr g acc sp st Hiv) as (st1 & Hbody & Hself).
    cbn [for_each]. rewrite (bind_returns _ _ _ _ _ Hbody).
    destruct (IH (if accepts report g sp then acc ++ [sp_r_id sp] else acc) st1)
      as (st' & Hloop & Hself').
    exists st'. rewrite Hloop. split; [|congruence].
    cbn [filter]. destruct (accepts report g sp); cbn [map];
      rewrite <- ?app_assoc; reflexivity.
Qed.

(** A rejected r_id leaves the loop's variables as they are, whether or not
    the request has a report interval. *)
Lemma create_report_body_rejected (report : Report) (rr : ReportRequestMsg)
  (g : timedelta) (acc : list string) (sp : SpecifierPayload) (st : State) :
  accepts report g sp = false ->
  exists st',
    create_report_body report rr (Some g, acc) sp st = (Return (Some g, acc), st')
    /\ self st' = self st.
Proof.
  unfold create_report_body, accepts, candidate, descriptor, measurement_matches, in_range.
  body_cases.
Qed.

Lemma create_report_loop_rejected (report : Report) (rr : ReportRequestMsg)
  (g : timedelta) (payloads : list SpecifierPayload) :
  Forall (fun sp => accepts report g sp = false) payloads ->
  forall (acc : list string) (st : State),
  exists st',
    for_each payloads (create_report_body report rr) (Some g, acc) st
      = (Return (Some g, acc), st')
    /\ self st' = self st.
Proof.
  induction 1 as [|sp payloads Hsp _ IH]; intros acc st.
  - simpl. unfold ret. eauto.
  - destruct (create_report_body_rejected report rr g acc sp st Hsp) as (st1 & Hbody & Hself).
    cbn [for_each]. rewrite (bind_returns _ _ _ _ _ Hbody).
    destruct (IH acc st1) as (st' & Hloop & Hself').
    exists st'. rewrite Hloop. split; [reflexivity|congruence].
Qed.

(** Without a granularity from the VTN, an r_id that has no descriptor or
    whose measurement does not match is skipped and the granularity stays
    unset; the first r_id that passes sets it to its descriptor's
    [max_period]. *)
Lemma create_report_body_skipped (report : Report) (rr : ReportRequestMsg)
  (acc : list string) (sp : SpecifierPayload) (st : State) :
  candidate report sp = None ->
  exists st',
    create_report_body report rr (None, acc) sp st = (Return (None, acc), st')
    /\ self st' = self st.
Proof.
  unfold create_report_body, candidate, descriptor, measurement_matches.
  body_cases.
Qed.

Lemma create_report_body_first (report : Report) (rr : ReportRequestMsg)
  (acc : list string) (sp : SpecifierPayload) (rd : ReportDescription) (st : State) :
  rs_report_interval (rq_report_specifier rr) = None ->
  candidate report sp = Some rd ->
  exists st',
    create_report_body report rr (None, acc) sp st
      = (Return (Some (max_period (sampling_rate rd)), acc ++ [sp_r_id sp]), st')
    /\ self st' = self st.
Proof.
  intro Hiv.
  unfold create_report_body, candidate, descriptor, measurement_matches.
  rewrite Hiv. body_cases.
Qed.

Lemma create_report_loop_unspecified (report : Report) (rr : ReportRequestMsg)
  (skipped : list SpecifierPayload) (sp : SpecifierPayload)
  (rest : list SpecifierPayload) (rd : ReportDescription) :
  rs_report_interval (rq_report_specifier rr) = None ->
  Forall (fun s => candidate report s = None) skipped ->
  candidate report sp = Some rd ->
  forall (acc : list string) (st : State),
  exists st',
    for_each (skipped ++ sp :: rest) (create_report_body report rr) (None, acc) st
      = (Return (Some (max_period (sampling_rate rd)),
                 acc ++ sp_r_id sp
                     :: map sp_r_id
                          (filter (accepts report (max_period (sampling_rate rd))) rest)),
         st')
    /\ self st' = self st.
Proof.
  intros Hiv Hskipped Hsp. induction Hskipped as [|s skipped Hs _ IH]; intros acc st.
  - destruct (create_report_body_first report rr acc sp rd st Hiv Hsp) as (st1 & Hbody & Hself).
    cbn [app for_each]. rewrite (bind_returns _ _ _ _ _ Hbody).
    destruct (create_report_loop_specified report rr (max_period (sampling_rate rd)) rest
                Hiv (acc ++ [sp_r_id sp]) st1) as (st' & Hloop & Hself').
    exists st'. rewrite Hloop, <- app_assoc. split; [reflexivity|congruence].
  - destruct (create_report_body_skipped report rr acc s st Hs) as (st1 & Hbody & Hself).
    cbn [app for_each]. rewrite (bind_returns _ _ _ _ _ Hbody).
    destruct (IH acc st1) as (st' & Hloop & Hself').
    exists st'. rewrite Hloop. split; [reflexivity|congruence].
Qed.

(** What [create_report] does once the loop has run. *)
Lemma create_report_run (st st1 : State) (rr : ReportRequestMsg) (report : Report)
  (granularity : option timedelta) (accepted : list string) (cron : CronTrigger) :
  find_by (reports (self st))
          (fun r => String.eqb (report_specifier_id r)
                               (rs_report_specifier_id (rq_report_specifier rr)))
    = Some report ->
  for_each (rs_specifier_payloads (rq_report_specifier rr))
           (create_report_body report rr)
           (rs_granularity (rq_report_specifier rr), []) st
    = (Return (granularity, accepted), st1) ->
  self st1 = self st ->
  cron_config granularity = Return cron ->
  create_trigger cron = Return tt ->
  exists st',
    create_report rr st = (Return None, st')
    /\ jobs (scheduler (self st'))
       = jobs (scheduler (self st))
           ++ [{| func := JobUpdateReport (rq_report_request_id rr); trigger := cron |}]
    /\ report_requests (self st')
       = report_requests (self st)
           ++ [{| rr_report_request_id := rq_report_request_id rr;
                  rr_report_specifier_id :=
                    rs_report_specifier_id (rq_report_specifier rr);
                  rr_r_ids := accepted;
                  rr_granularity := granularity;
                  rr_job := {| func := JobUpdateReport (rq_report_request_id rr);
                               trigger := cron |} |}].
Proof.
  intros Hfind Hloop Hself Hcron Htrigger.
  unfold create_report. unfold get_self at 1. unfold bind at 1. cbn [fst snd].
  rewrite Hfind. rewrite (bind_returns _ _ _ _ _ Hloop).
  rewrite Hcron. unfold_m. simpl. rewrite Htrigger. simpl. rewrite Hself.
  eexists. split; [reflexivity|]. simpl. split; reflexivity.
Qed.

(** C1, as amended. For a request without a report interval, against an
    existing report definition, and a cadence whose cron trigger the
    scheduler accepts. When the VTN gives the granularity [g], the accepted
    r_ids are those of the requested payloads that [accepts] lets through,
    each judged on its own: a requested r_id whose descriptor exists and
    whose requested measurement, if any, is the descriptor's is in the new
    [ReportRequest] if and only if [min_period <= g <= max_period]. When
    the VTN gives no granularity, the [max_period] of the first requested
    descriptor that passes the checks becomes the granularity of the
    [ReportRequest] and of its job. *)
Theorem create_report_accepts_in_range (st : State) (rr : ReportRequestMsg)
  (report : Report) :
  let spec := rq_report_specifier rr in
  find_by (reports (self st))
          (fun r => String.eqb (report_specifier_id r) (rs_report_specifier_id spec))
    = Some report ->
  rs_report_interval spec = None ->
  (forall g cron,
      rs_granularity spec = Some g ->
      cron_config (Some g) = Return cron ->
      create_trigger cron = Return tt ->
      exists st',
        create_report rr st = (Return None, st')
        /\ report_requests (self st')
           = report_requests (self st)
               ++ [{| rr_report_request_id := rq_report_request_id rr;
                      rr_report_specifier_id := rs_report_specifier_id spec;
                      rr_r_ids := map sp_r_id (filter (accepts report g)
                                                      (rs_specifier_payloads spec));
                      rr_granularity := Some g;
                      rr_job := {| func := JobUpdateReport (rq_report_request_id rr);
                                   trigger := cron |} |}]
        /\ (forall sp rd,
               In sp (rs_specifier_payloads spec) ->
               descriptor report sp = Some rd ->
               measurement_matches sp rd = true ->
               (In (sp_r_id sp)
                   (map sp_r_id (filter (accepts report g) (rs_specifier_payloads spec)))
                <-> min_period (sampling_rate rd) <= g <= max_period (sampling_rate rd))))
  /\ (forall skipped sp rest rd cron,
         rs_granularity spec = None ->
         rs_specifier_payloads spec = skipped ++ sp :: rest ->
         Forall (fun s => candidate report s = None) skipped ->
         candidate report sp = Some rd ->
         cron_config (Some (max_period (sampling_rate rd))) = Return cron ->
         create_trigger cron = Return tt ->
         exists st' others,
           create_report rr st = (Return None, st')
           /\ report_requests (self st')
              = report_requests (self st)
                  ++ [{| rr_report_request_id := rq_report_request_id rr;
                         rr_report_specifier_id := rs_report_specifier_id spec;
                         rr_r_ids := sp_r_id sp :: others;
                         rr_granularity := Some (max_period (sampling_rate rd));
                         rr_job := {| func := JobUpdateReport (rq_report_request_id rr);
                                      trigger := cron |} |}]).
Proof.
  intros spec Hfind Hiv. subst spec. split.
  - intros g cron Hg Hcron Htrigger.
    destruct (create_report_loop_specified report rr g
                (rs_specifier_payloads (rq_report_specifier rr)) Hiv [] st)
      as (st1 & Hloop & Hself).
    rewrite <- Hg in Hloop at 1.
    destruct (create_report_run st st1 rr report _ _ cron Hfind Hloop Hself Hcron
                Htrigger)
      as (st' & Hrun & _ & Hrequests).
    exists st'. split; [exact Hrun|]. split; [exact Hrequests|].
    intros sp rd Hin Hrd Hm. rewrite <- in_range_spec. split.
    + intro Hacc. apply in_map_iff in Hacc as (sp' & Hid & Hsp').
      apply filter_In in Hsp' as [_ Hsp'].
      unfold accepts, candidate in Hsp'.
      rewrite (descriptor_same_r_id report sp' sp Hid), Hrd in Hsp'.
      destruct (measurement_matches sp' rd); [exact Hsp'|discriminate].
    + intro Hrange. apply in_map. apply filter_In. split; [exact Hin|].
      unfold accepts, candidate. rewrite Hrd, Hm. exact Hrange.
  - intros skipped sp rest rd cron Hg Hpayloads Hskipped Hsp Hcron Htrigger.
    destruct (create_report_loop_unspecified report rr skipped sp rest rd
                Hiv Hskipped Hsp [] st) as (st1 & Hloop & Hself).
    rewrite <- Hpayloads, <- Hg in Hloop.
    destruct (create_report_run st st1 rr report _ _ cron Hfind Hloop Hself Hcron
                Htrigger)
      as (st' & Hrun & _ & Hrequests).
    exists st'. eexists. split; [exact Hrun|]. exact Hrequests.
Qed.

(** What [create_report] does once the loop has run, when the scheduler
    rejects the trigger. *)
Lemma create_report_rejected (st st1 : State) (rr : ReportRequestMsg) (report : Report)
  (granularity : option timedelta) (accepted : list string) (cron : CronTrigger)
  (e : exn) :
  find_by (reports (self st))
          (fun r => String.eqb (report_specifier_id r)
                               (rs_report_specifier_id (rq_report_specifier rr)))
    = Some report ->
  for_each (rs_specifier_payloads (rq_report_specifier rr))
           (create_report_body report rr)
           (rs_granularity (rq_report_specifier rr), []) st
    = (Return (granularity, accepted), st1) ->
  cron_config granularity = Return cron ->
  create_trigger cron = Raise e ->
  create_report rr st = (Raise e, st1).
Proof.
  intros Hfind Hloop Hcron Htrigger.
  unfold create_report. unfold get_self at 1. unfold bind at 1. cbn [fst snd].
  rewrite Hfind. rewrite (bind_returns _ _ _ _ _ Hloop).
  rewrite Hcron. unfold_m. simpl. rewrite Htrigger. reflexivity.
Qed.

(** C7, as amended. For an existing report definition, a granularity [g]
    given by the VTN and its cron trigger. When the scheduler accepts the
    trigger, [create_report] schedules the cadence job and appends a
    [ReportRequest] with the accepted r_ids (for a request without a report
    interval, whatever is accepted), and it does so even when no requested
    r_id is accepted: the [ReportRequest] then has an empty list of r_ids.
    This is the case, in particular, when [g] is outside the sampling-rate
    range of every descriptor of the report. When the scheduler rejects the
    trigger and no requested r_id is accepted, [add_job] raises: no job is
    scheduled, no [ReportRequest] is appended, and the client object is as
    it was. *)
Theorem create_report_schedules_empty (st : State) (rr : ReportRequestMsg)
  (report : Report) (g : timedelta) (cron : CronTrigger) :
  let spec := rq_report_specifier rr in
  let job := {| func := JobUpdateReport (rq_report_request_id rr); trigger := cron |} in
  let scheduled (accepted : list string) (st' : State) :=
    create_report rr st = (Return None, st')
    /\ jobs (scheduler (self st')) = jobs (scheduler (self st)) ++ [job]
    /\ report_requests (self st')
       = report_requests (self st)
           ++ [{| rr_report_request_id := rq_report_request_id rr;
                  rr_report_specifier_id := rs_report_specifier_id spec;
                  rr_r_ids := accepted;
                  rr_granularity := Some g;
                  rr_job := job |}] in
  find_by (reports (self st))
          (fun r => String.eqb (report_specifier_id r) (rs_report_specifier_id spec))
    = Some report ->
  rs_granularity spec = Some g ->
  cron_config (Some g) = Return cron ->
  (create_trigger cron = Return tt ->
   (rs_report_interval spec = None ->
    exists st',
      scheduled (map sp_r_id (filter (accepts report g) (rs_specifier_payloads spec))) st')
   /\ (Forall (fun sp => accepts report g sp = false) (rs_specifier_payloads spec) ->
       exists st', scheduled [] st')
   /\ ((forall rd, In rd (report_descriptions report) ->
                   ~ (min_period (sampling_rate rd) <= g <= max_period (sampling_rate rd))) ->
       exists st', scheduled [] st'))
  /\ (forall e,
         create_trigger cron = Raise e ->
         Forall (fun sp => accepts report g sp = false) (rs_specifier_payloads spec) ->
         exists st',
           create_report rr st = (Raise e, st') /\ self st' = self st).
Proof.
  intros spec job scheduled Hfind Hg Hcron. subst spec job scheduled. cbv beta.
  split.
  - intro Htrigger.
    assert (Hempty : Forall (fun sp => accepts report g sp = false)
                            (rs_specifier_payloads (rq_report_specifier rr)) ->
                     exists st',
                       create_report rr st = (Return None, st')
                       /\ jobs (scheduler (self st'))
                          = jobs (scheduler (self st))
                              ++ [{| func := JobUpdateReport (rq_report_request_id rr);
                                     trigger := cron |}]
                       /\ report_requests (self st')
                          = report_requests (self st)
                              ++ [{| rr_report_request_id := rq_report_request_id rr;
                                     rr_report_specifier_id :=
                                       rs_report_specifier_id (rq_report_specifier rr);
                                     rr_r_ids := [];
                                     rr_granularity := Some g;
                                     rr_job :=
                                       {| func := JobUpdateReport (rq_report_request_id rr);
                                          trigger := cron |} |}]).
    { intro Hrejected.
      destruct (create_report_loop_rejected report rr g _ Hrejected [] st)
        as (st1 & Hloop & Hself).
      rewrite <- Hg in Hloop at 1.
      exact (create_report_run st st1 rr report _ _ cron Hfind Hloop Hself Hcron
               Htrigger). }
    split; [|split; [exact Hempty|]].
    + intro Hiv.
      destruct (create_report_loop_specified report rr g
                  (rs_specifier_payloads (rq_report_specifier rr)) Hiv [] st)
        as (st1 & Hloop & Hself).
      rewrite <- Hg in Hloop at 1.
      exact (create_report_run st st1 rr report _ _ cron Hfind Hloop Hself Hcron
               Htrigger).
    + intro Hout. apply Hempty. apply Forall_forall. intros sp _.
      unfold accepts, candidate, descriptor, find_by.
      destruct (find _ (report_descriptions report)) as [rd|] eqn:Hrd; [|reflexivity].
      destruct (measurement_matches sp rd); [|reflexivity].
      apply find_some in Hrd as [Hin _].
      destruct (in_range g rd) eqn:Hrange; [|reflexivity].
      apply in_range_spec in Hrange. exfalso. exact (Hout rd Hin Hrange).
  - intros e Htrigger Hrejected.
    destruct (create_report_loop_rejected report rr g _ Hrejected [] st)
      as (st1 & Hloop & Hself).
    rewrite <- Hg in Hloop at 1.
    exists st1. split; [|exact Hself].
    exact (create_report_rejected st st1 rr report _ _ cron e Hfind Hloop Hcron Htrigger).
Qed.

End Negotiation.

(** ** Report delivery *)

Section Delivery.

Context {collaborators : Collaborators}.

Lemma update_report_body_run (report : Report) (acc : list ReportInterval)
  (rid : string) (st : State) :
  update_report_body (Some report) acc rid st
  = match produce report (now (world st)) rid with
    | Return i => (Return (acc ++ [i]), st)
    | Raise e => (Raise e, st)
    end.
Proof.
  unfold update_report_body, produce, find_by. unfold_m. simpl.
  destruct (find _ (report_descriptions report)) as [rd|]; simpl; [|reflexivity].
  destruct (callable rd (now (world st))); reflexivity.
Qed.

(** When every producer returns, the loop gathers one interval per r_id,
    in order, and leaves the state alone. *)
Lemma update_report_loop_all (report : Report) (rids : list string) (st : State) :
  Forall (fun rid => produces report (now (world st)) rid = true) rids ->
  forall acc,
    for_each rids (update_report_body (Some report)) acc st
    = (Return (acc ++ flat_map (interval_of report (now (world st))) rids), st).
Proof.
  induction 1 as [|rid rids Hrid _ IH]; intro acc.
  - simpl. rewrite app_nil_r. reflexivity.
  - cbn [for_each flat_map]. unfold bind. rewrite update_report_body_run.
    unfold produces, interval_of in *.
    destruct (produce report (now (world st)) rid) as [i|e]; [|discriminate].
    rewrite IH, <- app_assoc. reflexivity.
Qed.

(** The first producer that raises ends the loop with its exception. *)
Lemma update_report_loop_raises (report : Report) (before : list string)
  (rid : string) (after : list string) (e : exn) (st : State) :
  Forall (fun rid => produces report (now (world st)) rid = true) before ->
  produce report (now (world st)) rid = Raise e ->
  forall acc,
    for_each (before ++ rid :: after) (update_report_body (Some report)) acc st
    = (Raise e, st).
Proof.
  intros Hbefore Hrid. induction Hbefore as [|r before Hr _ IH]; intro acc.
  - cbn [app for_each]. unfold bind. rewrite update_report_body_run, Hrid. reflexivity.
  - cbn [app for_each]. unfold bind. rewrite update_report_body_run.
    unfold produces in Hr.
    destruct (produce report (now (world st)) r) as [i|e']; [|discriminate].
    apply IH.
Qed.

(** C8, as amended. A tick is all or nothing. When the producer of an
    accepted r_id raises (or the r_id has no descriptor), the exception
    leaves [update_report]: the values gathered before it are dropped, no
    report is enqueued and the state is as before the tick. When every
    producer returns, one report is enqueued, with one interval per
    accepted r_id. *)
Theorem update_report_all_or_nothing (st : State) (request_id : string)
  (request : ReportRequest) (report : Report) :
  let t := now (world st) in
  find_by (report_requests (self st))
          (fun q => String.eqb (rr_report_request_id q) request_id) = Some request ->
  find_by (reports (self st))
          (fun r => String.eqb (report_specifier_id r) (rr_report_specifier_id request))
    = Some report ->
  (forall before rid after e,
      rr_r_ids request = before ++ rid :: after ->
      Forall (fun r => produces report t r = true) before ->
      produce report t rid = Raise e ->
      update_report request_id st = (Raise e, st))
  /\ (Forall (fun r => produces report t r = true) (rr_r_ids request) ->
      exists st',
        update_report request_id st = (Return tt, st')
        /\ pending_reports (self st')
           = pending_reports (self st)
               ++ [{| created_date_time := None;
                      report_name := report_name report;
                      report_specifier_id := report_specifier_id report;
                      report_descriptions := [];
                      report_request_id := Some request_id;
                      intervals := flat_map (interval_of report t) (rr_r_ids request) |}]
        /\ List.length (flat_map (interval_of report t) (rr_r_ids request))
           = List.length (rr_r_ids request)).
Proof.
  intros t Hrequest Hreport. subst t. split.
  - intros before rid after e Hrids Hbefore Hrid.
    unfold update_report. unfold get_self at 1. unfold bind at 1. cbn [fst snd].
    rewrite Hrequest, Hreport, Hrids.
    apply bind_raises. apply update_report_loop_raises; assumption.
  - intro Hall.
    unfold update_report. unfold get_self at 1. unfold bind at 1. cbn [fst snd].
    rewrite Hrequest, Hreport.
    rewrite (bind_returns _ _ _ _ _ (update_report_loop_all report _ st Hall [])).
    unfold_m. simpl. eexists. split; [reflexivity|]. split; [reflexivity|].
    clear Hrequest. induction Hall as [|r rids Hr _ IH]; [reflexivity|].
    cbn [flat_map]. rewrite length_app. unfold produces, interval_of in *.
    destruct (produce report (now (world st)) r); [|discriminate].
    simpl. rewrite IH. reflexivity.
Qed.

(** [cancel_report] does nothing, and so one turn of the queue worker,
    whatever the acknowledgement says, leaves the subscriptions and the
    scheduled jobs as they were. *)
Lemma cancel_report_keeps_subscription :
  (forall (payload : CancelReport) (st : State),
      cancel_report payload st = (Return tt, st))
  /\ (forall (previous : option Payload) (report : Report) (rest : list Report)
             (st : State),
         let st' := snd (_report_queue_worker_turn previous report rest st) in
         report_requests (self st') = report_requests (self st)
         /\ scheduler (self st') = scheduler (self st)).
Proof.
  split; [reflexivity|].
  intros previous report rest st.
  unfold _report_queue_worker_turn, cancel_report. unfold_m. simpl.
  match goal with
  | |- context [_perform_request ?sv ?m ?s0] =>
      pose proof (perform_request_self sv m s0) as Hself;
      destruct (_perform_request sv m s0) as [[[response_type payload]|e] st1]
  end; simpl in *.
  - destruct (p_cancel_report payload); simpl; rewrite Hself; auto.
  - destruct previous as [payload|]; simpl; [|rewrite Hself; auto].
    destruct (p_cancel_report payload); simpl; rewrite Hself; auto.
Qed.
End Delivery.

(** ** Declaring reports *)

Section Declaration.

Context {collaborators : Collaborators}.

Lemma append_description_in (is_report : Report -> bool) (d : ReportDescription)
  (l : list Report) (r0 : Report) :
  find is_report l = Some r0 ->
  exists r, In r (append_description is_report d l)
            /\ In d (report_descriptions r)
            /\ report_specifier_id r = report_specifier_id r0.
Proof.
  induction l as [|r l IH]; [discriminate|].
  simpl. destruct (is_report r).
  - intros [= <-]. eexists. split; [left; reflexivity|]. simpl.
    split; [apply in_or_app; right; left; reflexivity|reflexivity].
  - intro H. destruct (IH H) as (r' & Hin & Hd). exists r'. split; [right|]; assumption.
Qed.

Lemma find_last {A} (p : A -> bool) (l : list A) (x : A) :
  find p l = None -> p x = true -> find p (l ++ [x]) = Some x.
Proof.
  intros Hl Hx. induction l as [|y l IH]; simpl in *.
  - rewrite Hx. reflexivity.
  - destruct (p y); [discriminate|auto].
Qed.

(** What a call of [add_report] leaves, with arguments from the
    vocabularies and a unit, if any, that the measurement has or accepts:
    the scale written into the object of the measurement, for every
    description that holds it, and the description [d] appended to the
    report looked for, which is [fresh], appended to the reports, when
    there was none. *)
Lemma add_report_run (a : AddReport) (st : State) :
  valid_vocabulary a = true ->
  unit_conflict a = false ->
  exists st' d fresh,
    add_report a st = (Return tt, st')
    /\ callable d = ar_callable a
    /\ sampling_rate d = stored_rate (ar_sampling_rate a)
    /\ measurement d = with_si_scale_code (ar_scale a) (item_base a)
    /\ measurement_id d = item_base_id a (ids (world st))
    /\ report_name fresh = ar_report_name a
    /\ report_descriptions fresh = []
    /\ report_for a fresh = true
    /\ reports (self st')
       = append_description (report_for a) d
           (match find (report_for a)
                       (map (rescale_report (measurement_id d) (ar_scale a))
                            (reports (self st))) with
            | Some _ => map (rescale_report (measurement_id d) (ar_scale a))
                            (reports (self st))
            | None => map (rescale_report (measurement_id d) (ar_scale a))
                          (reports (self st)) ++ [fresh]
            end)
    /\ self st' = set_reports (reports (self st')) (self st).
Proof.
  unfold valid_vocabulary. rewrite !andb_true_iff.
  intros [[[Hname Hreading] Htype] Hscale] Hconflict.
  unfold add_report.
  rewrite <- negb_orb, Hname. cbn [negb].
  rewrite <- negb_orb, Hreading. cbn [negb].
  rewrite <- negb_orb, Htype. cbn [negb].
  rewrite Hscale. cbn [negb].
  unfold get_world at 1. unfold bind at 1. cbn [fst snd]. cbv zeta.
  match goal with
  | |- context [bind ?m _] => assert (Hunit : m = ret tt)
  end.
  { unfold unit_conflict in Hconflict.
    destruct (ar_unit a); [rewrite Hconflict|]; reflexivity. }
  rewrite Hunit. clear Hunit.
  rewrite (bind_returns (ret tt) _ st st tt eq_refl).
  rewrite (bind_returns (modify_self _) _ st _ tt eq_refl).
  unfold get_self at 1. unfold bind at 1. cbn [fst snd self].
  change (fun r : Report =>
            if truthy (ar_report_specifier_id a)
            then (String.eqb (report_name r) (ar_report_name a)
                  && opt_str_eqb (Some (report_specifier_id r)) (ar_report_specifier_id a))%bool
            else String.eqb (report_name r) (ar_report_name a))
    with (report_for a).
  unfold find_by, write_si_scale_code. cbn [reports set_reports].
  destruct (find (report_for a) _) as [r0|] eqn:Hfind.
  - unfold_m. simpl.
    eexists.
    match goal with
    | |- context [append_description (report_for a) ?d0 _] => exists d0
    end.
    exists {| created_date_time := None; report_name := ar_report_name a;
              report_specifier_id :=
                match ar_report_specifier_id a with Some s => s | None => "" end;
              report_descriptions := []; report_request_id := None; intervals := [] |}.
    split; [reflexivity|]. simpl.
    match goal with
    | |- _ /\ _ /\ _ /\ _ /\ _ /\ _ /\ _ /\ ?R /\ _ =>
        assert (Hreports : R) by (simpl; rewrite Hfind; reflexivity)
    end.
    repeat (split; [reflexivity|]). split; [|split; [exact Hreports|reflexivity]].
    unfold report_for. simpl. rewrite String.eqb_refl.
    destruct (ar_report_specifier_id a) as [s|]; simpl; [|reflexivity].
    destruct (negb (String.eqb s "")); simpl; [apply String.eqb_refl|reflexivity].
  - assert (Hnew : forall s1, exists s2 specifier_id,
               (match ar_report_specifier_id a with
                | Some s => if String.eqb s "" then generate_id else ret s
                | None => generate_id
                end) s1 = (Return specifier_id, s2)
               /\ self s2 = self s1
               /\ (truthy (ar_report_specifier_id a) = true ->
                   ar_report_specifier_id a = Some specifier_id)).
    { intro s1. destruct (ar_report_specifier_id a) as [s|]; simpl.
      - destruct (String.eqb s "") eqn:Hs; unfold_m; simpl;
          do 2 eexists; (split; [reflexivity|]); simpl; split; auto; discriminate.
      - unfold_m; simpl. do 2 eexists. split; [reflexivity|]. simpl.
        split; auto. discriminate. }
    match goal with
    | |- context [bind (bind _ _) _ ?s1] =>
        destruct (Hnew s1) as (s2 & specifier_id & Hspec & Hself2 & Hid)
    end.
    rewrite bind_assoc, (bind_returns _ _ _ _ _ Hspec).
    unfold_m. simpl. rewrite Hself2. simpl.
    eexists.
    match goal with
    | |- context [append_description (report_for a) ?d0 (_ ++ [?new])] =>
        exists d0, new
    end.
    split; [reflexivity|]. simpl.
    match goal with
    | |- _ /\ _ /\ _ /\ _ /\ _ /\ _ /\ _ /\ ?R /\ _ =>
        assert (Hreports : R) by (simpl; rewrite Hfind; reflexivity)
    end.
    repeat (split; [reflexivity|]). split; [|split; [exact Hreports|reflexivity]].
    unfold report_for. simpl. rewrite String.eqb_refl.
    destruct (truthy (ar_report_specifier_id a)) eqn:Htruthy; [|reflexivity].
    rewrite (Hid eq_refl). simpl. apply String.eqb_refl.
Qed.

(** A conflicting unit ends [add_report] with the [TypeError] of the
    subscript, before anything is written. *)
Lemma add_report_conflict (a : AddReport) (st : State) :
  valid_vocabulary a = true ->
  unit_conflict a = true ->
  add_report a st = (Raise (TypeError "'Measurement' object is not subscriptable"), st).
Proof.
  unfold valid_vocabulary. rewrite !andb_true_iff.
  intros [[[Hname Hreading] Htype] Hscale] Hconflict.
  unfold add_report.
  rewrite <- negb_orb, Hname. cbn [negb].
  rewrite <- negb_orb, Hreading. cbn [negb].
  rewrite <- negb_orb, Htype. cbn [negb].
  rewrite Hscale. cbn [negb].
  unfold get_world at 1. unfold bind at 1. cbn [fst snd]. cbv zeta.
  unfold unit_conflict in Hconflict.
  destruct (ar_unit a) as [unit|]; [|discriminate].
  rewrite Hconflict. reflexivity.
Qed.

(** C5, as amended. With arguments from the vocabularies and a unit, if one
    is given, that the measurement has or accepts, [add_report] succeeds
    for every sampling rate, whether or not its [min_period] is at most its
    [max_period], and the description it stores carries the sampling rate
    as given (the default 10 s to 24 h when none is given, the same period
    twice for a single duration). *)
Theorem add_report_keeps_sampling_rate (a : AddReport) (st : State) :
  valid_vocabulary a = true ->
  unit_conflict a = false ->
  exists st' r d,
    add_report a st = (Return tt, st')
    /\ In r (reports (self st'))
    /\ In d (report_descriptions r)
    /\ callable d = ar_callable a
    /\ sampling_rate d = stored_rate (ar_sampling_rate a)
    /\ (forall sr, ar_sampling_rate a = SamplingRateObject sr -> sampling_rate d = sr).
Proof.
  intros Hvalid Hconflict.
  destruct (add_report_run a st Hvalid Hconflict)
    as (st' & d & fresh & Hrun & Hcallable & Hrate & _ & _ & _ & _ & Hfresh
        & Hreports & _).
  assert (Hin : exists r, In r (reports (self st')) /\ In d (report_descriptions r)).
  { rewrite Hreports.
    destruct (find (report_for a) _) as [r0|] eqn:Hfind.
    - destruct (append_description_in (report_for a) d _ r0 Hfind) as (r & Hr & Hd & _).
      exists r. split; assumption.
    - pose proof (find_last (report_for a) _ fresh Hfind Hfresh) as Hlast.
      destruct (append_description_in (report_for a) d _ fresh Hlast)
        as (r & Hr & Hd & _).
      exists r. split; assumption. }
  destruct Hin as (r & Hr & Hd).
  exists st', r, d. repeat split; try assumption.
  intros sr Hsr. rewrite Hrate, Hsr. reflexivity.
Qed.
End Declaration.

(** ** Full-auto mode: the cadence of the poll job *)

(** From one second to below one day the poll job is scheduled in the band
    of the negotiated poll frequency [f]: every [f] seconds below a minute,
    every [f/60] minutes below an hour, every [f/3600] hours below a day.
    (Below one second the step of the seconds is 0, which the scheduler of
    the scenario rejects.) *)
Lemma run_below_one_day_schedules (f : timedelta) (depth : nat) :
  td_seconds 1 <= f < td_seconds 86400 ->
  (0 < depth)%nat ->
  let r := run (collaborators := Scenario.vtn (Some f)) depth Scenario.starting in
  fst r = Return tt
  /\ running (scheduler (self (snd r))) = true
  /\ jobs (scheduler (self (snd r)))
     = [{| func := JobPoll;
           trigger :=
             if f <? td_seconds 60 then
               {| second := CronStep (Some 0) (td_seconds_attr f);
                  minute := CronAny; hour := CronAny |}
             else if f <? td_seconds 3600 then
               {| second := CronAt 0;
                  minute := CronStep None (Z.quot f (td_seconds 60));
                  hour := CronAny |}
             else
               {| second := CronAt 0; minute := CronAt 0;
                  hour := CronStep None (Z.quot f (td_seconds 3600)) |} |}].
Proof.
  intros Hf Hdepth. destruct depth as [|depth]; [lia|].
  unfold td_seconds in Hf.
  cbv -[Z.ltb Z.leb Z.quot Z.div Z.modulo Z.lt].
  destruct (Z.ltb_spec f 60000000);
    [|destruct (Z.ltb_spec f 3600000000);
      [|destruct (Z.ltb_spec f 86400000000); [|lia]]];
    rewrite !(proj2 (Z.leb_le _ _)) by (Z.to_euclidean_division_equations; lia);
    repeat split.
Qed.

(** C6, on the code. Against a VTN that registers the VEN with the poll
    frequency [f] and has nothing to deliver: for every [f] of one day or
    more, [run] registers, polls once, and ends with no poll job scheduled
    and the scheduler not started. Above one day it logs the warning and
    returns before [add_job]; at exactly one day no branch binds the cron
    fields and [add_job] fails on the unbound [cron_second]. *)
Theorem run_from_one_day_schedules_nothing (f : timedelta) (depth : nat) :
  td_seconds 86400 <= f ->
  (0 < depth)%nat ->
  let r := run (collaborators := Scenario.vtn (Some f)) depth Scenario.starting in
  ven_id (self (snd r)) = Some "ven123"
  /\ poll_frequency (self (snd r)) = Some f
  /\ polls (snd r) = 1%nat
  /\ jobs (scheduler (self (snd r))) = []
  /\ running (scheduler (self (snd r))) = false
  /\ (f = td_seconds 86400 -> fst r = Raise (UnboundLocalError "cron_second"))
  /\ (td_seconds 86400 < f ->
      fst r = Return tt
      /\ In (Log WARNING "Polling with intervals of more than 24 hours is not supported. Will use 24 hours as the logging interval.")
            (trace (world (snd r)))).
Proof.
  intros Hf Hdepth. destruct depth as [|depth]; [lia|].
  unfold td_seconds in Hf.
  cbv -[Z.ltb Z.leb Z.quot Z.div Z.modulo Z.lt In].
  destruct (Z.ltb_spec f 60000000); [lia|].
  destruct (Z.ltb_spec f 3600000000); [lia|].
  destruct (Z.ltb_spec f 86400000000); [lia|].
  destruct (Z.ltb_spec 86400000000 f).
  - cbv -[Z.lt In]. repeat split; try reflexivity; try lia.
    simpl. tauto.
  - cbv -[Z.lt In]. repeat split; try reflexivity; try lia.
Qed.

(** ** Handlers *)

Section Handlers.

Context {collaborators : Collaborators}.

(** C10, as amended. The client has no default for [on_event]: when the
    application has not set it, [_on_event] raises [AttributeError] before
    any handler runs and sends no created-event message; when it is set,
    it is called exactly once. On the service, a handler that gives [None]
    is answered with an empty event distribution, and [created_event]
    gives back what the registered [on_created_event] handler gives. *)
Theorem handlers_without_defaults :
  (forall (message : Payload) (st : State),
      on_event (self st) = None ->
      exists st',
        _on_event message st = (Raise (AttributeError "on_event"), st')
        /\ self st' = self st
        /\ on_event_calls st' = on_event_calls st
        /\ count (is_post "EiEvent") (trace (world st'))
           = count (is_post "EiEvent") (trace (world st)))
  /\ (forall (message : Payload) (st : State) (handler : Payload -> outcome string),
         on_event (self st) = Some handler ->
         on_event_calls (snd (_on_event message st)) = S (on_event_calls st))
  /\ (forall (svc : EventService.t) (payload : Payload) (ven : string)
             (handler : string -> outcome EventService.value),
         p_ven_id payload = Some ven ->
         EventService.registered_on_request_event svc = Some handler ->
         handler ven = Return EventService.PyNone ->
         EventService.request_event svc payload
         = (Return ("oadrDistributeEvent", []), []))
  /\ (forall (svc : EventService.t) (payload : Payload)
             (handler : Payload -> outcome EventService.value),
         EventService.registered_on_created_event svc = Some handler ->
         EventService.created_event svc payload = (handler payload, [])).
Proof.
  split; [|split; [|split]].
  - intros message st Hnone.
    unfold _on_event. unfold_m. cbn -[count]. rewrite Hnone. cbn -[count].
    eexists. split; [reflexivity|]. cbn -[count].
    unfold on_event_calls. cbn -[count]. rewrite !count_app.
    unfold count. simpl. repeat split; lia.
  - intros message st handler Hsome.
    exact (on_event_called_once message st handler Hsome).
  - intros svc payload ven handler Hven Hreg Hret.
    unfold EventService.request_event, EventService.lookup_on_request_event.
    rewrite Hven, Hreg, Hret. reflexivity.
  - intros svc payload handler Hreg.
    unfold EventService.created_event, EventService.lookup_on_created_event.
    rewrite Hreg. reflexivity.
Qed.

End Handlers.

(** * The statements on the scenario *)

(** C2 on three exchanges: a 503, a refused connection, and a body that
    cannot be parsed. *)
Lemma perform_request_failures_witness :
  fst (_perform_request (collaborators := Scenario.vtn None) "OadrPoll"
         (oadrPoll (Some "ven123"))
         (Scenario.polling [Responded 503 "Service Unavailable"]))
    = Return (None, empty_payload)
  /\ fst (_perform_request (collaborators := Scenario.vtn None) "OadrPoll"
            (oadrPoll (Some "ven123"))
            (Scenario.polling [ClientConnectorError "Connection refused"]))
     = Return (None, empty_payload)
  /\ fst (_perform_request (collaborators := Scenario.vtn None) "OadrPoll"
            (oadrPoll (Some "ven123"))
            (Scenario.polling [Responded 200 "<html>"]))
     = Raise (Exception "The message could not be parsed or validated").
Proof.
  destruct (perform_request_failures (collaborators := Scenario.vtn None)
              "OadrPoll" (oadrPoll (Some "ven123"))
              (Scenario.polling [Responded 503 "Service Unavailable"]))
    as (Hstatus & _ & _).
  destruct (Hstatus 503 "Service Unavailable" [] eq_refl ltac:(discriminate))
    as (s1 & H1 & _).
  destruct (perform_request_failures (collaborators := Scenario.vtn None)
              "OadrPoll" (oadrPoll (Some "ven123"))
              (Scenario.polling [ClientConnectorError "Connection refused"]))
    as (_ & Hconnect & _).
  destruct (Hconnect "Connection refused" [] eq_refl) as (s2 & H2 & _).
  destruct (perform_request_failures (collaborators := Scenario.vtn None)
              "OadrPoll" (oadrPoll (Some "ven123"))
              (Scenario.polling [Responded 200 "<html>"]))
    as (_ & _ & Hparse).
  destruct (Hparse "<html>" [] (Exception "The message could not be parsed or validated")
              eq_refl eq_refl) as (s3 & H3 & _).
  rewrite H1, H2, H3. repeat split.
Defined.

(** C4 on a registration that succeeds without a poll frequency, then a
    second one that is refused with code 403. *)
Lemma create_party_registration_atomic_witness :
  (ven_id (self (snd (create_party_registration (collaborators := Scenario.vtn None)
                        default_registration Scenario.registering)))
   = Some "ven123"
   /\ poll_frequency
        (self (snd (create_party_registration (collaborators := Scenario.vtn None)
                      default_registration Scenario.registering)))
      = Some (td_seconds 10))
  /\ (ven_id
        (self (snd (create_party_registration (collaborators := Scenario.vtn None)
                      default_registration
                      (snd (create_party_registration
                              (collaborators := Scenario.vtn None)
                              default_registration Scenario.registering)))))
      = Some "ven123"
      /\ poll_frequency
           (self (snd (create_party_registration (collaborators := Scenario.vtn None)
                         default_registration
                         (snd (create_party_registration
                                 (collaborators := Scenario.vtn None)
                                 default_registration Scenario.registering)))))
         = Some (td_seconds 10)).
Proof.
  split.
  - destruct (create_party_registration_atomic (collaborators := Scenario.vtn None)
                default_registration Scenario.registering) as (Hok & _).
    destruct (Hok "registered" [Responded 200 "refused"] "oadrCreatedPartyRegistration"
                (Scenario.registered None) Scenario.ok "ven123"
                eq_refl eq_refl eq_refl eq_refl eq_refl) as (_ & Hid & Hfreq).
    split; [exact Hid|exact Hfreq].
  - destruct (create_party_registration_atomic (collaborators := Scenario.vtn None)
                default_registration
                (snd (create_party_registration (collaborators := Scenario.vtn None)
                        default_registration Scenario.registering)))
      as (_ & _ & Hrefused & _).
    exact (Hrefused "refused" [] "oadrCreatedPartyRegistration"
             (Scenario.with_response Scenario.forbidden) Scenario.forbidden
             eq_refl eq_refl eq_refl ltac:(discriminate)).
Defined.

(** C3 on the code, on the script [event, report update, no-content]: the
    event is handled and acknowledged, the report update raises, and the
    no-content reply is never asked for. *)
Lemma poll_update_report_ends_loop_witness :
  fst (_poll (collaborators := Scenario.vtn None) 10
         (Scenario.polling [Responded 200 "event"; Responded 200 "update";
                            Responded 200 "nothing"]))
    = Raise (AttributeError "_on_report")
  /\ polls (snd (_poll (collaborators := Scenario.vtn None) 10
                   (Scenario.polling [Responded 200 "event"; Responded 200 "update";
                                      Responded 200 "nothing"])))
     = 2%nat
  /\ network (world (snd (_poll (collaborators := Scenario.vtn None) 10
                            (Scenario.polling [Responded 200 "event";
                                               Responded 200 "update";
                                               Responded 200 "nothing"]))))
             "OadrPoll"
     = [Responded 200 "nothing"].
Proof.
  pose (s0 := Scenario.polling [Responded 200 "event"; Responded 200 "update";
                                Responded 200 "nothing"]).
  pose (s1 := snd (dispatch (collaborators := Scenario.vtn None)
                     "oadrDistributeEvent" Scenario.distribute_event
                     (polled (collaborators := Scenario.vtn None) s0))).
  apply (poll_update_report_ends_loop (collaborators := Scenario.vtn None)
           [("event", ("oadrDistributeEvent", Scenario.distribute_event))]
           "update" "nothing" (Scenario.with_response Scenario.ok)
           (Scenario.with_response Scenario.ok) [] 10%nat s0
           ltac:(repeat constructor; discriminate) eq_refl eq_refl eq_refl).
  - apply handled_cons with (st' := s1); [vm_compute; reflexivity|].
    apply handled_nil.
  - reflexivity.
  - simpl. lia.
Defined.

(** C1 as stated fails: the VTN asks for R1 every 10 s, inside R1's range
    of 1 s to 60 s, but as a current in ampere where the VEN offers a
    voltage; R1 has a descriptor and is not accepted. *)
Lemma create_report_in_range_not_accepted :
  (exists rd,
      descriptor Scenario.report_S1 (Scenario.as_current "R1") = Some rd
      /\ min_period (sampling_rate rd) <= td_seconds 10 <= max_period (sampling_rate rd))
  /\ fst (create_report (collaborators := Scenario.vtn None)
            (Scenario.request (Some (td_seconds 10))
               [Scenario.as_current "R1"; Scenario.plain "R2"])
            Scenario.negotiating)
     = Return None
  /\ map rr_r_ids
         (report_requests
            (self (snd (create_report (collaborators := Scenario.vtn None)
                          (Scenario.request (Some (td_seconds 10))
                             [Scenario.as_current "R1"; Scenario.plain "R2"])
                          Scenario.negotiating))))
     = [["R2"]].
Proof.
  split; [|split; vm_compute; reflexivity].
  eexists. split; [reflexivity|]. vm_compute. split; discriminate.
Qed.

(** C1, amended, on the scenario: at 10 s R2 is accepted, R1 asked as a
    current and the unknown R9 are not; without a granularity the first
    descriptor's 60 s become the cadence. *)
Lemma create_report_accepts_in_range_witness :
  (exists st',
      create_report (collaborators := Scenario.vtn None)
        (Scenario.request (Some (td_seconds 10))
           [Scenario.as_current "R1"; Scenario.plain "R2"; Scenario.plain "R9"])
        Scenario.negotiating = (Return None, st')
      /\ map rr_r_ids (report_requests (self st')) = [["R2"]])
  /\ (exists st',
         create_report (collaborators := Scenario.vtn None)
           (Scenario.request None [Scenario.plain "R9"; Scenario.plain "R1"])
           Scenario.negotiating = (Return None, st')
         /\ map rr_granularity (report_requests (self st')) = [Some (td_seconds 60)]).
Proof.
  split.
  - destruct (create_report_accepts_in_range (collaborators := Scenario.vtn None)
                Scenario.negotiating
                (Scenario.request (Some (td_seconds 10))
                   [Scenario.as_current "R1"; Scenario.plain "R2"; Scenario.plain "R9"])
                Scenario.report_S1 eq_refl eq_refl) as [Hspecified _].
    destruct (Hspecified (td_seconds 10)
                {| second := CronStep None 10; minute := CronAny; hour := CronAny |}
                eq_refl eq_refl eq_refl) as (st' & Hrun & Hrequests & _).
    exists st'. split; [exact Hrun|]. rewrite Hrequests. reflexivity.
  - destruct (create_report_accepts_in_range (collaborators := Scenario.vtn None)
                Scenario.negotiating
                (Scenario.request None [Scenario.plain "R9"; Scenario.plain "R1"])
                Scenario.report_S1 eq_refl eq_refl) as [_ Hunspecified].
    destruct (Hunspecified [Scenario.plain "R9"] (Scenario.plain "R1") []
                (Scenario.describe "R1" (td_seconds 1) (td_seconds 60)
                   (fun _ => Raise (Exception "sensor not available")))
                {| second := CronAt 0; minute := CronStep None 1; hour := CronAny |}
                eq_refl eq_refl
                ltac:(repeat constructor) eq_refl eq_refl eq_refl)
      as (st' & others & Hrun & Hrequests).
    exists st'. split; [exact Hrun|]. rewrite Hrequests. reflexivity.
Defined.

(** C7 as stated fails. A granularity of 0 s is outside the range of R1 and
    of R2, no r_id is accepted, and the trigger of the cadence has a step
    of 0, which the scheduler rejects: [add_job] raises, and neither a job
    nor a [ReportRequest] is added. And at 10 s, with a report interval,
    the accepted R2 ends [create_report] with [KeyError]: again neither a
    job nor a [ReportRequest]. *)
Lemma create_report_schedules_nothing :
  (fst (create_report (collaborators := Scenario.vtn None)
          (Scenario.request (Some (td_seconds 0)) [Scenario.plain "R1"; Scenario.plain "R2"])
          Scenario.negotiating)
   = Raise (ValueError "Error validating expression")
   /\ self (snd (create_report (collaborators := Scenario.vtn None)
                   (Scenario.request (Some (td_seconds 0))
                      [Scenario.plain "R1"; Scenario.plain "R2"])
                   Scenario.negotiating))
      = Scenario.ven_reporting [] [] [])
  /\ (fst (create_report (collaborators := Scenario.vtn None)
             (Cases.ask "request1" (td_seconds 10) (Some Cases.one_hour) ["R2"])
             Scenario.negotiating)
      = Raise (KeyError "dtstart")
      /\ self (snd (create_report (collaborators := Scenario.vtn None)
                      (Cases.ask "request1" (td_seconds 10) (Some Cases.one_hour) ["R2"])
                      Scenario.negotiating))
         = Scenario.ven_reporting [] [] []).
Proof. repeat split; vm_compute; reflexivity. Qed.

(** C7, amended, on the scenario: 5000 s is outside the range of R1 and of
    R2, and the trigger "every hour" is one the scheduler accepts; at 0 s
    the scheduler rejects the trigger. *)
Lemma create_report_schedules_empty_witness :
  (exists st',
      create_report (collaborators := Scenario.vtn None)
        (Scenario.request (Some (td_seconds 5000))
           [Scenario.plain "R1"; Scenario.plain "R2"])
        Scenario.negotiating = (Return None, st')
      /\ jobs (scheduler (self st')) = [Scenario.job_request1 (td_seconds 5000)]
      /\ map rr_r_ids (report_requests (self st')) = [[]])
  /\ (exists st',
         create_report (collaborators := Scenario.vtn None)
           (Scenario.request (Some (td_seconds 0))
              [Scenario.plain "R1"; Scenario.plain "R2"])
           Scenario.negotiating
         = (Raise (ValueError "Error validating expression"), st')
         /\ self st' = Scenario.ven_reporting [] [] []).
Proof.
  split.
  - destruct (create_report_schedules_empty (collaborators := Scenario.vtn None)
                Scenario.negotiating
                (Scenario.request (Some (td_seconds 5000))
                   [Scenario.plain "R1"; Scenario.plain "R2"])
                Scenario.report_S1 (td_seconds 5000)
                {| second := CronAt 0; minute := CronAt 0; hour := CronStep None 1 |}
                eq_refl eq_refl eq_refl) as (Haccepted & _).
    destruct (Haccepted eq_refl) as (_ & _ & Houtside).
    destruct Houtside as (st' & Hrun & Hjobs & Hrequests).
    + intros rd [<-|[<-|[]]]; vm_compute; intros [_ H]; apply H; reflexivity.
    + exists st'. split; [exact Hrun|]. rewrite Hjobs, Hrequests. split; reflexivity.
  - destruct (create_report_schedules_empty (collaborators := Scenario.vtn None)
                Scenario.negotiating
                (Scenario.request (Some (td_seconds 0))
                   [Scenario.plain "R1"; Scenario.plain "R2"])
                Scenario.report_S1 (td_seconds 0)
                {| second := CronStep None 0; minute := CronAny; hour := CronAny |}
                eq_refl eq_refl eq_refl) as (_ & Hrejected).
    exact (Hrejected (ValueError "Error validating expression") eq_refl
             ltac:(repeat constructor)).
Defined.

(** C5 as stated fails: a sampling rate of 60 s to 1 s is not rejected, and
    the stored description has its [min_period] above its [max_period]. *)
Lemma add_report_inverted_rate_accepted :
  fst (add_report (collaborators := Scenario.vtn None)
         (Scenario.declare (SamplingRateObject Scenario.inverted_rate))
         Scenario.declaring)
    = Return tt
  /\ map (fun r => map sampling_rate (report_descriptions r))
         (reports (self (snd (add_report (collaborators := Scenario.vtn None)
                                (Scenario.declare
                                   (SamplingRateObject Scenario.inverted_rate))
                                Scenario.declaring))))
     = [[Scenario.inverted_rate]]
  /\ max_period Scenario.inverted_rate < min_period Scenario.inverted_rate.
Proof. repeat split; vm_compute; reflexivity. Qed.

(** C5, amended, on the same declaration. *)
Lemma add_report_keeps_sampling_rate_witness :
  valid_vocabulary (collaborators := Scenario.vtn None)
    (Scenario.declare (SamplingRateObject Scenario.inverted_rate)) = true
  /\ exists st' r d,
       add_report (collaborators := Scenario.vtn None)
         (Scenario.declare (SamplingRateObject Scenario.inverted_rate))
         Scenario.declaring = (Return tt, st')
       /\ In r (reports (self st'))
       /\ In d (report_descriptions r)
       /\ sampling_rate d = Scenario.inverted_rate.
Proof.
  split; [reflexivity|].
  destruct (add_report_keeps_sampling_rate (collaborators := Scenario.vtn None)
              (Scenario.declare (SamplingRateObject Scenario.inverted_rate))
              Scenario.declaring eq_refl eq_refl)
    as (st' & r & d & Hrun & Hr & Hd & _ & Hrate & _).
  exists st', r, d. repeat split; assumption.
Defined.

(** C6 on the code, at a poll frequency of exactly one day and of two days:
    no poll job either way. *)
Lemma run_from_one_day_schedules_nothing_witness :
  (td_seconds 86400 <= td_seconds 86400
   /\ jobs (scheduler (self (snd (run (collaborators :=
                                         Scenario.vtn (Some (td_seconds 86400)))
                                      5 Scenario.starting)))) = []
   /\ fst (run (collaborators := Scenario.vtn (Some (td_seconds 86400)))
             5 Scenario.starting)
      = Raise (UnboundLocalError "cron_second"))
  /\ (td_seconds 86400 <= td_seconds 172800
      /\ jobs (scheduler (self (snd (run (collaborators :=
                                            Scenario.vtn (Some (td_seconds 172800)))
                                         5 Scenario.starting)))) = []
      /\ fst (run (collaborators := Scenario.vtn (Some (td_seconds 172800)))
                5 Scenario.starting)
         = Return tt).
Proof.
  split.
  - destruct (run_from_one_day_schedules_nothing (td_seconds 86400) 5
                ltac:(vm_compute; discriminate) ltac:(lia))
      as (_ & _ & _ & Hjobs & _ & Hday & _).
    split; [vm_compute; discriminate|]. split; [exact Hjobs|exact (Hday eq_refl)].
  - destruct (run_from_one_day_schedules_nothing (td_seconds 172800) 5
                ltac:(vm_compute; discriminate) ltac:(lia))
      as (_ & _ & _ & Hjobs & _ & _ & Hmore).
    split; [vm_compute; discriminate|]. split; [exact Hjobs|].
    exact (proj1 (Hmore eq_refl)).
Defined.

(** C8 as stated fails: R1's producer raises, R2's producer would give 230,
    and the tick enqueues nothing. *)
Lemma update_report_failure_drops_tick :
  rr_r_ids (Scenario.subscription ["R1"; "R2"]) = ["R1"; "R2"]
  /\ produce Scenario.report_S1 (now (world (Scenario.ticking ["R1"; "R2"]))) "R1"
     = Raise (Exception "sensor not available")
  /\ produces Scenario.report_S1 (now (world (Scenario.ticking ["R1"; "R2"]))) "R2" = true
  /\ fst (update_report "request1" (Scenario.ticking ["R1"; "R2"]))
     = Raise (Exception "sensor not available")
  /\ pending_reports (self (snd (update_report "request1"
                                   (Scenario.ticking ["R1"; "R2"])))) = [].
Proof. repeat split; vm_compute; reflexivity. Qed.

(** C8, amended, on the scenario: the tick for R1 and R2 is dropped, the
    tick for R2 alone enqueues one report with one interval. *)
Lemma update_report_all_or_nothing_witness :
  update_report "request1" (Scenario.ticking ["R1"; "R2"])
    = (Raise (Exception "sensor not available"), Scenario.ticking ["R1"; "R2"])
  /\ exists st',
       update_report "request1" (Scenario.ticking ["R2"]) = (Return tt, st')
       /\ map (fun r => map (fun i => (rp_r_id (report_payload i),
                                       rp_value (report_payload i)))
                            (intervals r))
              (pending_reports (self st'))
          = [[("R2", 230)]].
Proof.
  split.
  - destruct (update_report_all_or_nothing (Scenario.ticking ["R1"; "R2"]) "request1"
                (Scenario.subscription ["R1"; "R2"]) Scenario.report_S1
                eq_refl eq_refl) as [Hraises _].
    exact (Hraises [] "R1" ["R2"] (Exception "sensor not available")
             eq_refl (Forall_nil _) eq_refl).
  - destruct (update_report_all_or_nothing (Scenario.ticking ["R2"]) "request1"
                (Scenario.subscription ["R2"]) Scenario.report_S1
                eq_refl eq_refl) as [_ Hall].
    destruct (Hall ltac:(repeat constructor)) as (st' & Hrun & Hpending & _).
    exists st'. split; [exact Hrun|]. rewrite Hpending. reflexivity.
Defined.

(** C9 on the code. The queue worker sends the pending report; the VTN's
    acknowledgement asks for the cancellation of the report; [cancel_report]
    is called and, its body being empty, the subscription "request1" and its
    cadence job are still there when the worker waits for the next report. *)
Theorem worker_cancel_leaves_subscription :
  p_cancel_report Scenario.updated_report_cancel
    = Some {| cr_report_request_ids := ["request1"]; cr_report_to_follow := false |}
  /\ fst (_report_queue_worker (collaborators := Scenario.vtn None) 3 None
            Scenario.delivering)
     = Return (Some Scenario.updated_report_cancel)
  /\ pending_reports
       (self (snd (_report_queue_worker (collaborators := Scenario.vtn None) 3 None
                     Scenario.delivering))) = []
  /\ map rr_report_request_id
         (report_requests
            (self (snd (_report_queue_worker (collaborators := Scenario.vtn None) 3 None
                          Scenario.delivering)))) = ["request1"]
  /\ map func
         (jobs (scheduler
                  (self (snd (_report_queue_worker (collaborators := Scenario.vtn None)
                                3 None Scenario.delivering)))))
     = [JobUpdateReport "request1"].
Proof. repeat split; vm_compute; reflexivity. Qed.

(** C10 as stated fails on the client: without an [on_event] handler there
    is no default to fall back to, and [_on_event] raises. *)
Lemma on_event_without_handler_raises :
  on_event (self Scenario.declaring) = None
  /\ fst (_on_event (collaborators := Scenario.vtn None) Scenario.distribute_event
            Scenario.declaring)
     = Raise (AttributeError "on_event").
Proof. split; vm_compute; reflexivity. Qed.

(** The placeholders of the EiEvent service, when the application
    registered nothing: [on_request_event] stops at the name [logger], which
    the module never binds, and [created_event] looks for [on_created_event]
    where the class defines [on_create_event]. *)
Lemma service_placeholders_raise :
  EventService.request_event Scenario.service (Scenario.registered None)
    = (Raise (NameError "logger"), [])
  /\ EventService.created_event Scenario.service (Scenario.registered None)
     = (Raise (AttributeError "on_created_event"), []).
Proof. split; reflexivity. Qed.

(** C10, amended, on the scenario. *)
Lemma handlers_without_defaults_witness :
  (exists st',
      _on_event (collaborators := Scenario.vtn None) Scenario.distribute_event
        Scenario.declaring = (Raise (AttributeError "on_event"), st')
      /\ count (is_post "EiEvent") (trace (world st')) = 0%nat)
  /\ on_event_calls (snd (_on_event (collaborators := Scenario.vtn None)
                            Scenario.distribute_event
                            (Scenario.polling [])))
     = 1%nat
  /\ EventService.request_event Scenario.service_with_handlers (Scenario.registered None)
     = (Return ("oadrDistributeEvent", []), [])
  /\ EventService.created_event Scenario.service_with_handlers (Scenario.registered None)
     = (Return EventService.PyNone, []).
Proof.
  destruct (handlers_without_defaults (collaborators := Scenario.vtn None))
    as (Hnone & Hsome & Hrequest & Hcreated).
  split; [|split; [|split]].
  - destruct (Hnone Scenario.distribute_event Scenario.declaring eq_refl)
      as (st' & Hrun & _ & _ & Hposts).
    exists st'. split; [exact Hrun|]. rewrite Hposts. reflexivity.
  - exact (Hsome Scenario.distribute_event (Scenario.polling [])
             (fun _ => Return "optIn") eq_refl).
  - exact (Hrequest Scenario.service_with_handlers (Scenario.registered None) "ven123"
             (fun _ => Return EventService.PyNone) eq_refl eq_refl eq_refl).
  - exact (Hcreated Scenario.service_with_handlers (Scenario.registered None)
             (fun _ => Return EventService.PyNone) eq_refl).
Defined.

(** * Further properties *)

Lemma posted_app (service : string) (l l' : list event) :
  posted service (l ++ l') = posted service l ++ posted service l'.
Proof.
  induction l as [|e l IH]; [reflexivity|].
  destruct e as [lvl msg| |sv message|handler]; cbn [app posted]; auto.
  destruct (String.eqb sv service); cbn [app]; rewrite IH; reflexivity.
Qed.

(** ** Message transport, beyond the failures *)

Section TransportFurther.

Context {collaborators : Collaborators}.

(** What an exchange leaves of the world, whatever its outcome. *)
Lemma perform_request_world (service : string) (message : Message) (st : State) :
  (forall other,
      network (world (snd (_perform_request service message st))) other
      = if String.eqb other service then tl (network (world st) other)
        else network (world st) other)
  /\ (forall other,
         sent other (snd (_perform_request service message st))
         = if String.eqb service other then sent other st ++ [message]
           else sent other st)
  /\ ids (world (snd (_perform_request service message st))) = ids (world st)
  /\ rolls (world (snd (_perform_request service message st))) = rolls (world st)
  /\ now (world (snd (_perform_request service message st))) = now (world st).
Proof.
  assert (Hsent : forall other (tr : list event) (extra : list event),
             posted other extra = [] ->
             posted other (((tr ++ [Log DEBUG "Client is sending"])
                              ++ [Post service message]) ++ extra)
             = if String.eqb service other then posted other tr ++ [message]
               else posted other tr).
  { intros other tr extra Hextra. rewrite !posted_app, Hextra. cbn [posted].
    destruct (String.eqb service other); rewrite ?app_nil_r; reflexivity. }
  unfold _perform_request, sent. unfold_m. cbn -[String.eqb posted].
  destruct (network (world st) service) as [|[status content|err|e] rest] eqn:Hnet;
    cbn -[String.eqb posted].
  - repeat split; try reflexivity.
    + intro other. destruct (String.eqb_spec other service) as [->|]; [|reflexivity].
      rewrite Hnet. reflexivity.
    + intro other. rewrite <- app_assoc. apply (Hsent other _ [_; _]). reflexivity.
  - destruct (negb (status =? 200)); cbn -[String.eqb posted].
    + repeat split; try reflexivity.
      * intro other. destruct (String.eqb_spec other service) as [->|]; [|reflexivity].
        rewrite Hnet. reflexivity.
      * intro other. apply (Hsent other _ [_]). reflexivity.
    + destruct (decodes_utf8 content); cbn -[String.eqb posted];
        destruct (parse_message content) as [[t p]|e]; cbn -[String.eqb posted];
        (repeat split; try reflexivity;
         [ intro other; destruct (String.eqb_spec other service) as [->|]; [|reflexivity];
           rewrite Hnet; reflexivity
         | intro other;
           first [ apply (Hsent other _ [_]); reflexivity
                 | rewrite <- app_assoc; apply (Hsent other _ [_; _]); reflexivity ] ]).
  - repeat split; try reflexivity.
    + intro other. destruct (String.eqb_spec other service) as [->|]; [|reflexivity].
      rewrite Hnet. reflexivity.
    + intro other. rewrite <- app_assoc. apply (Hsent other _ [_; _]). reflexivity.
  - repeat split; try reflexivity.
    + intro other. destruct (String.eqb_spec other service) as [->|]; [|reflexivity].
      rewrite Hnet. reflexivity.
    + intro other. apply (Hsent other _ [_]). reflexivity.
Qed.

(** X1. Every call of [_perform_request], whatever its outcome, posts the
    message once to the named service and to no other, takes at most the
    next outcome of that service's script and none of another's, and leaves
    the client object, the identifiers and the random numbers as they
    were. *)
Theorem perform_request_frame (service : string) (message : Message) (st : State)
  (other : string) :
  self (snd (_perform_request service message st)) = self st
  /\ sent other (snd (_perform_request service message st))
     = (if String.eqb service other then sent other st ++ [message] else sent other st)
  /\ network (world (snd (_perform_request service message st))) other
     = (if String.eqb other service then tl (network (world st) other)
        else network (world st) other)
  /\ ids (world (snd (_perform_request service message st))) = ids (world st)
  /\ rolls (world (snd (_perform_request service message st))) = rolls (world st).
Proof.
  destruct (perform_request_world service message st) as (Hnet & Hsent & Hids & Hrolls & _).
  split; [apply perform_request_self|].
  split; [apply Hsent|]. split; [apply Hnet|]. split; assumption.
Qed.

(** X2. A reply with status 200 whose body parses is returned as parsed,
    also when the body is not valid UTF-8: the failed [decode] is caught,
    [breakpoint()] is reached, and the body is parsed all the same. *)
Theorem perform_request_parses (service : string) (message : Message) (st : State)
  (content : string) (rest : list http_outcome) (message_type : string)
  (payload : Payload) :
  network (world st) service = Responded 200 content :: rest ->
  parse_message content = Return (message_type, payload) ->
  fst (_perform_request service message st) = Return (Some message_type, payload)
  /\ trace (world (snd (_perform_request service message st)))
     = trace (world st)
         ++ [Log DEBUG "Client is sending"; Post service message;
             if decodes_utf8 content then Log DEBUG content else Breakpoint].
Proof.
  intros Hnet Hparse. unfold _perform_request. unfold_m. simpl.
  rewrite Hnet. simpl.
  destruct (decodes_utf8 content); simpl; rewrite Hparse; simpl;
    (split; [reflexivity|]); rewrite <- !app_assoc; reflexivity.
Qed.

(** X3. When the exchange raises anything but a [ClientConnectorError],
    the exception is swallowed by [breakpoint()] and what reaches the caller
    is an [UnboundLocalError] for [content], whatever the exception was; no
    error is logged. *)
Theorem perform_request_masks_exception (service : string) (message : Message)
  (st : State) (e : exn) (rest : list http_outcome) :
  network (world st) service = OtherError e :: rest ->
  fst (_perform_request service message st) = Raise (UnboundLocalError "content")
  /\ trace (world (snd (_perform_request service message st)))
     = trace (world st)
         ++ [Log DEBUG "Client is sending"; Post service message; Breakpoint].
Proof.
  intro Hnet. unfold _perform_request. unfold_m. simpl. rewrite Hnet. simpl.
  split; [reflexivity|]. rewrite <- !app_assoc. reflexivity.
Qed.

End TransportFurther.

(** ** Registration and events, beyond the identity *)

Section RegistrationFurther.

Context {collaborators : Collaborators}.

(** X4. A registration reply that parses but lacks a key ends
    [create_party_registration] with a [KeyError]: for [response] when the
    reply has none, for [ven_id] when the response code is 200 and no
    identifier comes with it, for [response_description] when the code is
    not 200 and no description comes with it. The client object is as it
    was. *)
Theorem create_party_registration_missing_key (options : RegistrationOptions)
  (st : State) (content : string) (rest : list http_outcome)
  (response_type : string) (payload : Payload) :
  network (world st) "EiRegisterParty" = Responded 200 content :: rest ->
  parse_message content = Return (response_type, payload) ->
  (p_response payload = None ->
   fst (create_party_registration options st) = Raise (KeyError "response")
   /\ self (snd (create_party_registration options st)) = self st)
  /\ (forall response,
         p_response payload = Some response ->
         response_code response = 200 ->
         p_ven_id payload = None ->
         fst (create_party_registration options st) = Raise (KeyError "ven_id")
         /\ self (snd (create_party_registration options st)) = self st)
  /\ (forall response,
         p_response payload = Some response ->
         response_code response <> 200 ->
         response_description response = None ->
         fst (create_party_registration options st)
         = Raise (KeyError "response_description")
         /\ self (snd (create_party_registration options st)) = self st).
Proof.
  intros Hnet Hparse.
  assert (Hrun : forall s0 message,
             network (world s0) "EiRegisterParty" = Responded 200 content :: rest ->
             fst (_perform_request "EiRegisterParty" message s0)
             = Return (Some response_type, payload)).
  { intros s0 message Hnet0. unfold _perform_request. unfold_m. simpl.
    rewrite Hnet0. simpl. destruct (decodes_utf8 content); simpl; rewrite Hparse;
      reflexivity. }
  unfold create_party_registration. unfold_m. simpl.
  match goal with
  | |- context [_perform_request ?sv ?m ?s0] =>
      pose proof (perform_request_self sv m s0) as Hself;
      pose proof (Hrun s0 m Hnet) as Hfst;
      destruct (_perform_request sv m s0) as [r st1]
  end.
  simpl in Hfst, Hself. subst r. simpl.
  split; [|split].
  - intros Hresp. rewrite Hresp. simpl. auto.
  - intros response Hresp Hcode Hid. rewrite Hresp. simpl. rewrite Hcode. simpl.
    rewrite Hid. simpl. auto.
  - intros response Hresp Hcode Hdescr. rewrite Hresp. simpl.
    destruct (Z.eqb_spec (response_code response) 200) as [|_]; [contradiction|].
    simpl. rewrite Hdescr. simpl. auto.
Qed.

End RegistrationFurther.

Section EventsFurther.

Context {collaborators : Collaborators}.

(** X5. When the handler returns and the event message has a request id and
    at least one event, [_on_event] posts exactly one message to the event
    service: an [oadrCreatedEvent] with the client's [ven_id], the request
    id of the message, the id of the first event (the other events are not
    acknowledged), the modification number 1 and the handler's result as
    the opt type. The client object is as it was. *)
Theorem on_event_acknowledges_first_event (st : State) (message : Payload)
  (handler : Payload -> outcome string) (opt_type request_id : string)
  (first_event : Event) (more_events : list Event) :
  on_event (self st) = Some handler ->
  handler message = Return opt_type ->
  p_request_id message = Some request_id ->
  p_events message = Some (first_event :: more_events) ->
  sent "EiEvent" (snd (_on_event message st))
  = sent "EiEvent" st
      ++ [oadrCreatedEvent (ven_id (self st)) request_id
            (event_id (event_descriptor first_event)) 1 opt_type]
  /\ self (snd (_on_event message st)) = self st.
Proof.
  intros Hhandler Hopt Hid Hevents.
  unfold _on_event, created_event. unfold_m. simpl.
  rewrite Hhandler. simpl. rewrite Hopt. simpl. rewrite Hid, Hevents. simpl.
  match goal with
  | |- context [_perform_request ?sv ?m ?s0] =>
      pose proof (perform_request_self sv m s0) as Hself;
      destruct (perform_request_world sv m s0) as (_ & Hsent & _);
      specialize (Hsent "EiEvent");
      destruct (_perform_request sv m s0) as [[[t p]|e] st1]
  end; simpl in *; rewrite Hsent, Hself; split; try reflexivity;
    unfold sent; simpl; rewrite !posted_app; simpl; rewrite !app_nil_r; reflexivity.
Qed.

(** X6. When the handler raises, or the event message has no request id, no
    events or an empty list of events, [_on_event] ends with that exception
    after it has called the handler once, and posts nothing: the VTN gets no
    acknowledgement. *)
Theorem on_event_failure_sends_nothing (st : State) (message : Payload)
  (handler : Payload -> outcome string) (e : exn) (service : string) :
  on_event (self st) = Some handler ->
  event_failure handler message = Some e ->
  fst (_on_event message st) = Raise e
  /\ sent service (snd (_on_event message st)) = sent service st
  /\ on_event_calls (snd (_on_event message st)) = S (on_event_calls st)
  /\ self (snd (_on_event message st)) = self st.
Proof.
  intros Hhandler Hfail. unfold event_failure in Hfail.
  unfold _on_event, created_event. unfold_m. cbn -[count].
  rewrite Hhandler. cbn -[count].
  unfold sent, on_event_calls.
  destruct (handler message) as [opt|e']; cbn -[count].
  - destruct (p_request_id message) as [rid|]; cbn -[count].
    + destruct (p_events message) as [[|ev evs]|]; cbn -[count];
        try discriminate; injection Hfail as <-;
        rewrite !posted_app, !count_app; cbn; rewrite !app_nil_r;
        repeat split; lia.
    + injection Hfail as <-.
      rewrite !posted_app, !count_app; cbn; rewrite !app_nil_r; repeat split; lia.
  - injection Hfail as <-.
    rewrite !posted_app, !count_app; cbn; rewrite !app_nil_r; repeat split; lia.
Qed.

End EventsFurther.

(** ** The poll loop, reply by reply *)

Section PollFurther.

Context {collaborators : Collaborators}.

(** The trace a poll with a reply leaves. *)
Lemma poll_returns_trace (st : State) (content : string) (tail : list http_outcome)
  (response_type : string) (payload : Payload) :
  network (world st) "OadrPoll" = Responded 200 content :: tail ->
  parse_message content = Return (response_type, payload) ->
  trace (world (polled st))
  = trace (world st)
      ++ [Log DEBUG "Now polling for new messages"; Log DEBUG "Client is sending";
          Post "OadrPoll" (oadrPoll (ven_id (self st)));
          if decodes_utf8 content then Log DEBUG content else Breakpoint]
  /\ (forall service, service <> "OadrPoll" ->
                      network (world (polled st)) service = network (world st) service).
Proof.
  intros Hnet Hparse. unfold polled, poll, _perform_request. unfold_m.
  cbn -[String.eqb]. rewrite Hnet. cbn -[String.eqb].
  destruct (decodes_utf8 content); cbn -[String.eqb]; rewrite Hparse; cbn -[String.eqb];
    (split; [rewrite <- !app_assoc; reflexivity|]);
    intros service Hservice; apply String.eqb_neq in Hservice; rewrite Hservice;
    reflexivity.
Qed.

(** X7. When the poll brings no reply (the VTN cannot be connected to, or
    answers with a status other than 200), [_poll] returns after that one
    poll: no handler is called and the client object is as it was. *)
Theorem poll_without_reply_returns (depth : nat) (st : State) :
  unreachable (network (world st) "OadrPoll") = true ->
  fst (_poll (S depth) st) = Return tt
  /\ sent "OadrPoll" (snd (_poll (S depth) st))
     = sent "OadrPoll" st ++ [oadrPoll (ven_id (self st))]
  /\ on_event_calls (snd (_poll (S depth) st)) = on_event_calls st
  /\ self (snd (_poll (S depth) st)) = self st.
Proof.
  intro Hun. unfold sent, on_event_calls.
  cbn [_poll]. unfold poll, _perform_request. unfold_m. cbn -[count].
  destruct (network (world st) "OadrPoll") as [|[status content|err|e] rest];
    cbn -[count] in *; try discriminate.
  - rewrite !posted_app, !count_app. cbn. rewrite !app_nil_r. repeat split; lia.
  - rewrite Hun. cbn -[count].
    rewrite !posted_app, !count_app. cbn. rewrite !app_nil_r. repeat split; lia.
  - rewrite !posted_app, !count_app. cbn. rewrite !app_nil_r. repeat split; lia.
Qed.

(** What [dispatch] does with a type for which [_poll] has no branch. *)
Lemma dispatch_no_branch (response_type : string) (payload : Payload) (st : State) :
  no_branch response_type = true ->
  dispatch response_type payload st
  = (Return tt,
     {| self := self st;
        world := {| trace := trace (world st)
                      ++ [Log WARNING "No handler implemented for incoming message"];
                    network := network (world st); ids := ids (world st);
                    rolls := rolls (world st); now := now (world st) |} |}).
Proof.
  unfold no_branch, dispatch. intro Hno.
  apply negb_true_iff in Hno.
  repeat (apply orb_false_iff in Hno; destruct Hno as [Hno ?]).
  repeat match goal with H : String.eqb _ _ = false |- _ => rewrite H; clear H end.
  reflexivity.
Qed.

(** X8. Replies of a type for which [_poll] has no branch are each answered
    with a warning and the next poll; on the no-content reply that follows
    them [_poll] returns, with one poll sent per reply and the client object
    as it was. *)
Theorem poll_ignores_unknown_types (replies : list (string * (string * Payload)))
  (nothing_content : string) (nothing_payload : Payload) (rest : list http_outcome)
  (depth : nat) (st : State) :
  Forall to_ignore replies ->
  parse_message nothing_content = Return ("oadrResponse", nothing_payload) ->
  network (world st) "OadrPoll"
    = map (fun reply => Responded 200 (fst reply)) replies
        ++ Responded 200 nothing_content :: rest ->
  (List.length replies < depth)%nat ->
  fst (_poll depth st) = Return tt
  /\ self (snd (_poll depth st)) = self st
  /\ polls (snd (_poll depth st)) = (polls st + List.length replies + 1)%nat
  /\ warnings (snd (_poll depth st)) = (warnings st + List.length replies)%nat
  /\ network (world (snd (_poll depth st))) "OadrPoll" = rest.
Proof.
  intros Hreplies Hnothing. revert depth st.
  induction Hreplies as [|[content [t p]] replies [Hparse Ht] _ IH];
    intros depth st Hnet Hdepth;
    (destruct depth as [|depth]; [simpl in Hdepth; lia|]);
    cbn [map app fst snd] in *.
  - destruct (poll_returns st _ _ _ _ Hnet Hnothing) as (Hpoll & Htail & Hpolls & _ & Hself).
    destruct (poll_returns_trace st _ _ _ _ Hnet Hnothing) as (Htrace & _).
    rewrite poll_unfold, (bind_returns _ _ _ _ _ Hpoll). cbn -[count polled].
    unfold_m. cbn -[count polled].
    split; [reflexivity|]. split; [exact Hself|].
    unfold polls, warnings in *. cbn -[count polled].
    rewrite Htrace in *. rewrite !count_app in *.
    destruct (decodes_utf8 nothing_content); cbn in *; repeat split; try lia; exact Htail.
  - destruct (poll_returns st _ _ _ _ Hnet Hparse) as (Hpoll & Htail & Hpolls & _ & Hself).
    destruct (poll_returns_trace st _ _ _ _ Hnet Hparse) as (Htrace & _).
    rewrite poll_unfold, (bind_returns _ _ _ _ _ Hpoll).
    assert (Hresponse : String.eqb t "oadrResponse" = false).
    { unfold no_branch in Ht. apply negb_true_iff in Ht.
      repeat (apply orb_false_iff in Ht; destruct Ht as [Ht ?]). exact Ht. }
    rewrite Hresponse.
    rewrite (bind_returns _ _ _ _ _ (dispatch_no_branch t p (polled st) Ht)).
    match goal with |- context [_poll depth ?s] => set (st2 := s) end.
    destruct (IH depth st2) as (Hreturn & Hself2 & Hpolls2 & Hwarn2 & Hscript).
    { subst st2. cbn [world network]. rewrite Htail. reflexivity. }
    { simpl in Hdepth. lia. }
    split; [exact Hreturn|]. split; [rewrite Hself2; subst st2; exact Hself|].
    rewrite Hpolls2, Hwarn2. split; [|split; [|exact Hscript]].
    + subst st2. unfold polls in *. cbn -[count polled]. rewrite count_app.
      rewrite Hpolls. cbn. lia.
    + subst st2. unfold warnings. cbn -[count polled]. rewrite Htrace, !count_app.
      destruct (decodes_utf8 content); cbn; lia.
Qed.

(** X9. A re-registration request met by the poll loop is answered with
    [create_party_registration] and its default options. When the VTN
    registers the VEN, the identity is the one of the reply; the next poll
    is sent under the new [ven_id]; the scheduler is not touched, so that a
    poll job already scheduled keeps its cadence; and the warning of the
    branch for unknown types is logged as well, the test for the
    re-registration request being no part of the chain of the other
    tests. *)
Theorem poll_reregisters (st : State) (request_content nothing_content
  registered_content : string) (request_payload nothing_payload payload : Payload)
  (rest registration_rest : list http_outcome) (registration_type new_id : string)
  (response : Response) (depth : nat) :
  network (world st) "OadrPoll"
    = Responded 200 request_content :: Responded 200 nothing_content :: rest ->
  parse_message request_content = Return ("oadrRequestReregistration", request_payload) ->
  parse_message nothing_content = Return ("oadrResponse", nothing_payload) ->
  network (world st) "EiRegisterParty"
    = Responded 200 registered_content :: registration_rest ->
  parse_message registered_content = Return (registration_type, payload) ->
  p_response payload = Some response ->
  response_code response = 200 ->
  p_ven_id payload = Some new_id ->
  (2 <= depth)%nat ->
  fst (_poll depth st) = Return tt
  /\ ven_id (self (snd (_poll depth st))) = Some new_id
  /\ poll_frequency (self (snd (_poll depth st))) = offered_poll_frequency payload
  /\ scheduler (self (snd (_poll depth st))) = scheduler (self st)
  /\ sent "OadrPoll" (snd (_poll depth st))
     = sent "OadrPoll" st ++ [oadrPoll (ven_id (self st)); oadrPoll (Some new_id)]
  /\ sent "EiRegisterParty" (snd (_poll depth st))
     = sent "EiRegisterParty" st
         ++ [oadrCreatePartyRegistration (generate_id_at (S (ids (world st))))
               (ven_name (self st)) default_registration]
  /\ warnings (snd (_poll depth st)) = S (warnings st).
Proof.
  intros Hnet Hrequest Hnothing Hreg Hregistered Hresponse Hcode Hid Hdepth.
  destruct depth as [|[|depth]]; try lia.
  unfold sent, warnings, offered_poll_frequency.
  cbn [_poll]. unfold dispatch, create_party_registration, poll, _perform_request.
  unfold_m. cbn -[count]. rewrite Hnet. cbn -[count].
  destruct (decodes_utf8 request_content); cbn -[count]; rewrite Hrequest; cbn -[count];
    rewrite Hreg; cbn -[count];
    destruct (decodes_utf8 registered_content); cbn -[count];
    rewrite Hregistered; cbn -[count]; rewrite Hresponse; cbn -[count];
    rewrite Hcode; cbn -[count]; rewrite Hid; cbn -[count];
    destruct (decodes_utf8 nothing_content); cbn -[count];
    rewrite Hnothing; cbn -[count];
    rewrite !posted_app, !count_app; cbn; rewrite ?app_nil_r;
    repeat split; try reflexivity; try lia;
    rewrite <- ?app_assoc; reflexivity.
Qed.

(** X10. A client on which no [_on_report] was set (the class defines none)
    cannot take an [oadrUpdateReport] from the poll loop: [_poll] ends with
    an [AttributeError] after the poll that brought it, and what follows in
    the script of the poll service is not asked for. *)
Theorem poll_update_report_raises (st : State) (content : string)
  (rest : list http_outcome) (payload : Payload) (depth : nat) :
  network (world st) "OadrPoll" = Responded 200 content :: rest ->
  parse_message content = Return ("oadrUpdateReport", payload) ->
  _on_report (self st) = None ->
  fst (_poll (S depth) st) = Raise (AttributeError "_on_report")
  /\ network (world (snd (_poll (S depth) st))) "OadrPoll" = rest
  /\ polls (snd (_poll (S depth) st)) = S (polls st)
  /\ self (snd (_poll (S depth) st)) = self st.
Proof.
  intros Hnet Hparse Hnone.
  destruct (poll_returns st _ _ _ _ Hnet Hparse) as (Hpoll & Htail & Hpolls & _ & Hself).
  rewrite poll_unfold, (bind_returns _ _ _ _ _ Hpoll).
  cbn [String.eqb Ascii.eqb Bool.eqb].
  unfold dispatch. cbn [String.eqb Ascii.eqb Bool.eqb]. unfold_m. cbn -[polled polls].
  rewrite Hself, Hnone. cbn -[polled polls]. auto.
Qed.

End PollFurther.

(** ** Report negotiation, beyond the accepted r_ids *)

Section NegotiationFurther.

Context {collaborators : Collaborators}.

(** One turn of the loop of [create_report] leaves the client object alone,
    and appends at most the requested r_id, which then has a descriptor. *)
Lemma create_report_body_keeps (report : Report) (rr : ReportRequestMsg)
  (locals : option timedelta * list string) (sp : SpecifierPayload) (st : State) :
  self (snd (create_report_body report rr locals sp st)) = self st
  /\ (forall g' acc',
         fst (create_report_body report rr locals sp st) = Return (g', acc') ->
         acc' = snd locals
         \/ (acc' = snd locals ++ [sp_r_id sp] /\ descriptor report sp <> None)).
Proof.
  destruct locals as [g acc]. unfold create_report_body, descriptor.
  destruct (find_by (report_descriptions report)
                    (fun d => String.eqb (r_id d) (sp_r_id sp))) as [rd|];
    unfold_m; simpl;
    repeat (first [progress bool_atoms | break_match]; simpl);
    (split; [reflexivity|]); intros g' acc' Hret;
    try discriminate; injection Hret as <- <-; auto;
    right; (split; [reflexivity|discriminate]).
Qed.

Lemma create_report_loop_keeps (report : Report) (rr : ReportRequestMsg)
  (payloads : list SpecifierPayload) :
  forall (locals : option timedelta * list string) (st : State),
    self (snd (for_each payloads (create_report_body report rr) locals st)) = self st
    /\ (forall g' acc',
           fst (for_each payloads (create_report_body report rr) locals st)
           = Return (g', acc') ->
           forall rid, In rid acc' ->
                       In rid (snd locals)
                       \/ exists sp, In sp payloads /\ sp_r_id sp = rid
                                     /\ descriptor report sp <> None).
Proof.
  induction payloads as [|sp payloads IH]; intros locals st.
  - simpl. split; [reflexivity|]. intros g' acc' Hret rid Hin.
    injection Hret as ->. left. exact Hin.
  - cbn [for_each]. unfold bind.
    destruct (create_report_body_keeps report rr locals sp st) as (Hself & Hacc).
    destruct (create_report_body report rr locals sp st) as [[locals1|e] s1];
      cbn [fst snd] in *; [|split; [exact Hself|discriminate]].
    destruct (IH locals1 s1) as (Hself' & Hacc').
    split; [congruence|].
    intros g' acc' Hret rid Hin.
    destruct (Hacc' g' acc' Hret rid Hin) as [Hold|(sp' & Hsp' & Hrid & Hrd)].
    + destruct locals1 as [g1 acc1].
      destruct (Hacc g1 acc1 eq_refl) as [->|[-> Hrd]]; [left; exact Hold|].
      cbn [snd] in Hold. apply in_app_or in Hold as [Hold|[<-|[]]]; [left; exact Hold|].
      right. exists sp. split; [left; reflexivity|]. split; [reflexivity|exact Hrd].
    + right. exists sp'. split; [right; exact Hsp'|]. split; assumption.
Qed.

Lemma descriptor_in (report : Report) (sp : SpecifierPayload) :
  descriptor report sp <> None ->
  exists rd, In rd (report_descriptions report) /\ r_id rd = sp_r_id sp.
Proof.
  unfold descriptor, find_by.
  destruct (find _ (report_descriptions report)) as [rd|] eqn:Hrd; [|congruence].
  intros _. apply find_some in Hrd as [Hin Heq]. apply String.eqb_eq in Heq.
  exists rd. split; assumption.
Qed.

(** X11. [create_report] either leaves the client object as it was (when it
    does not return [None]: the report is not known, which it answers with
    [False], or an exception ends it), or it has added exactly one
    subscription and its cadence job, for the request id of the request and
    for r_ids that each have a descriptor in the report of the requested
    specifier id. The reports, the queue of pending reports and the identity
    are never touched. *)
Theorem create_report_frame (rr : ReportRequestMsg) (st : State) :
  reports (self (snd (create_report rr st))) = reports (self st)
  /\ pending_reports (self (snd (create_report rr st))) = pending_reports (self st)
  /\ ven_id (self (snd (create_report rr st))) = ven_id (self st)
  /\ poll_frequency (self (snd (create_report rr st))) = poll_frequency (self st)
  /\ ((fst (create_report rr st) <> Return None
       /\ self (snd (create_report rr st)) = self st
       /\ (fst (create_report rr st) = Return (Some false)
           <-> find_by (reports (self st))
                       (fun r => String.eqb (report_specifier_id r)
                                   (rs_report_specifier_id (rq_report_specifier rr)))
               = None))
      \/ (fst (create_report rr st) = Return None
          /\ exists q report,
               report_requests (self (snd (create_report rr st)))
               = report_requests (self st) ++ [q]
               /\ jobs (scheduler (self (snd (create_report rr st))))
                  = jobs (scheduler (self st)) ++ [rr_job q]
               /\ rr_report_request_id q = rq_report_request_id rr
               /\ func (rr_job q) = JobUpdateReport (rq_report_request_id rr)
               /\ find_by (reports (self st))
                          (fun r => String.eqb (report_specifier_id r)
                                      (rs_report_specifier_id (rq_report_specifier rr)))
                  = Some report
               /\ (forall rid, In rid (rr_r_ids q) ->
                               exists rd, In rd (report_descriptions report)
                                          /\ r_id rd = rid))).
Proof.
  remember (create_report rr st) as r eqn:Hr.
  unfold create_report in Hr. unfold get_self at 1 in Hr. unfold bind at 1 in Hr.
  cbn [fst snd] in Hr.
  destruct (find_by (reports (self st)) _) as [report|] eqn:Hfind.
  - unfold bind at 1 in Hr.
    destruct (create_report_loop_keeps report rr
                (rs_specifier_payloads (rq_report_specifier rr))
                (rs_granularity (rq_report_specifier rr), []) st) as (Hself & Hacc).
    destruct (for_each _ _ _ st) as [[[g' acc']|e] s1]; cbn [fst snd] in *.
    + destruct (cron_config g') as [cron|e] eqn:Hcron; unfold_m; simpl in Hr;
        [destruct (create_trigger cron) as [[]|e]; simpl in Hr|];
        subst r; simpl; rewrite Hself.
      * repeat (split; [reflexivity|]). right. split; [reflexivity|].
        eexists; exists report. simpl.
        repeat (split; [reflexivity|]).
        intros rid Hin.
        destruct (Hacc g' acc' eq_refl rid Hin) as [[]|(sp & _ & <- & Hrd)].
        apply descriptor_in. exact Hrd.
      * repeat (split; [reflexivity|]). left.
        split; [discriminate|]. split; [reflexivity|]. split; discriminate.
      * repeat (split; [reflexivity|]). left.
        split; [discriminate|]. split; [reflexivity|]. split; discriminate.
    + subst r. simpl. rewrite Hself. repeat (split; [reflexivity|]). left.
      split; [discriminate|]. split; [reflexivity|]. split; discriminate.
  - unfold_m. simpl in Hr. subst r. simpl. repeat (split; [reflexivity|]). left.
    split; [discriminate|]. split; [reflexivity|]. split; reflexivity.
Qed.

(** One turn of the loop for an accepted r_id when the request has a
    report interval. *)
Lemma create_report_body_interval (report : Report) (rr : ReportRequestMsg)
  (g : timedelta) (acc : list string) (sp : SpecifierPayload) (st : State)
  (interval : Interval) :
  rs_report_interval (rq_report_specifier rr) = Some interval ->
  accepts report g sp = true ->
  create_report_body report rr (Some g, acc) sp st = (Raise (KeyError "dtstart"), st).
Proof.
  intro Hiv.
  unfold create_report_body, accepts, candidate, descriptor, measurement_matches, in_range.
  rewrite Hiv. body_cases.
Qed.

(** X12. A request that comes with a report interval cannot be subscribed
    to as soon as one of its r_ids is accepted: the interval is looked for
    in the report specifier itself, which has no [dtstart], and
    [create_report] ends with a [KeyError]. No job is scheduled and no
    subscription is kept, also for the r_ids accepted before. *)
Theorem create_report_interval_raises (st : State) (rr : ReportRequestMsg)
  (report : Report) (g : timedelta) (interval : Interval) :
  find_by (reports (self st))
          (fun r => String.eqb (report_specifier_id r)
                      (rs_report_specifier_id (rq_report_specifier rr)))
    = Some report ->
  rs_granularity (rq_report_specifier rr) = Some g ->
  rs_report_interval (rq_report_specifier rr) = Some interval ->
  existsb (accepts report g) (rs_specifier_payloads (rq_report_specifier rr)) = true ->
  fst (create_report rr st) = Raise (KeyError "dtstart")
  /\ self (snd (create_report rr st)) = self st.
Proof.
  intros Hfind Hg Hiv Hsome.
  assert (Hloop : forall payloads acc s,
             existsb (accepts report g) payloads = true ->
             fst (for_each payloads (create_report_body report rr) (Some g, acc) s)
             = Raise (KeyError "dtstart")).
  { induction payloads as [|sp payloads IH]; intros acc s Hex; [discriminate|].
    cbn [for_each existsb] in *.
    destruct (accepts report g sp) eqn:Hsp.
    - unfold bind. rewrite (create_report_body_interval report rr g acc sp s interval Hiv Hsp).
      reflexivity.
    - destruct (create_report_body_rejected report rr g acc sp s Hsp) as (s1 & Hbody & _).
      rewrite (bind_returns _ _ _ _ _ Hbody). apply IH. exact Hex. }
  remember (create_report rr st) as r eqn:Hr.
  unfold create_report in Hr. unfold get_self at 1 in Hr. unfold bind at 1 in Hr.
  cbn [fst snd] in Hr. rewrite Hfind, Hg in Hr. unfold bind at 1 in Hr.
  specialize (Hloop (rs_specifier_payloads (rq_report_specifier rr)) [] st Hsome).
  destruct (create_report_loop_keeps report rr
              (rs_specifier_payloads (rq_report_specifier rr)) (Some g, []) st)
    as (Hself & _).
  destruct (for_each _ _ _ st) as [[locals|e] s1]; cbn [fst snd] in *;
    [discriminate|].
  subst r. cbn [fst snd]. injection Hloop as ->. split; [reflexivity|exact Hself].
Qed.

End NegotiationFurther.

(** ** From the registration of reports to their delivery *)

Section SubscriptionFurther.

Context {collaborators : Collaborators}.

(** A reply with status 200 whose body parses is what the exchange returns. *)
Lemma perform_request_reply (service : string) (message : Message) (st : State)
  (content : string) (rest : list http_outcome) (response_type : string)
  (payload : Payload) :
  network (world st) service = Responded 200 content :: rest ->
  parse_message content = Return (response_type, payload) ->
  fst (_perform_request service message st) = Return (Some response_type, payload).
Proof.
  intros Hnet Hparse. unfold _perform_request. unfold_m. simpl. rewrite Hnet. simpl.
  destruct (decodes_utf8 content); simpl; rewrite Hparse; reflexivity.
Qed.

Lemma create_report_keeps_reports (rr : ReportRequestMsg) (st : State) :
  reports (self (snd (create_report rr st))) = reports (self st)
  /\ pending_reports (self (snd (create_report rr st))) = pending_reports (self st).
Proof.
  remember (create_report rr st) as r eqn:Hr.
  unfold create_report in Hr. unfold get_self at 1 in Hr. unfold bind at 1 in Hr.
  cbn [fst snd] in Hr.
  destruct (find_by (reports (self st)) _) as [report|].
  - unfold bind at 1 in Hr.
    destruct (create_report_loop_keeps report rr
                (rs_specifier_payloads (rq_report_specifier rr))
                (rs_granularity (rq_report_specifier rr), []) st) as (Hself & _).
    destruct (for_each _ _ _ st) as [[[g' acc']|e] s1]; cbn [fst snd] in *.
    + destruct (cron_config g') as [cron|e]; unfold_m; simpl in Hr;
        [destruct (create_trigger cron) as [[]|e]; simpl in Hr|];
        subst r; simpl; rewrite Hself; split; reflexivity.
    + subst r. simpl. rewrite Hself. split; reflexivity.
  - unfold_m. simpl in Hr. subst r. split; reflexivity.
Qed.

(** The subscription of a request depends on the reports the client holds,
    and on nothing else of it. *)
Lemma subscription_for_reports (c c' : OpenADRClient) (rr : ReportRequestMsg) :
  reports c = reports c' -> subscription_for c rr = subscription_for c' rr.
Proof. unfold subscription_for. intros ->. reflexivity. Qed.

Lemma create_report_subscribes (st : State) (rr : ReportRequestMsg) (q : ReportRequest) :
  subscription_for (self st) rr = Some q ->
  exists st',
    create_report rr st = (Return None, st')
    /\ report_requests (self st') = report_requests (self st) ++ [q]
    /\ jobs (scheduler (self st')) = jobs (scheduler (self st)) ++ [rr_job q]
    /\ reports (self st') = reports (self st)
    /\ pending_reports (self st') = pending_reports (self st).
Proof.
  unfold subscription_for.
  destruct (find_by (reports (self st)) _) as [report|] eqn:Hfind; [|discriminate].
  destruct (rs_granularity (rq_report_specifier rr)) as [g|] eqn:Hg; [|discriminate].
  destruct (rs_report_interval (rq_report_specifier rr)) eqn:Hiv; [discriminate|].
  destruct (cron_config (Some g)) as [cron|] eqn:Hcron; [|discriminate].
  destruct (create_trigger cron) as [[]|] eqn:Htrigger; [|discriminate].
  intros [= <-].
  destruct (create_report_loop_specified report rr g
              (rs_specifier_payloads (rq_report_specifier rr)) Hiv [] st)
    as (st1 & Hloop & Hself).
  rewrite <- Hg in Hloop at 1.
  destruct (create_report_run st st1 rr report _ _ cron Hfind Hloop Hself Hcron
              Htrigger)
    as (st' & Hrun & Hjobs & Hrequests).
  destruct (create_report_keeps_reports rr st) as (Hreports & Hpending).
  rewrite Hrun in Hreports, Hpending. cbn [snd] in *.
  exists st'. repeat split; assumption.
Qed.

Lemma register_reports_loop (requests : list ReportRequestMsg) :
  forall (subs : list ReportRequest) (st : State),
    map (subscription_for (self st)) requests = map Some subs ->
    exists st',
      for_each requests (fun _ report_request => create_report report_request ;; ret tt)
               tt st = (Return tt, st')
      /\ report_requests (self st') = report_requests (self st) ++ subs
      /\ jobs (scheduler (self st')) = jobs (scheduler (self st)) ++ map rr_job subs
      /\ reports (self st') = reports (self st)
      /\ pending_reports (self st') = pending_reports (self st).
Proof.
  induction requests as [|rr requests IH]; intros [|q subs] st Hsubs;
    try discriminate.
  - exists st. simpl. rewrite !app_nil_r. repeat split; reflexivity.
  - cbn [map] in Hsubs. injection Hsubs as Hq Hsubs.
    destruct (create_report_subscribes st rr q Hq)
      as (st1 & Hrun & Hrequests & Hjobs & Hreports & Hpending).
    destruct (IH subs st1) as (st' & Hloop & Hrequests' & Hjobs' & Hreports' & Hpending').
    { rewrite <- Hsubs. apply map_ext. intro rr'.
      apply subscription_for_reports. exact Hreports. }
    exists st'. cbn [for_each]. rewrite bind_assoc, (bind_returns _ _ _ _ _ Hrun).
    unfold ret at 1. unfold bind at 1. cbn [fst snd].
    split; [exact Hloop|].
    rewrite Hrequests', Hjobs', Hreports', Hpending', Hrequests, Hjobs.
    cbn [map]. rewrite <- !app_assoc. repeat split; assumption.
Qed.

(** X13. When the VTN answers the registration of the reports with report
    requests that can each be subscribed to (the report is known, the VTN
    gives the granularity and no report interval, and the scheduler accepts
    the cron trigger of the granularity), [register_reports]
    subscribes to all of them in the order of the reply: the subscriptions
    and their cadence jobs are appended in that order, and the reports and
    the queue are as they were. *)
Theorem register_reports_subscribes_in_order (to_register : list Report) (st : State)
  (content : string) (rest : list http_outcome) (response_type : string)
  (payload : Payload) (requests : list ReportRequestMsg) (subs : list ReportRequest) :
  network (world st) "EiReport" = Responded 200 content :: rest ->
  parse_message content = Return (response_type, payload) ->
  p_report_requests payload = Some requests ->
  map (subscription_for (self st)) requests = map Some subs ->
  fst (register_reports to_register st) = Return (Some response_type, payload)
  /\ report_requests (self (snd (register_reports to_register st)))
     = report_requests (self st) ++ subs
  /\ jobs (scheduler (self (snd (register_reports to_register st))))
     = jobs (scheduler (self st)) ++ map rr_job subs
  /\ reports (self (snd (register_reports to_register st))) = reports (self st)
  /\ pending_reports (self (snd (register_reports to_register st)))
     = pending_reports (self st).
Proof.
  intros Hnet Hparse Hrequests Hsubs.
  remember (register_reports to_register st) as r eqn:Hr.
  unfold register_reports in Hr. unfold_m. cbn [fst snd] in Hr.
  match type of Hr with
  | context [_perform_request ?sv ?m ?s0] =>
      pose proof (perform_request_self sv m s0) as Hself;
      pose proof (perform_request_reply sv m s0 content rest response_type payload
                    Hnet Hparse) as Hreply;
      destruct (_perform_request sv m s0) as [o s1]
  end.
  cbn [fst snd self] in *. subst o. rewrite Hrequests in Hr.
  destruct (register_reports_loop requests subs s1) as (s2 & Hloop & Hfields).
  { rewrite Hself. exact Hsubs. }
  rewrite Hself in Hfields.
  revert Hr.
  match goal with
  | |- context [for_each requests ?body tt s1] =>
      replace (for_each requests body tt s1) with (@Return unit tt, s2)
        by (symmetry; exact Hloop)
  end.
  intros ->. cbn [fst snd]. split; [reflexivity|exact Hfields].
Qed.

(** X24. When the VTN cannot be connected to, or answers with a status other
    than 200, [register_reports] returns the empty result without raising:
    the registration message was posted once, under the second identifier
    drawn, and the client object is as it was, without any subscription. *)
Theorem register_reports_without_reply (to_register : list Report) (st : State) :
  unreachable (network (world st) "EiReport") = true ->
  fst (register_reports to_register st) = Return (None, empty_payload)
  /\ self (snd (register_reports to_register st)) = self st
  /\ sent "EiReport" (snd (register_reports to_register st))
     = sent "EiReport" st
         ++ [oadrRegisterReport (generate_id_at (S (ids (world st))))
               (ven_id (self st)) to_register].
Proof.
  intro Hun. unfold sent, register_reports, _perform_request. unfold_m. cbn.
  destruct (network (world st) "EiReport") as [|[status content|err|e] rest];
    cbn in *; try discriminate; rewrite ?Hun; cbn;
    rewrite !posted_app; cbn; rewrite !app_nil_r; repeat split; reflexivity.
Qed.

(** The intervals gathered for r_ids whose producers return carry these
    r_ids, in order. *)
Lemma interval_of_r_ids (report : Report) (t : Z) (rids : list string) :
  Forall (fun rid => produces report t rid = true) rids ->
  map (fun i => rp_r_id (report_payload i)) (flat_map (interval_of report t) rids) = rids.
Proof.
  induction 1 as [|rid rids Hrid _ IH]; [reflexivity|].
  cbn [flat_map]. rewrite map_app, IH.
  unfold produces, interval_of, produce in *.
  destruct (find_by _ _) as [rd|]; [|discriminate].
  destruct (callable rd t); [reflexivity|discriminate].
Qed.

(** X14. A subscription and its first tick. When [create_report] subscribes
    to a request (one that can be subscribed to: known report, granularity
    given, no report interval, a cron trigger the scheduler accepts) whose
    id no earlier subscription has, and the producers of
    the accepted r_ids return, the call of [update_report] that the cadence job
    makes enqueues one report for the request, with one interval for each
    accepted r_id, in the order of the request. *)
Theorem subscription_then_tick (st : State) (rr : ReportRequestMsg) (q : ReportRequest)
  (report : Report) :
  find_by (reports (self st))
          (fun r => String.eqb (report_specifier_id r)
                      (rs_report_specifier_id (rq_report_specifier rr)))
    = Some report ->
  subscription_for (self st) rr = Some q ->
  find_by (report_requests (self st))
          (fun q' => String.eqb (rr_report_request_id q') (rq_report_request_id rr))
    = None ->
  (forall t, Forall (fun rid => produces report t rid = true) (rr_r_ids q)) ->
  exists st1 st2 delivered,
    create_report rr st = (Return None, st1)
    /\ In {| func := JobUpdateReport (rq_report_request_id rr);
             trigger := trigger (rr_job q) |} (jobs (scheduler (self st1)))
    /\ update_report (rq_report_request_id rr) st1 = (Return tt, st2)
    /\ pending_reports (self st2) = pending_reports (self st) ++ [delivered]
    /\ interval_r_ids delivered = rr_r_ids q
    /\ report_request_id delivered = Some (rq_report_request_id rr)
    /\ report_specifier_id delivered = report_specifier_id report.
Proof.
  intros Hfind Hq Hfresh Hproducers.
  destruct (create_report_subscribes st rr q Hq)
    as (st1 & Hrun & Hrequests & Hjobs & Hreports & Hpending).
  unfold subscription_for in Hq. rewrite Hfind in Hq.
  destruct (rs_granularity (rq_report_specifier rr)) as [g|] eqn:Hg; [|discriminate].
  destruct (rs_report_interval (rq_report_specifier rr)) eqn:Hiv; [discriminate|].
  destruct (cron_config (Some g)) as [cron|] eqn:Hcron; [|discriminate].
  destruct (create_trigger cron) as [[]|] eqn:Htrigger; [|discriminate].
  injection Hq as <-. cbn [rr_job rr_r_ids trigger] in *.
  pose proof (Hproducers (now (world st1))) as Hall.
  assert (Hlookup : find_by (report_requests (self st1))
                      (fun q' => String.eqb (rr_report_request_id q')
                                   (rq_report_request_id rr))
                    = Some {| rr_report_request_id := rq_report_request_id rr;
                              rr_report_specifier_id :=
                                rs_report_specifier_id (rq_report_specifier rr);
                              rr_r_ids := map sp_r_id
                                            (filter (accepts report g)
                                               (rs_specifier_payloads
                                                  (rq_report_specifier rr)));
                              rr_granularity := Some g;
                              rr_job := {| func := JobUpdateReport
                                                     (rq_report_request_id rr);
                                           trigger := cron |} |}).
  { rewrite Hrequests. unfold find_by in *. apply find_last; [exact Hfresh|].
    apply String.eqb_refl. }
  exists st1.
  remember (update_report (rq_report_request_id rr) st1) as r eqn:Hr.
  unfold update_report in Hr. unfold get_self at 1 in Hr. unfold bind at 1 in Hr.
  cbn [fst snd] in Hr. rewrite Hlookup in Hr. cbn [rr_report_specifier_id rr_r_ids] in Hr.
  rewrite Hreports, Hfind in Hr.
  rewrite (bind_returns _ _ _ _ _ (update_report_loop_all report _ st1 Hall [])) in Hr.
  unfold_m. simpl in Hr. subst r.
  eexists. eexists. split; [exact Hrun|].
  split; [rewrite Hjobs; apply in_or_app; right; left; reflexivity|].
  split; [reflexivity|]. cbn [self pending_reports set_pending_reports].
  rewrite Hpending. split; [reflexivity|]. unfold interval_r_ids. cbn [intervals].
  split; [apply interval_of_r_ids; exact Hall|]. split; reflexivity.
Qed.

(** X15. A tick for a request id that has no subscription ends with the
    [TypeError] of subscripting [None]; a tick for a subscription whose
    report is not (or no longer) among the reports ends with an
    [AttributeError]. Nothing is enqueued, and the state is as it was. *)
Theorem update_report_stale (st : State) (request_id : string) :
  (find_by (report_requests (self st))
           (fun q => String.eqb (rr_report_request_id q) request_id) = None ->
   update_report request_id st
   = (Raise (TypeError "'NoneType' object is not subscriptable"), st))
  /\ (forall q,
         find_by (report_requests (self st))
                 (fun q => String.eqb (rr_report_request_id q) request_id) = Some q ->
         find_by (reports (self st))
                 (fun r => String.eqb (report_specifier_id r) (rr_report_specifier_id q))
         = None ->
         update_report request_id st
         = (Raise (AttributeError (match rr_r_ids q with
                                   | [] => "report_specifier_id"
                                   | _ :: _ => "report_descriptions"
                                   end)), st)).
Proof.
  split.
  - intro Hnone. unfold update_report. unfold_m. simpl. rewrite Hnone. reflexivity.
  - intros q Hq Hreport. unfold update_report. unfold_m. simpl.
    rewrite Hq, Hreport. destruct (rr_r_ids q); reflexivity.
Qed.

End SubscriptionFurther.

(** ** The queue worker *)

Section WorkerFurther.

Context {collaborators : Collaborators}.

(** An exchange whose outcome is one of those that return, returns. *)
Lemma perform_request_returns (service : string) (message : Message) (st : State) :
  next_exchange_returns (network (world st) service) = true ->
  exists reply, fst (_perform_request service message st) = Return reply.
Proof.
  unfold next_exchange_returns, exchange_returns, _perform_request. unfold_m. simpl.
  destruct (network (world st) service) as [|[status content|err|e] rest]; simpl;
    try discriminate; eauto.
  destruct (negb (status =? 200)); simpl; eauto.
  destruct (decodes_utf8 content); simpl;
    destruct (parse_message content) as [[t p]|e]; simpl; try discriminate; eauto.
Qed.

Lemma perform_request_raises (service : string) (message : Message) (st : State) :
  next_exchange_returns (network (world st) service) = false ->
  exists e, fst (_perform_request service message st) = Raise e.
Proof.
  unfold next_exchange_returns, exchange_returns, _perform_request. unfold_m. simpl.
  destruct (network (world st) service) as [|[status content|err|e] rest]; simpl;
    try discriminate; eauto.
  destruct (negb (status =? 200)); simpl; try discriminate.
  destruct (decodes_utf8 content); simpl;
    destruct (parse_message content) as [[t p]|e]; simpl; try discriminate; eauto.
Qed.

(** One turn of the worker when the exchange returns. *)
Lemma worker_turn_returns (previous : option Payload) (report : Report)
  (rest : list Report) (st : State) :
  next_exchange_returns (network (world st) "EiReport") = true ->
  exists payload st',
    _report_queue_worker_turn previous report rest st = (Return (Some payload), st')
    /\ self st' = set_pending_reports rest (self st)
    /\ sent "EiReport" st' = sent "EiReport" st ++ [oadrUpdateReport [report]]
    /\ network (world st') "EiReport" = tl (network (world st) "EiReport").
Proof.
  intro Hnext.
  unfold _report_queue_worker_turn, cancel_report. unfold_m. cbn [fst snd].
  match goal with
  | |- context [_perform_request ?sv ?m ?s0] =>
      pose proof (perform_request_self sv m s0) as Hself;
      destruct (perform_request_world sv m s0) as (Hnet & Hsent & _);
      destruct (perform_request_returns sv m s0 Hnext) as ([t payload] & Hreply);
      specialize (Hnet "EiReport"); specialize (Hsent "EiReport");
      destruct (_perform_request sv m s0) as [o s1]
  end.
  cbn [fst snd self world] in *. subst o.
  exists payload. 
  destruct (p_cancel_report payload); cbn [fst snd];
    (eexists; split; [reflexivity|]); cbn [fst snd];
    rewrite Hself, Hsent, Hnet; repeat split; reflexivity.
Qed.

Lemma worker_unfold (turns : nat) (previous : option Payload) (st : State) :
  _report_queue_worker (S turns) previous st
  = match pending_reports (self st) with
    | [] => (Return previous, st)
    | report :: rest =>
        bind (_report_queue_worker_turn previous report rest)
             (_report_queue_worker turns) st
    end.
Proof.
  cbn [_report_queue_worker]. unfold get_self at 1. unfold bind at 1. cbn [fst snd].
  destruct (pending_reports (self st)); reflexivity.
Qed.

(** X16. The queue worker is first in, first out. When every exchange with
    the report service returns (with a reply, or without one: the VTN
    cannot be connected to, or answers with a status other than 200), the
    worker takes the pending reports one by one from the head of the queue
    and posts one [oadrUpdateReport] for each, in the order of the queue;
    the queue is empty afterwards, so that a report the VTN did not get is
    not sent again; the reports, the subscriptions and the scheduler are as
    they were. *)
Theorem worker_sends_in_order (turns : nat) (previous : option Payload) (st : State) :
  Forall (fun o => exchange_returns o = true) (network (world st) "EiReport") ->
  (List.length (pending_reports (self st)) <= turns)%nat ->
  (exists last, fst (_report_queue_worker turns previous st) = Return last)
  /\ sent "EiReport" (snd (_report_queue_worker turns previous st))
     = sent "EiReport" st
         ++ map (fun report => oadrUpdateReport [report]) (pending_reports (self st))
  /\ pending_reports (self (snd (_report_queue_worker turns previous st))) = []
  /\ reports (self (snd (_report_queue_worker turns previous st))) = reports (self st)
  /\ report_requests (self (snd (_report_queue_worker turns previous st)))
     = report_requests (self st)
  /\ scheduler (self (snd (_report_queue_worker turns previous st)))
     = scheduler (self st).
Proof.
  revert previous st.
  induction turns as [|turns IH]; intros previous st Hscript Hturns.
  - destruct (pending_reports (self st)) eqn:Hqueue; [|simpl in Hturns; lia].
    simpl. rewrite ?Hqueue, ?app_nil_r. repeat split; eauto.
  - rewrite worker_unfold.
    destruct (pending_reports (self st)) as [|report rest] eqn:Hqueue.
    + simpl. rewrite ?Hqueue, ?app_nil_r. repeat split; eauto.
    + assert (Hnext : next_exchange_returns (network (world st) "EiReport") = true).
      { unfold next_exchange_returns. inversion Hscript; [reflexivity|assumption]. }
      destruct (worker_turn_returns previous report rest st Hnext)
        as (payload & st1 & Hturn & Hself & Hsent & Hnet).
      rewrite (bind_returns _ _ _ _ _ Hturn).
      destruct (IH (Some payload) st1) as (Hret & Hsent' & Hqueue' & Hfields).
      { rewrite Hnet. inversion Hscript; [constructor|assumption]. }
      { rewrite Hself. simpl in *. lia. }
      split; [exact Hret|]. rewrite Hsent', Hsent, Hself. cbn [map].
      rewrite <- app_assoc. split; [reflexivity|]. split; [exact Hqueue'|].
      rewrite Hself in Hfields. exact Hfields.
Qed.

(** X17. When the exchange of a turn raises (a reply that cannot be parsed,
    or an exception other than a failed connection), the worker reaches
    [breakpoint()] and goes on with the payload of the turn before: on its
    first turn there is none, and the worker ends with an
    [UnboundLocalError]; later, the earlier reply is read a second time. In
    both cases the report has left the queue. *)
Theorem worker_turn_after_failure (previous : option Payload) (report : Report)
  (rest : list Report) (st : State) :
  next_exchange_returns (network (world st) "EiReport") = false ->
  fst (_report_queue_worker_turn previous report rest st)
  = match previous with
    | Some payload => Return (Some payload)
    | None => Raise (UnboundLocalError "response_payload")
    end
  /\ pending_reports (self (snd (_report_queue_worker_turn previous report rest st)))
     = rest
  /\ exists before,
       trace (world (snd (_report_queue_worker_turn previous report rest st)))
       = before ++ [Breakpoint].
Proof.
  intro Hnext.
  unfold _report_queue_worker_turn, cancel_report. unfold_m. cbn [fst snd].
  match goal with
  | |- context [_perform_request ?sv ?m ?s0] =>
      pose proof (perform_request_self sv m s0) as Hself;
      destruct (perform_request_raises sv m s0 Hnext) as (e & Hraise);
      destruct (_perform_request sv m s0) as [o s1]
  end.
  cbn [fst snd self world] in *. subst o.
  destruct previous as [payload|]; cbn [fst snd self world trace].
  - destruct (p_cancel_report payload); cbn [fst snd self world trace];
      rewrite Hself; repeat split; eauto.
  - rewrite Hself; repeat split; eauto.
Qed.

End WorkerFurther.

(** ** Declaring reports, beyond the sampling rate *)

Section DeclarationFurther.

Context {collaborators : Collaborators}.

Lemma add_report_invalid (a : AddReport) (st : State) :
  valid_vocabulary a = false ->
  exists msg, add_report a st = (Raise (ValueError msg), st).
Proof.
  unfold valid_vocabulary, add_report. rewrite <- !negb_orb.
  destruct (str_in (ar_report_name a) REPORT_NAME_values
            || String.prefix "x-" (ar_report_name a)); cbn [negb andb];
    [|intros _; eexists; reflexivity].
  destruct (str_in (ar_reading_type a) READING_TYPE_values
            || String.prefix "x-" (ar_reading_type a)); cbn [negb andb];
    [|intros _; eexists; reflexivity].
  destruct (str_in (ar_report_type a) REPORT_TYPE_values
            || String.prefix "x-" (ar_report_type a)); cbn [negb andb];
    [|intros _; eexists; reflexivity].
  destruct (str_in (ar_scale a) SI_SCALE_CODE_values); cbn [negb andb];
    [|intros _; eexists; reflexivity].
  discriminate.
Qed.

(** Where [append_description] puts the description. *)
Lemma append_description_inserts (p : Report -> bool) (d : ReportDescription)
  (l : list Report) (r0 : Report) :
  find p l = Some r0 ->
  List.length (append_description p d l) = List.length l
  /\ map (fun r => (report_name r, report_specifier_id r)) (append_description p d l)
     = map (fun r => (report_name r, report_specifier_id r)) l
  /\ exists before after,
       flat_map report_descriptions l = before ++ after
       /\ flat_map report_descriptions (append_description p d l)
          = before ++ d :: after.
Proof.
  induction l as [|r l IH]; [discriminate|].
  cbn [find append_description]. destruct (p r).
  - intros _. split; [reflexivity|]. split; [reflexivity|].
    exists (report_descriptions r), (flat_map report_descriptions l).
    cbn [flat_map report_descriptions]. rewrite <- app_assoc. split; reflexivity.
  - intro Hfind. destruct (IH Hfind) as (Hlen & Hkeys & before & after & Hold & Hnew).
    cbn [List.length map flat_map]. rewrite Hlen, Hkeys, Hold, Hnew.
    split; [reflexivity|]. split; [reflexivity|].
    exists (report_descriptions r ++ before), after.
    rewrite <- !app_assoc. split; reflexivity.
Qed.

(** Writing a scale into an object changes neither the reports there are
    nor their names and specifier ids, and changes the descriptions one by
    one. *)
Lemma rescale_report_keys (o : object_id) (scale : string) (l : list Report) :
  List.length (map (rescale_report o scale) l) = List.length l
  /\ map (fun r => (report_name r, report_specifier_id r)) (map (rescale_report o scale) l)
     = map (fun r => (report_name r, report_specifier_id r)) l
  /\ flat_map report_descriptions (map (rescale_report o scale) l)
     = map (rescale o scale) (flat_map report_descriptions l).
Proof.
  split; [apply length_map|]. split.
  - rewrite map_map. reflexivity.
  - induction l as [|r l IH]; [reflexivity|].
    cbn [map flat_map]. rewrite IH, map_app. reflexivity.
Qed.

Lemma existsb_rescaled (a : AddReport) (o : object_id) (scale : string)
  (l : list Report) :
  existsb (report_for a) (map (rescale_report o scale) l) = existsb (report_for a) l.
Proof.
  induction l as [|r l IH]; [reflexivity|].
  cbn [map existsb]. rewrite IH. reflexivity.
Qed.

(** X18. [add_report] raises [ValueError] exactly when its report name,
    reading type, report type or scale is outside the vocabularies (and,
    for the first three, without the prefix of an extension); it does so
    before anything is done: the state is as it was. *)
Theorem add_report_rejects_vocabulary (a : AddReport) (st : State) :
  valid_vocabulary a = false
  <-> exists msg, add_report a st = (Raise (ValueError msg), st).
Proof.
  split; [apply add_report_invalid|].
  intros (msg & Hraise).
  destruct (valid_vocabulary a) eqn:Hvalid; [|reflexivity].
  destruct (unit_conflict a) eqn:Hconflict.
  - rewrite (add_report_conflict a st Hvalid Hconflict) in Hraise. discriminate.
  - destruct (add_report_run a st Hvalid Hconflict) as (st' & d & fresh & Hrun & _).
    rewrite Hrun in Hraise. discriminate.
Qed.

(** A report with the name and the specifier id looked for satisfies the
    test [add_report] looks with. *)
Lemma report_for_key (a : AddReport) (r fresh : Report) :
  report_for a fresh = true ->
  report_name r = report_name fresh ->
  report_specifier_id r = report_specifier_id fresh ->
  report_for a r = true.
Proof.
  unfold report_for. intros Hfresh -> ->. exact Hfresh.
Qed.

(** X19. No call of [add_report] gives two reports the same name and the
    same specifier id: when the reports of the client differ pairwise in
    their name or their specifier id, they still do afterwards. *)
Theorem add_report_keeps_keys_distinct (a : AddReport) (st : State) :
  NoDup (report_keys (self st)) ->
  NoDup (report_keys (self (snd (add_report a st)))).
Proof.
  intro Hnodup. unfold report_keys in *.
  destruct (valid_vocabulary a) eqn:Hvalid;
    [destruct (unit_conflict a) eqn:Hconflict|].
  - rewrite (add_report_conflict a st Hvalid Hconflict). exact Hnodup.
  - destruct (add_report_run a st Hvalid Hconflict)
      as (st' & d & fresh & Hrun & _ & _ & _ & _ & _ & _ & Hfresh & Hreports & _).
    rewrite Hrun. cbn [snd]. rewrite Hreports.
    destruct (rescale_report_keys (measurement_id d) (ar_scale a) (reports (self st)))
      as (_ & Hkeys & _).
    rewrite <- Hkeys in Hnodup.
    destruct (find (report_for a) _) as [r0|] eqn:Hfind.
    + destruct (append_description_inserts (report_for a) d _ r0 Hfind) as (_ & -> & _).
      exact Hnodup.
    + pose proof (find_last (report_for a) _ fresh Hfind Hfresh) as Hlast.
      destruct (append_description_inserts (report_for a) d _ fresh Hlast) as (_ & -> & _).
      rewrite map_app. cbn [map].
      apply NoDup_app; [exact Hnodup|repeat constructor; intros []|].
      intros key Hin [<-|[]].
      apply in_map_iff in Hin as (r & Hkey & Hr). injection Hkey as Hn Hs.
      pose proof (find_none _ _ Hfind r Hr) as Hno.
      rewrite (report_for_key a r fresh Hfresh Hn Hs) in Hno. discriminate.
  - destruct (add_report_invalid a st Hvalid) as (msg & ->). exact Hnodup.
Qed.

Lemma find_existsb {A} (p : A -> bool) (l : list A) :
  existsb p l = match find p l with Some _ => true | None => false end.
Proof.
  induction l as [|x l IH]; [reflexivity|]. simpl. destruct (p x); [reflexivity|exact IH].
Qed.

(** X20. A call of [add_report] with arguments from the vocabularies and a
    unit, if one is given, that the measurement has or accepts adds exactly
    one description, which carries the callable given and the measurement
    with the scale given. The descriptions there were keep their order, and
    are as they were but for the scale: the scale is written into the
    [Measurement] object itself, so that every earlier description that
    holds the same object (the same member of [enums.MEASUREMENTS], the
    same object of the application) shows the new scale as well. The call
    adds a report exactly when the client had none with the name (and the
    specifier id, when a non-empty one is given) looked for; it touches
    nothing else of the client object. *)
Theorem add_report_adds_one_description (a : AddReport) (st : State) :
  valid_vocabulary a = true ->
  unit_conflict a = false ->
  (exists d before after,
      callable d = ar_callable a
      /\ measurement d = with_si_scale_code (ar_scale a) (item_base a)
      /\ measurement_id d = item_base_id a (ids (world st))
      /\ map (rescale (measurement_id d) (ar_scale a)) (descriptions (self st))
         = before ++ after
      /\ descriptions (self (snd (add_report a st))) = before ++ d :: after)
  /\ List.length (reports (self (snd (add_report a st))))
     = (List.length (reports (self st))
        + if existsb (report_for a) (reports (self st)) then 0 else 1)%nat
  /\ self (snd (add_report a st))
     = set_reports (reports (self (snd (add_report a st)))) (self st).
Proof.
  intros Hvalid Hconflict. unfold descriptions.
  destruct (add_report_run a st Hvalid Hconflict)
    as (st' & d & fresh & Hrun & Hcallable & _ & Hmeasurement & Hid & _ & Hempty
        & Hfresh & Hreports & Hself).
  rewrite Hrun. cbn [snd].
  rewrite <- (existsb_rescaled a (measurement_id d) (ar_scale a)), find_existsb.
  destruct (rescale_report_keys (measurement_id d) (ar_scale a) (reports (self st)))
    as (Hlength & _ & Hdescriptions).
  rewrite <- Hlength.
  split; [|split; [|exact Hself]]; rewrite Hreports;
    destruct (find (report_for a) _) as [r0|] eqn:Hfind.
  - destruct (append_description_inserts (report_for a) d _ r0 Hfind)
      as (_ & _ & before & after & Hold & Hnew).
    exists d, before, after. rewrite <- Hdescriptions. repeat split; assumption.
  - pose proof (find_last (report_for a) _ fresh Hfind Hfresh) as Hlast.
    destruct (append_description_inserts (report_for a) d _ fresh Hlast)
      as (_ & _ & before & after & Hold & Hnew).
    exists d, before, after. rewrite <- Hdescriptions.
    repeat (split; [assumption|]). split; [|exact Hnew].
    rewrite <- Hold, flat_map_app. cbn [flat_map]. rewrite Hempty, !app_nil_r.
    reflexivity.
  - destruct (append_description_inserts (report_for a) d _ r0 Hfind) as (-> & _).
    lia.
  - pose proof (find_last (report_for a) _ fresh Hfind Hfresh) as Hlast.
    destruct (append_description_inserts (report_for a) d _ fresh Hlast) as (-> & _).
    rewrite length_app. reflexivity.
Qed.

End DeclarationFurther.

(** ** Full-auto mode, beyond the scenario *)

Section RunFurther.

Context {collaborators : Collaborators}.

Lemma bind_inv {A B} (m : M A) (k : A -> M B) (st st' : State) (b : B) :
  bind m k st = (Return b, st') ->
  exists a s1, m st = (Return a, s1) /\ k a s1 = (Return b, st').
Proof.
  unfold bind. destruct (m st) as [[a|e] s1]; [eauto|discriminate].
Qed.

(** A registration that gives nothing back leaves the client object alone
    and posts to the registration service only. *)
Lemma registration_without_reply (options : RegistrationOptions) (st : State) :
  fst (create_party_registration options st) = Return None ->
  self (snd (create_party_registration options st)) = self st
  /\ forall service,
       service <> "EiRegisterParty" ->
       sent service (snd (create_party_registration options st)) = sent service st.
Proof.
  unfold create_party_registration. unfold_m. cbn [fst snd].
  match goal with
  | |- context [_perform_request ?sv ?m ?s0] =>
      pose proof (perform_request_self sv m s0) as Hself;
      destruct (perform_request_world sv m s0) as (_ & Hsent & _);
      destruct (_perform_request sv m s0) as [[[t p]|e] s1]
  end; cbn [fst snd self world] in *; [|discriminate].
  assert (Hothers : forall service, service <> "EiRegisterParty" ->
                                    sent service s1 = sent service st).
  { intros service Hservice. rewrite Hsent.
    destruct (String.eqb_spec "EiRegisterParty" service) as [<-|_]; [contradiction|].
    reflexivity. }
  clear Hsent. unfold sent in *.
  destruct t as [t|]; cbn [fst snd self world trace];
    [|intros _; split; assumption].
  destruct (p_response p) as [response|]; cbn [fst snd]; [|discriminate].
  destruct (negb (response_code response =? 200)); cbn [fst snd].
  - destruct (response_description response); cbn [fst snd self world trace];
      [|discriminate].
    intros _. split; [exact Hself|]. intros service Hservice.
    rewrite posted_app. cbn [posted]. rewrite app_nil_r. apply Hothers, Hservice.
  - destruct (p_ven_id p); cbn [fst snd]; discriminate.
Qed.

(** X21. [run] gives up when the client has no [ven_id] and the
    registration brings none (the VTN cannot be connected to, or refuses):
    it logs the error and returns. The reports are not registered, nothing
    is polled, no job is scheduled, and the client object is as it was. *)
Theorem run_aborts_without_ven_id (depth : nat) (st : State) :
  truthy (ven_id (self st)) = false ->
  fst (create_party_registration default_registration st) = Return None ->
  fst (run depth st) = Return tt
  /\ self (snd (run depth st)) = self st
  /\ sent "OadrPoll" (snd (run depth st)) = sent "OadrPoll" st
  /\ sent "EiReport" (snd (run depth st)) = sent "EiReport" st
  /\ exists before,
       trace (world (snd (run depth st)))
       = before ++ [Log ERROR "No VEN ID received from the VTN, aborting."].
Proof.
  intros Hven Hreg.
  destruct (registration_without_reply default_registration st Hreg) as (Hself & Hsent).
  pose proof (Hsent "OadrPoll" ltac:(discriminate)) as Hpoll.
  pose proof (Hsent "EiReport" ltac:(discriminate)) as Hreport.
  clear Hsent. remember (run depth st) as r eqn:Hr.
  unfold run in Hr. unfold bind at 1 in Hr.
  destruct (create_party_registration default_registration st) as [o s1].
  cbn [fst snd] in *. subst o.
  unfold get_self at 1 in Hr. unfold bind at 1 in Hr. cbn [fst snd] in Hr.
  rewrite Hself, Hven in Hr. cbn [negb] in Hr. unfold_m. subst r.
  unfold sent in *. cbn [fst snd self world trace].
  rewrite !posted_app. cbn [posted]. rewrite !app_nil_r.
  repeat split; eauto.
Qed.

(** X22. Whenever [run] returns with a [ven_id] and a poll frequency [f]
    below one day, whatever the VTN sent in between, the poll job is the
    last job of the scheduler, with the trigger of the band of [f] and a
    random offset between 0 and [f] seconds (below one minute) or 59, and
    the scheduler is started. *)
Theorem run_schedules_poll_job (depth : nat) (st : State) (f : timedelta) :
  fst (run depth st) = Return tt ->
  truthy (ven_id (self (snd (run depth st)))) = true ->
  poll_frequency (self (snd (run depth st))) = Some f ->
  f < td_seconds 86400 ->
  exists before n,
    jobs (scheduler (self (snd (run depth st))))
    = before
        ++ [{| func := JobPoll;
               trigger :=
                 poll_trigger f
                   (randint_at n 0 (if f <? td_seconds 60 then td_seconds_attr f
                                    else 59)) |}]
    /\ running (scheduler (self (snd (run depth st)))) = true.
Proof.
  destruct (run depth st) as [o st'] eqn:Hrun. cbn [fst snd].
  intros -> Hven Hfreq Hday. unfold run in Hrun.
  apply bind_inv in Hrun as (reg & s1 & _ & Hrun).
  apply bind_inv in Hrun as (c & s1' & Hc & Hrun).
  injection Hc as <- <-.
  destruct (negb (truthy (ven_id (self s1)))) eqn:Hv.
  - unfold_m. injection Hrun as <-. cbn [self] in Hven. rewrite Hven in Hv.
    discriminate.
  - apply bind_inv in Hrun as (? & s2 & _ & Hrun).
    apply bind_inv in Hrun as (? & s3 & _ & Hrun).
    apply bind_inv in Hrun as (c & s3' & Hc & Hrun).
    injection Hc as <- <-.
    destruct (poll_frequency (self s3)) as [f'|] eqn:Hf; [|discriminate].
    cbn [getattr] in Hrun. unfold ret at 1 in Hrun. unfold bind at 1 in Hrun.
    cbn [fst snd] in Hrun. unfold poll_trigger.
    destruct (f' <? td_seconds 60) eqn:H60;
      [|destruct (f' <? td_seconds 3600) eqn:H3600;
        [|destruct (f' <? td_seconds 86400) eqn:H86400;
          [|destruct (td_seconds 86400 <? f') eqn:Hmore]]];
      unfold_m; cbn [fst snd self world] in Hrun; try discriminate;
      try (match type of Hrun with
           | context [create_trigger ?t] => destruct (create_trigger t) as [[]|]
           end);
      cbn [fst snd self world] in Hrun; try discriminate;
      injection Hrun as <-; cbn [self scheduler set_scheduler jobs running
                                   poll_frequency] in *;
      rewrite Hf in Hfreq; injection Hfreq as <-.
    + rewrite H60. eexists; eexists; split; reflexivity.
    + rewrite H60, H3600. eexists; eexists; split; reflexivity.
    + rewrite H60, H3600. eexists; eexists; split; reflexivity.
    + apply Z.ltb_ge in H86400. lia.
Qed.

End RunFurther.

(** ** The EiEvent service, whatever the handler gives *)

(** X23. The EiEvent service answers a request for events exactly when the
    request names a [ven_id] and the application registered an
    [on_request_event] handler that returns [None], a single event (as a
    dict or as an [Event]) or a list of events: the answer is then an
    [oadrDistributeEvent] with no event, that event, or these events. In
    every other case (no handler registered, among them) it raises. *)
Theorem service_request_event_answers (svc : EventService.t) (payload : Payload)
  (response_type : string) (events : list Event) :
  fst (EventService.request_event svc payload) = Return (response_type, events)
  <-> response_type = "oadrDistributeEvent"
      /\ exists handler ven result,
           EventService.registered_on_request_event svc = Some handler
           /\ p_ven_id payload = Some ven
           /\ handler ven = Return result
           /\ events_of result = Some events.
Proof.
  unfold EventService.request_event, EventService.lookup_on_request_event. split.
  - destruct (p_ven_id payload) as [ven|]; [|discriminate].
    destruct (EventService.registered_on_request_event svc) as [handler|];
      [|discriminate].
    destruct (handler ven) as [[]|] eqn:Hhandler; cbn [fst]; try discriminate;
      intros [= <- <-]; (split; [reflexivity|]);
      exists handler, ven; eexists; repeat split; try eassumption; reflexivity.
  - intros (-> & handler & ven & result & -> & -> & Hhandler & Hevents).
    rewrite Hhandler. destruct result; cbn in Hevents; try discriminate;
      injection Hevents as <-; reflexivity.
Qed.

(** * The further statements on cases *)

(** X2 on a registration reply whose body does not decode: the reply is
    returned all the same, after [breakpoint()]. *)
Lemma perform_request_parses_witness :
  fst (_perform_request (collaborators := Cases.registrar) "EiRegisterParty"
         (oadrCreatePartyRegistration "B" "ven" default_registration)
         (Cases.registering (Responded 200 "registered")))
    = Return (Some "oadrCreatedPartyRegistration", Scenario.registered None)
  /\ trace (world (snd (_perform_request (collaborators := Cases.registrar)
                          "EiRegisterParty"
                          (oadrCreatePartyRegistration "B" "ven" default_registration)
                          (Cases.registering (Responded 200 "registered")))))
     = [Log DEBUG "Client is sending";
        Post "EiRegisterParty"
             (oadrCreatePartyRegistration "B" "ven" default_registration);
        Breakpoint].
Proof.
  exact (perform_request_parses (collaborators := Cases.registrar) "EiRegisterParty"
           (oadrCreatePartyRegistration "B" "ven" default_registration)
           (Cases.registering (Responded 200 "registered"))
           "registered" [] "oadrCreatedPartyRegistration" (Scenario.registered None)
           eq_refl eq_refl).
Defined.

(** X3 on a poll that times out. *)
Lemma perform_request_masks_exception_witness :
  fst (_perform_request (collaborators := Scenario.vtn None) "OadrPoll"
         (oadrPoll (Some "ven123"))
         (Scenario.polling [OtherError (Exception "TimeoutError")]))
    = Raise (UnboundLocalError "content")
  /\ trace (world (snd (_perform_request (collaborators := Scenario.vtn None) "OadrPoll"
                          (oadrPoll (Some "ven123"))
                          (Scenario.polling [OtherError (Exception "TimeoutError")]))))
     = [Log DEBUG "Client is sending"; Post "OadrPoll" (oadrPoll (Some "ven123"));
        Breakpoint].
Proof.
  exact (perform_request_masks_exception (collaborators := Scenario.vtn None) "OadrPoll"
           (oadrPoll (Some "ven123"))
           (Scenario.polling [OtherError (Exception "TimeoutError")])
           (Exception "TimeoutError") [] eq_refl).
Defined.

(** X4 on three replies: without [response], with code 200 and without
    [ven_id], with code 403 and without [response_description]. *)
Lemma create_party_registration_missing_key_witness :
  fst (create_party_registration (collaborators := Cases.registrar)
         default_registration (Cases.registering (Responded 200 "bare")))
    = Raise (KeyError "response")
  /\ fst (create_party_registration (collaborators := Cases.registrar)
            default_registration (Cases.registering (Responded 200 "anonymous")))
     = Raise (KeyError "ven_id")
  /\ fst (create_party_registration (collaborators := Cases.registrar)
            default_registration (Cases.registering (Responded 200 "curt")))
     = Raise (KeyError "response_description").
Proof.
  split; [|split].
  - destruct (create_party_registration_missing_key (collaborators := Cases.registrar)
                default_registration (Cases.registering (Responded 200 "bare"))
                "bare" [] "oadrCreatedPartyRegistration" Cases.no_response
                eq_refl eq_refl) as (Hbare & _).
    exact (proj1 (Hbare eq_refl)).
  - destruct (create_party_registration_missing_key (collaborators := Cases.registrar)
                default_registration (Cases.registering (Responded 200 "anonymous"))
                "anonymous" [] "oadrCreatedPartyRegistration" Cases.no_ven_id
                eq_refl eq_refl) as (_ & Hanonymous & _).
    exact (proj1 (Hanonymous Scenario.ok eq_refl eq_refl eq_refl)).
  - destruct (create_party_registration_missing_key (collaborators := Cases.registrar)
                default_registration (Cases.registering (Responded 200 "curt"))
                "curt" [] "oadrCreatedPartyRegistration" Cases.no_description
                eq_refl eq_refl) as (_ & _ & Hcurt).
    exact (proj1 (Hcurt {| response_code := 403; response_description := None |}
                    eq_refl ltac:(discriminate) eq_refl)).
Defined.

(** X5 on a message with two events: the first one is acknowledged. *)
Lemma on_event_acknowledges_first_event_witness :
  sent "EiEvent" (snd (_on_event (collaborators := Scenario.vtn None) Cases.two_events
                         (Scenario.polling [])))
    = [oadrCreatedEvent (Some "ven123") "request7" "event1" 1 "optIn"]
  /\ self (snd (_on_event (collaborators := Scenario.vtn None) Cases.two_events
                  (Scenario.polling [])))
     = Scenario.ven_with_handler.
Proof.
  exact (on_event_acknowledges_first_event (collaborators := Scenario.vtn None)
           (Scenario.polling []) Cases.two_events (fun _ => Return "optIn")
           "optIn" "request7" {| event_descriptor := {| event_id := "event1" |} |}
           [{| event_descriptor := {| event_id := "event2" |} |}]
           eq_refl eq_refl eq_refl eq_refl).
Defined.

(** X6 on a message with an empty list of events. *)
Lemma on_event_failure_sends_nothing_witness :
  fst (_on_event (collaborators := Scenario.vtn None) Cases.no_events
         (Scenario.polling []))
    = Raise IndexError
  /\ sent "EiEvent" (snd (_on_event (collaborators := Scenario.vtn None) Cases.no_events
                            (Scenario.polling [])))
     = []
  /\ on_event_calls (snd (_on_event (collaborators := Scenario.vtn None) Cases.no_events
                            (Scenario.polling [])))
     = 1%nat.
Proof.
  destruct (on_event_failure_sends_nothing (collaborators := Scenario.vtn None)
              (Scenario.polling []) Cases.no_events (fun _ => Return "optIn")
              IndexError "EiEvent" eq_refl eq_refl) as (Hraise & Hsent & Hcalls & _).
  split; [exact Hraise|]. split; [exact Hsent|exact Hcalls].
Defined.

(** X7 on a VTN that answers the poll with a 503. *)
Lemma poll_without_reply_returns_witness :
  fst (_poll (collaborators := Scenario.vtn None) 1
         (Scenario.polling [Responded 503 "Service Unavailable"; Responded 200 "event"]))
    = Return tt
  /\ sent "OadrPoll"
          (snd (_poll (collaborators := Scenario.vtn None) 1
                  (Scenario.polling [Responded 503 "Service Unavailable";
                                     Responded 200 "event"])))
     = [oadrPoll (Some "ven123")]
  /\ on_event_calls
       (snd (_poll (collaborators := Scenario.vtn None) 1
               (Scenario.polling [Responded 503 "Service Unavailable";
                                  Responded 200 "event"])))
     = 0%nat.
Proof.
  destruct (poll_without_reply_returns (collaborators := Scenario.vtn None) 0
              (Scenario.polling [Responded 503 "Service Unavailable";
                                 Responded 200 "event"]) eq_refl)
    as (Hreturn & Hsent & Hcalls & _).
  split; [exact Hreturn|]. split; [exact Hsent|exact Hcalls].
Defined.

(** X8 on two messages of a type without a branch, then the no-content
    reply; the event behind it is not asked for. *)
Lemma poll_ignores_unknown_types_witness :
  fst (_poll (collaborators := Scenario.vtn None) 3
         (Scenario.polling [Responded 200 "queried"; Responded 200 "queried";
                            Responded 200 "nothing"; Responded 200 "event"]))
    = Return tt
  /\ polls (snd (_poll (collaborators := Scenario.vtn None) 3
                   (Scenario.polling [Responded 200 "queried"; Responded 200 "queried";
                                      Responded 200 "nothing"; Responded 200 "event"])))
     = 3%nat
  /\ warnings (snd (_poll (collaborators := Scenario.vtn None) 3
                      (Scenario.polling [Responded 200 "queried"; Responded 200 "queried";
                                         Responded 200 "nothing"; Responded 200 "event"])))
     = 2%nat
  /\ network (world (snd (_poll (collaborators := Scenario.vtn None) 3
                            (Scenario.polling [Responded 200 "queried";
                                               Responded 200 "queried";
                                               Responded 200 "nothing";
                                               Responded 200 "event"]))))
             "OadrPoll"
     = [Responded 200 "event"].
Proof.
  destruct (poll_ignores_unknown_types (collaborators := Scenario.vtn None)
              [("queried", ("oadrCreatedOpt", Scenario.with_response Scenario.ok));
               ("queried", ("oadrCreatedOpt", Scenario.with_response Scenario.ok))]
              "nothing" (Scenario.with_response Scenario.ok) [Responded 200 "event"] 3
              (Scenario.polling [Responded 200 "queried"; Responded 200 "queried";
                                 Responded 200 "nothing"; Responded 200 "event"])
              ltac:(repeat constructor) eq_refl eq_refl ltac:(simpl; lia))
    as (Hreturn & _ & Hpolls & Hwarnings & Hscript).
  split; [exact Hreturn|]. split; [exact Hpolls|]. split; [exact Hwarnings|exact Hscript].
Defined.

(** X9 on a VEN without identity: the poll before the registration is
    anonymous, the one after it carries the new [ven_id]. *)
Lemma poll_reregisters_witness :
  fst (_poll (collaborators := Scenario.vtn (Some (td_seconds 30))) 2
         Cases.reregistering)
    = Return tt
  /\ ven_id (self (snd (_poll (collaborators := Scenario.vtn (Some (td_seconds 30))) 2
                          Cases.reregistering)))
     = Some "ven123"
  /\ poll_frequency
       (self (snd (_poll (collaborators := Scenario.vtn (Some (td_seconds 30))) 2
                     Cases.reregistering)))
     = Some (td_seconds 30)
  /\ sent "OadrPoll"
          (snd (_poll (collaborators := Scenario.vtn (Some (td_seconds 30))) 2
                  Cases.reregistering))
     = [oadrPoll None; oadrPoll (Some "ven123")]
  /\ warnings (snd (_poll (collaborators := Scenario.vtn (Some (td_seconds 30))) 2
                      Cases.reregistering))
     = 1%nat.
Proof.
  destruct (poll_reregisters (collaborators := Scenario.vtn (Some (td_seconds 30)))
              Cases.reregistering "reregister" "nothing" "registered"
              (Scenario.with_response Scenario.ok) (Scenario.with_response Scenario.ok)
              (Scenario.registered (Some (td_seconds 30))) [] []
              "oadrCreatedPartyRegistration" "ven123" Scenario.ok 2
              eq_refl eq_refl eq_refl eq_refl eq_refl eq_refl eq_refl eq_refl
              ltac:(lia))
    as (Hreturn & Hid & Hfreq & _ & Hsent & _ & Hwarnings).
  split; [exact Hreturn|]. split; [exact Hid|]. split; [exact Hfreq|].
  split; [exact Hsent|exact Hwarnings].
Defined.

(** X10 on a VTN that sends an [oadrUpdateReport] to who polls. *)
Lemma poll_update_report_raises_witness :
  fst (_poll (collaborators := Cases.reporter) 5 Cases.offering)
    = Raise (AttributeError "_on_report")
  /\ network (world (snd (_poll (collaborators := Cases.reporter) 5 Cases.offering)))
             "OadrPoll"
     = [Responded 200 "nothing"]
  /\ polls (snd (_poll (collaborators := Cases.reporter) 5 Cases.offering)) = 1%nat.
Proof.
  destruct (poll_update_report_raises (collaborators := Cases.reporter) Cases.offering
              "update" [Responded 200 "nothing"] (Scenario.with_response Scenario.ok) 4
              eq_refl eq_refl eq_refl) as (Hraise & Hscript & Hpolls & _).
  split; [exact Hraise|]. split; [exact Hscript|exact Hpolls].
Defined.

(** X12 on a request for R9 (unknown), R2 and R1 of report "S1" every 10
    seconds during one hour. *)
Lemma create_report_interval_raises_witness :
  fst (create_report (collaborators := Scenario.vtn None)
         (Cases.ask "request1" (td_seconds 10) (Some Cases.one_hour) ["R9"; "R2"; "R1"])
         Scenario.negotiating)
    = Raise (KeyError "dtstart")
  /\ self (snd (create_report (collaborators := Scenario.vtn None)
                  (Cases.ask "request1" (td_seconds 10) (Some Cases.one_hour)
                             ["R9"; "R2"; "R1"])
                  Scenario.negotiating))
     = Scenario.ven_reporting [] [] [].
Proof.
  exact (create_report_interval_raises (collaborators := Scenario.vtn None)
           Scenario.negotiating
           (Cases.ask "request1" (td_seconds 10) (Some Cases.one_hour) ["R9"; "R2"; "R1"])
           Scenario.report_S1 (td_seconds 10) Cases.one_hour
           eq_refl eq_refl eq_refl eq_refl).
Defined.

(** X13 on a VTN that asks for R1 and R2 every 10 seconds, then for R2 and
    R9 (unknown) every 30 seconds. *)
Lemma register_reports_subscribes_in_order_witness :
  report_requests
    (self (snd (register_reports (collaborators := Cases.reporter)
                  [Scenario.report_S1] Cases.offering)))
    = [Cases.subscribed "request1" (td_seconds 10) ["R1"; "R2"];
       Cases.subscribed "request2" (td_seconds 30) ["R2"]]
  /\ map func
         (jobs (scheduler
                  (self (snd (register_reports (collaborators := Cases.reporter)
                                [Scenario.report_S1] Cases.offering)))))
     = [JobUpdateReport "request1"; JobUpdateReport "request2"].
Proof.
  destruct (register_reports_subscribes_in_order (collaborators := Cases.reporter)
              [Scenario.report_S1] Cases.offering "subscribe" []
              "oadrRegisteredReport" Cases.registered_report
              [Cases.ask "request1" (td_seconds 10) None ["R1"; "R2"];
               Cases.ask "request2" (td_seconds 30) None ["R2"; "R9"]]
              [Cases.subscribed "request1" (td_seconds 10) ["R1"; "R2"];
               Cases.subscribed "request2" (td_seconds 30) ["R2"]]
              eq_refl eq_refl eq_refl eq_refl)
    as (_ & Hrequests & Hjobs & _).
  split; [exact Hrequests|]. rewrite Hjobs. reflexivity.
Defined.

(** X24 on a VTN that cannot be connected to. *)
Lemma register_reports_without_reply_witness :
  fst (register_reports (collaborators := Scenario.vtn None) [Scenario.report_S1]
         Scenario.negotiating)
    = Return (None, empty_payload)
  /\ self (snd (register_reports (collaborators := Scenario.vtn None)
                  [Scenario.report_S1] Scenario.negotiating))
     = Scenario.ven_reporting [] [] []
  /\ sent "EiReport"
          (snd (register_reports (collaborators := Scenario.vtn None)
                  [Scenario.report_S1] Scenario.negotiating))
     = [oadrRegisterReport "B" (Some "ven123") [Scenario.report_S1]].
Proof.
  exact (register_reports_without_reply (collaborators := Scenario.vtn None)
           [Scenario.report_S1] Scenario.negotiating eq_refl).
Defined.

(** X14 on a subscription to R2 every 10 seconds. *)
Lemma subscription_then_tick_witness :
  exists st1 st2 delivered,
    create_report (collaborators := Scenario.vtn None)
      (Cases.ask "request1" (td_seconds 10) None ["R2"]) Scenario.negotiating
    = (Return None, st1)
    /\ update_report "request1" st1 = (Return tt, st2)
    /\ pending_reports (self st2) = [delivered]
    /\ interval_r_ids delivered = ["R2"]
    /\ report_request_id delivered = Some "request1".
Proof.
  destruct (subscription_then_tick (collaborators := Scenario.vtn None)
              Scenario.negotiating (Cases.ask "request1" (td_seconds 10) None ["R2"])
              (Cases.subscribed "request1" (td_seconds 10) ["R2"]) Scenario.report_S1
              eq_refl eq_refl eq_refl ltac:(intro t; repeat constructor))
    as (st1 & st2 & delivered & Hrun & _ & Htick & Hpending & Hrids & Hid & _).
  exists st1, st2, delivered.
  split; [exact Hrun|]. split; [exact Htick|]. split; [exact Hpending|].
  split; [exact Hrids|exact Hid].
Defined.

(** X16 on a queue of two reports: the VTN answers the first with a 503 and
    acknowledges the second. *)
Lemma worker_sends_in_order_witness :
  sent "EiReport"
       (snd (_report_queue_worker (collaborators := Scenario.vtn None) 2 None
               (Cases.queued [Responded 503 "Service Unavailable";
                              Responded 200 "cancel"])))
    = [oadrUpdateReport [Scenario.pending]; oadrUpdateReport [Cases.second_pending]]
  /\ pending_reports
       (self (snd (_report_queue_worker (collaborators := Scenario.vtn None) 2 None
                     (Cases.queued [Responded 503 "Service Unavailable";
                                    Responded 200 "cancel"]))))
     = [].
Proof.
  destruct (worker_sends_in_order (collaborators := Scenario.vtn None) 2 None
              (Cases.queued [Responded 503 "Service Unavailable"; Responded 200 "cancel"])
              ltac:(repeat constructor) ltac:(simpl; lia))
    as (_ & Hsent & Hqueue & _).
  split; [exact Hsent|exact Hqueue].
Defined.

(** X17 on a first acknowledgement that cannot be parsed, and on the same
    after an earlier acknowledgement. *)
Lemma worker_turn_after_failure_witness :
  fst (_report_queue_worker_turn (collaborators := Scenario.vtn None) None
         Scenario.pending [Cases.second_pending] (Cases.queued [Responded 200 "<html>"]))
    = Raise (UnboundLocalError "response_payload")
  /\ pending_reports
       (self (snd (_report_queue_worker_turn (collaborators := Scenario.vtn None) None
                     Scenario.pending [Cases.second_pending]
                     (Cases.queued [Responded 200 "<html>"]))))
     = [Cases.second_pending]
  /\ fst (_report_queue_worker_turn (collaborators := Scenario.vtn None)
            (Some Scenario.updated_report_cancel)
            Scenario.pending [Cases.second_pending] (Cases.queued [Responded 200 "<html>"]))
     = Return (Some Scenario.updated_report_cancel).
Proof.
  destruct (worker_turn_after_failure (collaborators := Scenario.vtn None) None
              Scenario.pending [Cases.second_pending]
              (Cases.queued [Responded 200 "<html>"]) eq_refl)
    as (Hfirst & Hqueue & _).
  destruct (worker_turn_after_failure (collaborators := Scenario.vtn None)
              (Some Scenario.updated_report_cancel)
              Scenario.pending [Cases.second_pending]
              (Cases.queued [Responded 200 "<html>"]) eq_refl)
    as (Hlater & _).
  split; [exact Hfirst|]. split; [exact Hqueue|exact Hlater].
Defined.

(** X18 on a report name outside the vocabulary. *)
Lemma add_report_rejects_vocabulary_witness :
  exists msg,
    add_report (collaborators := Scenario.vtn None) Cases.misnamed Scenario.declaring
    = (Raise (ValueError msg), Scenario.declaring).
Proof.
  exact (proj1 (add_report_rejects_vocabulary (collaborators := Scenario.vtn None)
                  Cases.misnamed Scenario.declaring) eq_refl).
Defined.

(** X19 on a second data point declared for report "S1". *)
Lemma add_report_keeps_keys_distinct_witness :
  NoDup (report_keys
           (self (snd (add_report (collaborators := Scenario.vtn None)
                         (Scenario.declare NoSamplingRate) Scenario.negotiating)))).
Proof.
  apply (add_report_keeps_keys_distinct (collaborators := Scenario.vtn None)
           (Scenario.declare NoSamplingRate) Scenario.negotiating).
  repeat constructor. intros [].
Defined.

(** X20 on a data point declared in kilovolts for report "S1", which has
    two data points in volts: the report is the one there was, and its three
    descriptions, which hold the one [Measurement] object of the vocabulary,
    all show the new scale. *)
Lemma add_report_adds_one_description_witness :
  Forall (fun d => si_scale_code (measurement d) = Some "k")
         (descriptions
            (self (snd (add_report (collaborators := Scenario.vtn None)
                          Cases.kilovolts Scenario.negotiating))))
  /\ List.length (descriptions
                    (self (snd (add_report (collaborators := Scenario.vtn None)
                                  Cases.kilovolts Scenario.negotiating))))
     = 3%nat
  /\ List.length (reports
                    (self (snd (add_report (collaborators := Scenario.vtn None)
                                  Cases.kilovolts Scenario.negotiating))))
     = 1%nat.
Proof.
  destruct (add_report_adds_one_description (collaborators := Scenario.vtn None)
              Cases.kilovolts Scenario.negotiating eq_refl eq_refl)
    as ((d & before & after & _ & Hmeasurement & Hid & Hold & Hnew) & Hlen & _).
  split; [|split; [|exact Hlen]]; rewrite Hnew.
  - rewrite Hid in Hold.
    assert (Hthere : Forall (fun d => si_scale_code (measurement d) = Some "k")
                            (before ++ after))
      by (rewrite <- Hold; repeat constructor).
    apply Forall_app in Hthere as (Hbefore & Hafter).
    apply Forall_app. split; [exact Hbefore|].
    constructor; [rewrite Hmeasurement; reflexivity|exact Hafter].
  - apply (f_equal (@List.length _)) in Hold.
    rewrite length_app in *. cbn [List.length]. rewrite length_map in Hold.
    cbn in Hold. lia.
Defined.

(** X21 on a new VEN and a VTN that cannot be connected to. *)
Lemma run_aborts_without_ven_id_witness :
  fst (run (collaborators := Scenario.vtn None) 5 Scenario.declaring) = Return tt
  /\ self (snd (run (collaborators := Scenario.vtn None) 5 Scenario.declaring))
     = Scenario.ven
  /\ sent "OadrPoll" (snd (run (collaborators := Scenario.vtn None) 5 Scenario.declaring))
     = [].
Proof.
  destruct (run_aborts_without_ven_id (collaborators := Scenario.vtn None) 5
              Scenario.declaring eq_refl eq_refl) as (Hreturn & Hself & Hpoll & _).
  split; [exact Hreturn|]. split; [exact Hself|exact Hpoll].
Defined.

(** X22 on a poll frequency of five minutes. *)
Lemma run_schedules_poll_job_witness :
  exists before n,
    jobs (scheduler
            (self (snd (run (collaborators := Scenario.vtn (Some (td_seconds 300))) 5
                          Scenario.starting))))
    = before
        ++ [{| func := JobPoll;
               trigger :=
                 {| second := CronAt (randint_at
                                        (Collaborators := Scenario.vtn (Some (td_seconds 300)))
                                        n 0 59);
                    minute := CronStep None 5; hour := CronAny |} |}]
    /\ running (scheduler
                  (self (snd (run (collaborators := Scenario.vtn (Some (td_seconds 300))) 5
                                Scenario.starting))))
       = true.
Proof.
  exact (run_schedules_poll_job (collaborators := Scenario.vtn (Some (td_seconds 300))) 5
           Scenario.starting (td_seconds 300) eq_refl eq_refl eq_refl eq_refl).
Defined.
